(** * TicVision local-first data layer: TicStore and SuggestionStore

    A shallow embedding of the two zustand stores of the repository
    (lib/TicStore and lib/SuggestionStore) and of the record types of
    app/types/global.ts, followed by theorems about their create, update,
    drain, cache, cooldown and persistence paths.

    Conventions of the embedding.
    - A JavaScript object used as a dictionary ([Record<string, T>]) is a
      [gmap string T]; an array is a [list].
    - A valid [Date] is its time value, an integer number of milliseconds
      ([Z]); [Date.now()] reads the clock of the [World].  Where the code
      reads a field that a reload leaves as a text ([lastAIGeneration]),
      the field holds either (a [Stamp.t]).
    - [set(produce(recipe))] is the functional update that the recipe
      describes: the recipe's assignments are applied to the current state
      in program order and the result replaces the state.  The objects a
      recipe reads from the state are immer's drafts, which matters where
      a recipe compares objects by identity ([Identity], [includes]).
    - An [async] action is a computation in the monad [M]: it threads the
      [World] (both stores, the clock, the persisted key-value storage,
      the trace of remote requests) and either returns or throws.  Every
      [await] runs to completion before the next statement, so one action
      is never interleaved with another.
    - The collaborators the stores do not implement (the remote server,
      the uuid generator, the JSON codec, [Date] parsing and printing,
      storage faults) are the fields of an [Env]. *)

From stdpp Require Import gmap strings list fin_maps pretty.
From Stdlib Require Import ZArith.

Set Warnings "-register-all".

Local Open Scope string_scope.
Local Open Scope list_scope.
Local Open Scope Z_scope.

(** ** Record types (app/types/global.ts) *)

Module TicLog.
Record t := mk {
  id : string;
  notes : string;
  userId : string;
  intensity : Z;
  ticTypeId : string;
  timeOfDay : string;
  timestamp : Z
}.

Definition with_id (i : string) (l : t) : t :=
  mk i (notes l) (userId l) (intensity l) (ticTypeId l) (timeOfDay l)
     (timestamp l).
End TicLog.

Module TicType.
Record t := mk {
  id : string;
  name : string;
  category : string;
  isCustom : bool;
  description : string
}.
End TicType.

Module Suggestion.
Record t := mk {
  id : string;
  title : string;
  source : string;
  category : string;
  createdAt : Z;
  ticTypeId : string;
  description : string;
  isAIGenerated : bool
}.
End Suggestion.

Module UserSuggestionFeedback.
Record t := mk {
  id : string;
  notes : string;
  userId : string;
  lastUsedDate : Z;
  suggestionId : string;
  effectiveness : Z;
  isCurrentlyUsing : bool
}.
End UserSuggestionFeedback.

(** The argument of [logTic], [Omit<TicLog, 'id' | 'timestamp'>].  The
    object literal of [logTic] spreads it last, so a [userId] property of
    the argument overrides the caller identity; [None] is an argument
    without that property. *)
Module LogInput.
Record t := mk {
  notes : string;
  userId : option string;
  intensity : Z;
  ticTypeId : string;
  timeOfDay : string
}.
End LogInput.

(** The argument of [provideFeedback], [Omit<UserSuggestionFeedback, 'id'>].
    The object literal of [provideFeedback] spreads it first and then sets
    [id] and [userId], so whatever [id] or [userId] the argument carries is
    overwritten: only the five fields below reach the new record. *)
Module FeedbackInput.
Record t := mk {
  notes : string;
  lastUsedDate : Z;
  suggestionId : string;
  effectiveness : Z;
  isCurrentlyUsing : bool
}.

(** [provideFeedback(op.data)]: a whole feedback record passed as input. *)
Definition of_feedback (f : UserSuggestionFeedback.t) : t :=
  mk (UserSuggestionFeedback.notes f)
     (UserSuggestionFeedback.lastUsedDate f)
     (UserSuggestionFeedback.suggestionId f)
     (UserSuggestionFeedback.effectiveness f)
     (UserSuggestionFeedback.isCurrentlyUsing f).
End FeedbackInput.

(** ** Run-time values

    What [JSON.parse] returns and what [JSON.stringify] takes: JSON values
    and [Date] objects ([VDate None] is an invalid [Date]).  An object is
    the list of its own properties; a property that is absent reads as
    [undefined], here [None]. *)

Inductive Value :=
| VNull
| VBool (b : bool)
| VNum (n : Z)
| VStr (s : string)
| VDate (t : option Z)
| VArr (items : list Value)
| VObj (props : list (string * Value)).

Definition Obj := list (string * Value).

Fixpoint obj_get (k : string) (o : Obj) : option Value :=
  match o with
  | [] => None
  | (k', v) :: o' => if String.eqb k k' then Some v else obj_get k o'
  end.

(** [o[k] = v]: overwrite in place, or append a new property. *)
Fixpoint obj_set (k : string) (v : Value) (o : Obj) : Obj :=
  match o with
  | [] => [(k, v)]
  | (k', v') :: o' =>
      if String.eqb k k' then (k, v) :: o' else (k', v') :: obj_set k v o'
  end.

(** [{...a, ...b}] *)
Definition obj_spread (a b : Obj) : Obj :=
  fold_left (fun acc kv => obj_set (fst kv) (snd kv) acc) b a.

Definition obj_keys (o : Obj) : list string := map fst o.

Fixpoint indexed (i : nat) (l : list Value) : Obj :=
  match l with
  | [] => []
  | v :: l' => (pretty i, v) :: indexed (S i) l'
  end.

Fixpoint chars (s : string) : list Value :=
  match s with
  | EmptyString => []
  | String c s' => VStr (String c EmptyString) :: chars s'
  end.

(** The own enumerable properties that [...v] copies. *)
Definition own_props (v : Value) : Obj :=
  match v with
  | VObj o => o
  | VArr l => indexed 0 l
  | VStr s => indexed 0 (chars s)
  | _ => []
  end.

(** [v.k] and [v?.k] on a value that is not [null] or [undefined]. *)
Definition prop (k : string) (v : Value) : option Value :=
  match v with
  | VObj o => obj_get k o
  | _ => None
  end.

(** Whether the conversion of a value read from JSON to a primitive throws
    a [TypeError].  An object made by [JSON.parse] inherits [valueOf], which
    returns the object itself, and [toString], unless it has an own
    property of that name, which is then not callable: with an own
    [toString] no method yields a primitive.  An array is joined, which
    converts each element that is not [null] in the same way. *)
Fixpoint no_primitive (v : Value) : bool :=
  match v with
  | VObj o => bool_decide (is_Some (obj_get "toString" o))
  | VArr items => existsb no_primitive items
  | _ => false
  end.

(** Truthiness of a possibly [undefined] value. *)
Definition truthy (v : option Value) : bool :=
  match v with
  | None | Some VNull => false
  | Some (VBool b) => b
  | Some (VNum n) => negb (Z.eqb n 0)
  | Some (VStr s) => negb (String.eqb s EmptyString)
  | Some (VDate _) | Some (VArr _) | Some (VObj _) => true
  end.

Definition opt_value {A} (f : A -> Value) (o : option A) : Value :=
  match o with
  | Some a => f a
  | None => VNull
  end.

Definition date_value (t : Z) : Value := VDate (Some t).

(** A dictionary as an object.  The properties come in the order of
    [map_to_list]; JavaScript's insertion order is not tracked. *)
Definition dict_value {A} (f : A -> Value) (m : gmap string A) : Value :=
  VObj (map (fun kv => (fst kv, f (snd kv))) (map_to_list m)).

Definition list_value {A} (f : A -> Value) (l : list A) : Value :=
  VArr (map f l).

(** ** Store states *)

Module FilterSettings.
Record t := mk {
  startDate : Z;
  endDate : Z;
  timeOfDay : list string;
  intensityRange : Z * Z
}.
End FilterSettings.

(** An entry of [cachedHistoryRanges]; [timestamp] is a [Date.now()]
    number, not a [Date]. *)
Module CachedRange.
Record t := mk {
  logs : list TicLog.t;
  timestamp : Z
}.
End CachedRange.

Module TicStoreState.
Record t := mk {
  error : option string;
  ticLogs : gmap string TicLog.t;
  lastSync : option Z;
  ticTypes : gmap string TicType.t;
  isLoading : bool;
  recentLogs : list TicLog.t;
  pendingLogs : list TicLog.t;
  selectedTicType : option string;
  filterSettings : FilterSettings.t;
  cachedHistoryRanges : gmap string CachedRange.t
}.

Definition set_error v s :=
  mk v (ticLogs s) (lastSync s) (ticTypes s) (isLoading s) (recentLogs s)
     (pendingLogs s) (selectedTicType s) (filterSettings s)
     (cachedHistoryRanges s).
Definition set_ticLogs v s :=
  mk (error s) v (lastSync s) (ticTypes s) (isLoading s) (recentLogs s)
     (pendingLogs s) (selectedTicType s) (filterSettings s)
     (cachedHistoryRanges s).
Definition set_lastSync v s :=
  mk (error s) (ticLogs s) v (ticTypes s) (isLoading s) (recentLogs s)
     (pendingLogs s) (selectedTicType s) (filterSettings s)
     (cachedHistoryRanges s).
Definition set_isLoading v s :=
  mk (error s) (ticLogs s) (lastSync s) (ticTypes s) v (recentLogs s)
     (pendingLogs s) (selectedTicType s) (filterSettings s)
     (cachedHistoryRanges s).
Definition set_recentLogs v s :=
  mk (error s) (ticLogs s) (lastSync s) (ticTypes s) (isLoading s) v
     (pendingLogs s) (selectedTicType s) (filterSettings s)
     (cachedHistoryRanges s).
Definition set_pendingLogs v s :=
  mk (error s) (ticLogs s) (lastSync s) (ticTypes s) (isLoading s)
     (recentLogs s) v (selectedTicType s) (filterSettings s)
     (cachedHistoryRanges s).
Definition set_cachedHistoryRanges v s :=
  mk (error s) (ticLogs s) (lastSync s) (ticTypes s) (isLoading s)
     (recentLogs s) (pendingLogs s) (selectedTicType s) (filterSettings s)
     v.
End TicStoreState.

Module OperationType.
Inductive t := feedback | sync.

#[global] Instance eq_dec : EqDecision t.
Proof. solve_decision. Defined.
End OperationType.

(** The identity of a JavaScript object, which is what
    [Array.prototype.includes] compares: an object as it was allocated, or
    the draft that immer's [produce] hands to a recipe in its place.
    Whatever object a recipe reads from the state is such a draft, and a
    draft is identical to no object that exists outside the recipe. *)
Inductive Identity :=
| Allocated (ref : nat)
| Draft (ref : nat).

#[global] Instance Identity_eq_dec : EqDecision Identity.
Proof. solve_decision. Defined.

(** What [lastAIGeneration] holds for a tic type: the [Date] that a
    generation stamps, or, once the state has been restored from a
    snapshot, the text that [JSON.stringify] made of that [Date]
    ([loadPersistedState] of the SuggestionStore revives nothing). *)
Module Stamp.
Inductive t :=
| date (time : Z)
| text (s : string).
End Stamp.

(** A queue entry.  [ref] is the identity of the JavaScript object (the
    order of its allocation): [Array.prototype.includes] compares queue
    entries by identity, not by content.  [data] is typed [any] in the
    source; every entry the store creates holds a feedback record there. *)
Module QueuedOperation.
Record t := mk {
  ref : nat;
  id : string;
  type : OperationType.t;
  data : UserSuggestionFeedback.t;
  timestamp : Z
}.
End QueuedOperation.

Module SuggestionStoreState.
Record t := mk {
  error : option string;
  lastSync : option Z;
  isLoading : bool;
  suggestions : gmap string Suggestion.t;
  userFeedback : gmap string UserSuggestionFeedback.t;
  suggestionsByTicType : gmap string (list string);
  operationQueue : list QueuedOperation.t;
  pendingFeedback : gmap string UserSuggestionFeedback.t;
  isSyncing : bool;
  lastAIGeneration : gmap string Stamp.t
}.

Definition set_error v s :=
  mk v (lastSync s) (isLoading s) (suggestions s) (userFeedback s)
     (suggestionsByTicType s) (operationQueue s) (pendingFeedback s)
     (isSyncing s) (lastAIGeneration s).
Definition set_lastSync v s :=
  mk (error s) v (isLoading s) (suggestions s) (userFeedback s)
     (suggestionsByTicType s) (operationQueue s) (pendingFeedback s)
     (isSyncing s) (lastAIGeneration s).
Definition set_isLoading v s :=
  mk (error s) (lastSync s) v (suggestions s) (userFeedback s)
     (suggestionsByTicType s) (operationQueue s) (pendingFeedback s)
     (isSyncing s) (lastAIGeneration s).
Definition set_suggestions v s :=
  mk (error s) (lastSync s) (isLoading s) v (userFeedback s)
     (suggestionsByTicType s) (operationQueue s) (pendingFeedback s)
     (isSyncing s) (lastAIGeneration s).
Definition set_userFeedback v s :=
  mk (error s) (lastSync s) (isLoading s) (suggestions s) v
     (suggestionsByTicType s) (operationQueue s) (pendingFeedback s)
     (isSyncing s) (lastAIGeneration s).
Definition set_suggestionsByTicType v s :=
  mk (error s) (lastSync s) (isLoading s) (suggestions s) (userFeedback s)
     v (operationQueue s) (pendingFeedback s) (isSyncing s)
     (lastAIGeneration s).
Definition set_operationQueue v s :=
  mk (error s) (lastSync s) (isLoading s) (suggestions s) (userFeedback s)
     (suggestionsByTicType s) v (pendingFeedback s) (isSyncing s)
     (lastAIGeneration s).
Definition set_pendingFeedback v s :=
  mk (error s) (lastSync s) (isLoading s) (suggestions s) (userFeedback s)
     (suggestionsByTicType s) (operationQueue s) v (isSyncing s)
     (lastAIGeneration s).
Definition set_isSyncing v s :=
  mk (error s) (lastSync s) (isLoading s) (suggestions s) (userFeedback s)
     (suggestionsByTicType s) (operationQueue s) (pendingFeedback s) v
     (lastAIGeneration s).
Definition set_lastAIGeneration v s :=
  mk (error s) (lastSync s) (isLoading s) (suggestions s) (userFeedback s)
     (suggestionsByTicType s) (operationQueue s) (pendingFeedback s)
     (isSyncing s) v.
End SuggestionStoreState.

(** ** Values of the records, for [JSON.stringify]

    Properties are listed in the order of the type declarations. *)

Definition TicLog_value (l : TicLog.t) : Value :=
  VObj [("id", VStr (TicLog.id l)); ("notes", VStr (TicLog.notes l));
        ("userId", VStr (TicLog.userId l));
        ("intensity", VNum (TicLog.intensity l));
        ("ticTypeId", VStr (TicLog.ticTypeId l));
        ("timeOfDay", VStr (TicLog.timeOfDay l));
        ("timestamp", date_value (TicLog.timestamp l))].

Definition TicType_value (t : TicType.t) : Value :=
  VObj [("id", VStr (TicType.id t)); ("name", VStr (TicType.name t));
        ("category", VStr (TicType.category t));
        ("isCustom", VBool (TicType.isCustom t));
        ("description", VStr (TicType.description t))].

Definition Suggestion_value (s : Suggestion.t) : Value :=
  VObj [("id", VStr (Suggestion.id s)); ("title", VStr (Suggestion.title s));
        ("source", VStr (Suggestion.source s));
        ("category", VStr (Suggestion.category s));
        ("createdAt", date_value (Suggestion.createdAt s));
        ("ticTypeId", VStr (Suggestion.ticTypeId s));
        ("description", VStr (Suggestion.description s));
        ("isAIGenerated", VBool (Suggestion.isAIGenerated s))].

Definition Feedback_value (f : UserSuggestionFeedback.t) : Value :=
  VObj [("id", VStr (UserSuggestionFeedback.id f));
        ("notes", VStr (UserSuggestionFeedback.notes f));
        ("userId", VStr (UserSuggestionFeedback.userId f));
        ("lastUsedDate", date_value (UserSuggestionFeedback.lastUsedDate f));
        ("suggestionId", VStr (UserSuggestionFeedback.suggestionId f));
        ("effectiveness", VNum (UserSuggestionFeedback.effectiveness f));
        ("isCurrentlyUsing",
          VBool (UserSuggestionFeedback.isCurrentlyUsing f))].

Definition OperationType_value (t : OperationType.t) : Value :=
  match t with
  | OperationType.feedback => VStr "feedback"
  | OperationType.sync => VStr "sync"
  end.

Definition QueuedOperation_value (op : QueuedOperation.t) : Value :=
  VObj [("id", VStr (QueuedOperation.id op));
        ("type", OperationType_value (QueuedOperation.type op));
        ("data", Feedback_value (QueuedOperation.data op));
        ("timestamp", date_value (QueuedOperation.timestamp op))].

Definition Stamp_value (stamp : Stamp.t) : Value :=
  match stamp with
  | Stamp.date time => date_value time
  | Stamp.text s => VStr s
  end.

Definition FilterSettings_props (f : FilterSettings.t) : Obj :=
  [("startDate", date_value (FilterSettings.startDate f));
   ("endDate", date_value (FilterSettings.endDate f));
   ("timeOfDay", list_value VStr (FilterSettings.timeOfDay f));
   ("intensityRange",
     VArr [VNum (fst (FilterSettings.intensityRange f));
           VNum (snd (FilterSettings.intensityRange f))])].

Definition CachedRange_value (c : CachedRange.t) : Value :=
  VObj [("logs", list_value TicLog_value (CachedRange.logs c));
        ("timestamp", VNum (CachedRange.timestamp c))].

(** The data properties of the TicStore object returned by [get()].  Its
    action properties are functions, which [JSON.stringify] leaves out. *)
Definition TicStoreState_props (s : TicStoreState.t) : Obj :=
  [("error", opt_value VStr (TicStoreState.error s));
   ("ticLogs", dict_value TicLog_value (TicStoreState.ticLogs s));
   ("lastSync", opt_value date_value (TicStoreState.lastSync s));
   ("ticTypes", dict_value TicType_value (TicStoreState.ticTypes s));
   ("isLoading", VBool (TicStoreState.isLoading s));
   ("recentLogs", list_value TicLog_value (TicStoreState.recentLogs s));
   ("pendingLogs", list_value TicLog_value (TicStoreState.pendingLogs s));
   ("selectedTicType", opt_value VStr (TicStoreState.selectedTicType s));
   ("filterSettings",
     VObj (FilterSettings_props (TicStoreState.filterSettings s)));
   ("cachedHistoryRanges",
     dict_value CachedRange_value (TicStoreState.cachedHistoryRanges s))].

Definition SuggestionStoreState_props (s : SuggestionStoreState.t) : Obj :=
  [("error", opt_value VStr (SuggestionStoreState.error s));
   ("lastSync", opt_value date_value (SuggestionStoreState.lastSync s));
   ("isLoading", VBool (SuggestionStoreState.isLoading s));
   ("suggestions",
     dict_value Suggestion_value (SuggestionStoreState.suggestions s));
   ("userFeedback",
     dict_value Feedback_value (SuggestionStoreState.userFeedback s));
   ("suggestionsByTicType",
     dict_value (list_value VStr)
       (SuggestionStoreState.suggestionsByTicType s));
   ("operationQueue",
     list_value QueuedOperation_value
       (SuggestionStoreState.operationQueue s));
   ("pendingFeedback",
     dict_value Feedback_value (SuggestionStoreState.pendingFeedback s));
   ("isSyncing", VBool (SuggestionStoreState.isSyncing s));
   ("lastAIGeneration",
     dict_value Stamp_value (SuggestionStoreState.lastAIGeneration s))].

(** ** The environment and the world *)

(** [Partial<Omit<TicLog, 'id'>>], the body of an update request. *)
Module TicLogUpdates.
Record t := mk {
  notes : option string;
  userId : option string;
  intensity : option Z;
  ticTypeId : option string;
  timeOfDay : option string;
  timestamp : option Z
}.
End TicLogUpdates.

(** The requests the modelled actions send with [fetch]. *)
Inductive Request :=
| PostTicLog (body : TicLog.t)
| PostTicSync (logs : list TicLog.t)
| GetTicHistory (start finish : string)
| PatchTicLog (logId : string) (updates : TicLogUpdates.t)
| PostFeedback (body : UserSuggestionFeedback.t)
| PostGenerate (ticTypeId : string) (ticLogs : list TicLog.t).

(** The collaborators.  Each endpoint answers from the requests made so far
    and the present one; [None] (or [false]) is a request that does not
    yield a usable response: a transport failure, a response whose [ok] is
    false, or a body that does not parse. *)
Record Env := {
  uuid_v4 : nat -> string;
  toISOString : Z -> string;
  JSON_stringify : Value -> string;
  JSON_parse : string -> option Value;
  Date_parse : string -> option Z;
  ToString : Value -> string;
  storage_fault : string -> bool;
  loadedAt : Z;
  latency : list Request -> Request -> N;
  api_tics_log : list Request -> TicLog.t -> option TicLog.t;
  api_tics_sync : list Request -> list TicLog.t -> option (list TicLog.t);
  api_tics_history :
    list Request -> string -> string -> option (list TicLog.t);
  api_tics_log_patch :
    list Request -> string -> TicLogUpdates.t -> option TicLog.t;
  api_feedback : list Request -> UserSuggestionFeedback.t -> bool;
  api_suggestions_generate :
    list Request -> string -> list TicLog.t -> option (list Suggestion.t)
}.

Record World := mkWorld {
  tic : TicStoreState.t;
  sug : SuggestionStoreState.t;
  userId : option string;
  clock : Z;
  calls : list Request;
  storage : gmap string string;
  uuids : nat;
  refs : nat
}.

Definition with_tic v w :=
  mkWorld v (sug w) (userId w) (clock w) (calls w) (storage w) (uuids w)
          (refs w).
Definition with_sug v w :=
  mkWorld (tic w) v (userId w) (clock w) (calls w) (storage w) (uuids w)
          (refs w).
Definition with_clock v w :=
  mkWorld (tic w) (sug w) (userId w) v (calls w) (storage w) (uuids w)
          (refs w).
Definition with_calls v w :=
  mkWorld (tic w) (sug w) (userId w) (clock w) v (storage w) (uuids w)
          (refs w).
Definition with_storage v w :=
  mkWorld (tic w) (sug w) (userId w) (clock w) (calls w) v (uuids w)
          (refs w).
Definition with_uuids v w :=
  mkWorld (tic w) (sug w) (userId w) (clock w) (calls w) (storage w) v
          (refs w).
Definition with_refs v w :=
  mkWorld (tic w) (sug w) (userId w) (clock w) (calls w) (storage w)
          (uuids w) v.

(** Time passing between two actions. *)
Definition elapse (d : N) (w : World) : World :=
  with_clock (clock w + Z.of_N d) w.

(** ** The monad of actions *)

Inductive Outcome (A : Type) :=
| Returned (a : A)
| Thrown (message : string).
Arguments Returned {A} a.
Arguments Thrown {A} message.

Definition M (A : Type) : Type := World -> Outcome A * World.

#[global] Instance M_ret : MRet M := fun A a w => (Returned a, w).

#[global] Instance M_bind : MBind M := fun A B k c w =>
  match c w with
  | (Returned a, w') => k a w'
  | (Thrown e, w') => (Thrown e, w')
  end.

Definition throw {A} (message : string) : M A :=
  fun w => (Thrown message, w).

(** [try { body } catch (error) { handler }] *)
Definition try_catch {A} (body : M A) (handler : string -> M A) : M A :=
  fun w =>
    match body w with
    | (Returned a, w') => (Returned a, w')
    | (Thrown e, w') => handler e w'
    end.

(** [try { body } finally { final }]: [final] runs on both exits and the
    exit of [body] stands unless [final] throws. *)
Definition try_finally {A} (body : M A) (final : M unit) : M A :=
  fun w =>
    match body w with
    | (r, w') =>
        match final w' with
        | (Returned _, w'') => (r, w'')
        | (Thrown e, w'') => (Thrown e, w'')
        end
    end.

(** [for (const x of l) { await f(x) }] *)
Fixpoint for_of {A} (l : list A) (f : A -> M unit) : M unit :=
  match l with
  | [] => mret tt
  | x :: l' => f x ;; for_of l' f
  end.

Definition get_tic : M TicStoreState.t := fun w => (Returned (tic w), w).
Definition get_sug : M SuggestionStoreState.t :=
  fun w => (Returned (sug w), w).
Definition set_tic (recipe : TicStoreState.t -> TicStoreState.t) : M unit :=
  fun w => (Returned tt, with_tic (recipe (tic w)) w).
Definition set_sug
    (recipe : SuggestionStoreState.t -> SuggestionStoreState.t) : M unit :=
  fun w => (Returned tt, with_sug (recipe (sug w)) w).

(** [useRootStore.getState().userId] *)
Definition getUserId : M (option string) :=
  fun w => (Returned (userId w), w).

(** [!userId]: [null] and the empty string are both falsy. *)
Definition no_identity (u : option string) : bool :=
  match u with
  | None => true
  | Some s => String.eqb s EmptyString
  end.

Definition Date_now : M Z := fun w => (Returned (clock w), w).

(** The allocation of a new object: its identity. *)
Definition new_object : M nat :=
  fun w => (Returned (refs w), with_refs (S (refs w)) w).

Section Actions.
Variable E : Env.

(** [uuid.v4()] *)
Definition uuid : M string :=
  fun w => (Returned (uuid_v4 E (uuids w)), with_uuids (S (uuids w)) w).

(** [await fetch(..)] up to the reading of the body: the request joins
    the trace, the clock moves on by the latency of the exchange, and the
    answer of the endpoint is returned. *)
Definition fetch {A} (req : Request) (endpoint : list Request -> A) : M A :=
  fun w =>
    (Returned (endpoint (calls w)),
     with_clock (clock w + Z.of_N (latency E (calls w) req))
       (with_calls (calls w ++ [req]) w)).

(** [await loadString(key)] and [await saveString(key, value)] *)
Definition loadString (key : string) : M (option string) :=
  fun w =>
    if storage_fault E key then (Thrown "storage", w)
    else (Returned (storage w !! key), w).

Definition saveString (key value : string) : M unit :=
  fun w =>
    if storage_fault E key then (Thrown "storage", w)
    else (Returned tt, with_storage (<[key := value]> (storage w)) w).

(** [new Date(v)], or [None] when it throws a [TypeError].  The
    conversion of an object or array to a primitive throws for some values
    ([no_primitive]); for the others the text it yields is [ToString]. *)
Definition new_Date (v : Value) : option Value :=
  match v with
  | VDate t => Some (VDate t)
  | VNum n =>
      Some (VDate (if Z.abs n <=? 8640000000000000 then Some n else None))
  | VBool b => Some (VDate (Some (if b then 1 else 0)))
  | VNull => Some (VDate (Some 0))
  | VStr s => Some (VDate (Date_parse E s))
  | VArr _ | VObj _ =>
      if no_primitive v then None
      else Some (VDate (Date_parse E (ToString E v)))
  end.

(** [new Date(v)] as a step of a function body. *)
Definition construct_Date (v : Value) : M Value :=
  match new_Date v with
  | Some d => mret d
  | None => throw "TypeError"
  end.

(** [a || b] *)
Definition or_else (a : option Value) (b : Value) : Value :=
  match a with
  | Some v => if truthy a then v else b
  | None => b
  end.
End Actions.

(** ** lib/TicStore *)

Module TicStore.
Definition STORAGE_KEY : string := "@tic_store".
Definition CACHE_DURATION : Z := 1000 * 60 * 30.

Import TicStoreState.

Section WithEnv.
Variable E : Env.

(** The two clock reads of the module initialiser are taken at the
    instant [loadedAt]. *)
Definition initialState : TicStoreState.t :=
  {| error := None;
     ticLogs := ∅;
     lastSync := None;
     ticTypes := ∅;
     isLoading := false;
     recentLogs := [];
     pendingLogs := [];
     selectedTicType := None;
     filterSettings :=
       FilterSettings.mk (loadedAt E - 7 * 24 * 60 * 60 * 1000)
         (loadedAt E) ["morning"; "afternoon"; "evening"; "night"]
         (1, 10);
     cachedHistoryRanges := ∅ |}.

Definition loadPersistedState : M Obj :=
  try_catch
    (stored ← loadString E STORAGE_KEY;
     match stored with
     | None | Some EmptyString => mret []
     | Some text =>
         match JSON_parse E text with
         | None => throw "SyntaxError"
         | Some VNull => throw "TypeError"
         | Some parsed =>
             let initial :=
               FilterSettings_props (filterSettings initialState) in
             let parsedSettings := prop "filterSettings" parsed in
             let setting k :=
               match parsedSettings with
               | Some fs => prop k fs
               | None => None
               end in
             let initial_of k := default VNull (obj_get k initial) in
             lastSync ←
               (if truthy (prop "lastSync" parsed)
                then construct_Date E
                       (default VNull (prop "lastSync" parsed))
                else mret VNull);
             startDate ←
               construct_Date E
                 (or_else (setting "startDate") (initial_of "startDate"));
             endDate ←
               construct_Date E
                 (or_else (setting "endDate") (initial_of "endDate"));
             mret
               (obj_set "filterSettings"
                  (VObj
                     (obj_set "endDate" endDate
                        (obj_set "startDate" startDate
                           (obj_spread initial
                              (from_option own_props []
                                 parsedSettings)))))
                  (obj_set "lastSync" lastSync (own_props parsed)))
         end
     end)
    (fun _ => mret []).

(** [useTicStore.setState({...initialState, ...persistedState})] at
    start-up, as the data properties of the resulting state. *)
Definition startup : M Obj :=
  persistedState ← loadPersistedState;
  mret (obj_spread (TicStoreState_props initialState) persistedState).

Definition logTic (logData : LogInput.t) : M unit :=
  userId ← getUserId;
  if no_identity userId then
    set_tic (set_error (Some "User not authenticated"))
  else
    tempId ← uuid E;
    now ← Date_now;
    let newLog :=
      TicLog.mk tempId (LogInput.notes logData)
        (default (default EmptyString userId) (LogInput.userId logData))
        (LogInput.intensity logData) (LogInput.ticTypeId logData)
        (LogInput.timeOfDay logData) now in
    (* Optimistic update *)
    set_tic (fun state =>
      let state := set_ticLogs (<[tempId := newLog]> (ticLogs state)) state in
      let state := set_pendingLogs (pendingLogs state ++ [newLog]) state in
      set_recentLogs (take 10 (newLog :: recentLogs state)) state);;
    try_catch
      (response ← fetch E (PostTicLog newLog)
                    (fun h => api_tics_log E h newLog);
       match response with
       | None => throw "Failed to log tic"
       | Some savedLog =>
           set_tic (fun state =>
             let state := set_ticLogs (delete tempId (ticLogs state)) state in
             let state :=
               set_ticLogs
                 (<[TicLog.id savedLog := savedLog]> (ticLogs state))
                 state in
             let state :=
               set_pendingLogs
                 (filter (fun log => TicLog.id log ≠ tempId)
                    (pendingLogs state)) state in
             set_recentLogs
               (map (fun log =>
                       if decide (TicLog.id log = tempId)
                       then savedLog else log)
                  (recentLogs state)) state)
       end)
      (fun _ =>
         set_tic (fun state =>
           let state := set_error (Some "Failed to sync tic log") state in
           let state := set_ticLogs (delete tempId (ticLogs state)) state in
           set_recentLogs
             (filter (fun log => TicLog.id log ≠ tempId)
                (recentLogs state)) state)).

Definition syncTicLogs : M unit :=
  set_tic (set_isLoading true);;
  try_finally
    (try_catch
       (state ← get_tic;
        let pendingLogs := pendingLogs state in
        if Nat.eqb (length pendingLogs) 0 then mret tt
        else
          response ← fetch E (PostTicSync pendingLogs)
                       (fun h => api_tics_sync E h pendingLogs);
          match response with
          | None => throw "Sync failed"
          | Some syncedLogs =>
              now ← Date_now;
              set_tic (fun state =>
                let state := set_pendingLogs [] state in
                let state := set_lastSync (Some now) state in
                foldl (fun state log =>
                         set_ticLogs
                           (<[TicLog.id log := log]> (ticLogs state))
                           state)
                  state syncedLogs);;
              state ← get_tic;
              saveString E STORAGE_KEY
                (JSON_stringify E (VObj (TicStoreState_props state)))
          end)
       (fun _ => set_tic (set_error (Some "Failed to sync tic logs"))))
    (set_tic (set_isLoading false)).

Definition getTicHistory (startDate endDate : Z) : M (list TicLog.t) :=
  let cacheKey := toISOString E startDate +:+ "-" +:+ toISOString E endDate in
  let refetch : M (list TicLog.t) :=
    set_tic (set_isLoading true);;
    try_finally
      (try_catch
         (response ← fetch E
                       (GetTicHistory (toISOString E startDate)
                          (toISOString E endDate))
                       (fun h =>
                          api_tics_history E h (toISOString E startDate)
                            (toISOString E endDate));
          match response with
          | None => throw "Failed to fetch tic history"
          | Some logs =>
              now ← Date_now;
              set_tic (fun state =>
                set_cachedHistoryRanges
                  (<[cacheKey := CachedRange.mk logs now]>
                     (cachedHistoryRanges state)) state);;
              mret logs
          end)
         (fun _ =>
            set_tic (set_error (Some "Failed to fetch tic history"));;
            mret []))
      (set_tic (set_isLoading false)) in
  state ← get_tic;
  now ← Date_now;
  match cachedHistoryRanges state !! cacheKey with
  | Some cached =>
      if now - CachedRange.timestamp cached <? CACHE_DURATION
      then mret (CachedRange.logs cached)
      else refetch
  | None => refetch
  end.

Definition updateTicLog (logId : string) (updates : TicLogUpdates.t)
  : M unit :=
  set_tic (set_isLoading true);;
  try_finally
    (try_catch
       (response ← fetch E (PatchTicLog logId updates)
                     (fun h => api_tics_log_patch E h logId updates);
        match response with
        | None => throw "Failed to update tic log"
        | Some updatedLog =>
            set_tic (fun state =>
              let state :=
                set_ticLogs (<[logId := updatedLog]> (ticLogs state))
                  state in
              set_recentLogs
                (map (fun log =>
                        if decide (TicLog.id log = logId)
                        then updatedLog else log)
                   (recentLogs state)) state)
        end)
       (fun _ => set_tic (set_error (Some "Failed to update tic log"))))
    (set_tic (set_isLoading false)).

Definition clearError : M unit := set_tic (set_error None).

Definition resetStore : M unit := set_tic (fun _ => initialState).
End WithEnv.
End TicStore.

(** ** lib/SuggestionStore *)

Module SuggestionStore.
Definition STORAGE_KEY : string := "suggestion_store_v1".

Import SuggestionStoreState.

Definition initialState : SuggestionStoreState.t :=
  {| error := None;
     lastSync := None;
     isLoading := false;
     suggestions := ∅;
     userFeedback := ∅;
     suggestionsByTicType := ∅;
     operationQueue := [];
     pendingFeedback := ∅;
     isSyncing := false;
     lastAIGeneration := ∅ |}.

(** [operations.includes(x)], where [operations] is an array of queue
    entries taken from [get()], outside any recipe. *)
Definition includes (operations : list QueuedOperation.t) (x : Identity)
  : bool :=
  bool_decide
    (x ∈ map (fun op => Allocated (QueuedOperation.ref op)) operations).

(** The object literal [persistedData] of [persistState]. *)
Definition persistedData (state : SuggestionStoreState.t) : Obj :=
  [("suggestions", dict_value Suggestion_value (suggestions state));
   ("userFeedback", dict_value Feedback_value (userFeedback state));
   ("suggestionsByTicType",
     dict_value (list_value VStr) (suggestionsByTicType state));
   ("lastSync", opt_value date_value (lastSync state));
   ("operationQueue",
     list_value QueuedOperation_value (operationQueue state));
   ("lastAIGeneration", dict_value Stamp_value (lastAIGeneration state))].

Section WithEnv.
Variable E : Env.

Definition loadPersistedState : M Value :=
  try_catch
    (stored ← loadString E STORAGE_KEY;
     match stored with
     | None | Some EmptyString => mret (VObj [])
     | Some text =>
         match JSON_parse E text with
         | None => throw "SyntaxError"
         | Some parsed => mret parsed
         end
     end)
    (fun _ => mret (VObj [])).

(** [useSuggestionStore.setState({...initialState, ...persistedState})]
    at start-up, as the data properties of the resulting state. *)
Definition startup : M Obj :=
  persistedState ← loadPersistedState;
  mret (obj_spread (SuggestionStoreState_props initialState)
          (own_props persistedState)).

Definition persistState (state : SuggestionStoreState.t) : M unit :=
  try_catch
    (saveString E STORAGE_KEY
       (JSON_stringify E (VObj (persistedData state))))
    (fun _ => mret tt).

Definition provideFeedback (feedback : FeedbackInput.t) : M unit :=
  userId ← getUserId;
  if no_identity userId then throw "User not authenticated"
  else
    feedbackId ← uuid E;
    let newFeedback :=
      UserSuggestionFeedback.mk feedbackId (FeedbackInput.notes feedback)
        (default EmptyString userId) (FeedbackInput.lastUsedDate feedback)
        (FeedbackInput.suggestionId feedback)
        (FeedbackInput.effectiveness feedback)
        (FeedbackInput.isCurrentlyUsing feedback) in
    (* Optimistic update *)
    set_sug (fun state =>
      let state :=
        set_pendingFeedback
          (<[feedbackId := newFeedback]> (pendingFeedback state)) state in
      set_userFeedback
        (<[feedbackId := newFeedback]> (userFeedback state)) state);;
    try_catch
      ((* Sync with backend *)
       ok ← fetch E (PostFeedback newFeedback)
              (fun h => api_feedback E h newFeedback);
       if negb ok then throw "Failed to save feedback"
       else
         set_sug (fun state =>
           set_pendingFeedback
             (delete feedbackId (pendingFeedback state)) state);;
         state ← get_sug;
         persistState state)
      (fun _ =>
         opId ← uuid E;
         now ← Date_now;
         r ← new_object;
         set_sug (fun state =>
           let state := set_error (Some "Failed to save feedback") state in
           let state :=
             set_userFeedback (delete feedbackId (userFeedback state))
               state in
           set_operationQueue
             (operationQueue state
                ++ [QueuedOperation.mk r opId OperationType.feedback
                      newFeedback now])
             state)).

Definition syncUserFeedback : M unit :=
  state ← get_sug;
  if isSyncing state then mret tt
  else
    set_sug (fun state =>
      let state := set_isSyncing true state in
      set_error None state);;
    try_catch
      (let operations := operationQueue state in
       for_of operations (fun op =>
         match QueuedOperation.type op with
         | OperationType.feedback =>
             provideFeedback
               (FeedbackInput.of_feedback (QueuedOperation.data op))
         | OperationType.sync => mret tt
         end);;
       now ← Date_now;
       set_sug (fun state =>
         let state :=
           set_operationQueue
             (filter
                (fun op =>
                   (* [op] is read from the draft of the queue *)
                   negb (includes operations (Draft (QueuedOperation.ref op))))
                (operationQueue state)) state in
         let state := set_lastSync (Some now) state in
         set_isSyncing false state);;
       state ← get_sug;
       persistState state)
      (fun _ =>
         set_sug (fun state =>
           let state := set_error (Some "Sync failed") state in
           set_isSyncing false state)).

Definition generatePersonalizedSuggestions (ticTypeId : string)
  : M unit :=
  let generate : M unit :=
    set_sug (fun state =>
      let state := set_isLoading true state in
      set_error None state);;
    try_catch
      (weekAgo ← Date_now;
       today ← Date_now;
       ticLogs ← TicStore.getTicHistory E
                   (weekAgo - 7 * 24 * 60 * 60 * 1000) today;
       response ← fetch E (PostGenerate ticTypeId ticLogs)
                    (fun h => api_suggestions_generate E h ticTypeId ticLogs);
       match response with
       | None => throw "Failed to generate suggestions"
       | Some newSuggestions =>
           now ← Date_now;
           set_sug (fun state =>
             let state :=
               foldl (fun state suggestion =>
                        set_suggestions
                          (<[Suggestion.id suggestion := suggestion]>
                             (suggestions state)) state)
                 state newSuggestions in
             let state :=
               set_suggestionsByTicType
                 (<[ticTypeId :=
                      default [] (suggestionsByTicType state !! ticTypeId)
                        ++ map Suggestion.id newSuggestions]>
                    (suggestionsByTicType state)) state in
             let state :=
               set_lastAIGeneration
                 (<[ticTypeId := Stamp.date now]> (lastAIGeneration state))
                 state in
             set_isLoading false state);;
           state ← get_sug;
           persistState state
       end)
      (fun _ =>
         set_sug (fun state =>
           let state :=
             set_error
               (Some "Failed to generate personalized suggestions")
               state in
           set_isLoading false state)) in
  state ← get_sug;
  now ← Date_now;
  match lastAIGeneration state !! ticTypeId with
  | Some (Stamp.date lastGeneration) =>
      if now - lastGeneration <? 3600000
      then mret tt (* Prevent generating too frequently *)
      else generate
  | Some (Stamp.text EmptyString) => generate (* falsy *)
  | Some (Stamp.text _) =>
      throw "TypeError" (* a string has no [getTime] *)
  | None => generate
  end.

Definition clearError : M unit := set_sug (set_error None).

Definition retry : M unit :=
  state ← get_sug;
  if Nat.ltb 0 (length (operationQueue state)) then syncUserFeedback
  else mret tt.
End WithEnv.
End SuggestionStore.


(** ** Scenarios

    A concrete environment and concrete worlds on which the actions are
    evaluated.  The remote collaborator of [env ok] accepts every request
    when [ok] is [true] and rejects every request otherwise; each exchange
    takes five milliseconds, and a created log gets a server id numbered by
    the requests seen before.  Its JSON codec knows one text, [snapshot_text],
    and prints an object as the list of its keys. *)

Module Scenario.
Definition quote : string := String (Ascii.ascii_of_nat 34) EmptyString.
Definition quoted (s : string) : string := quote +:+ s +:+ quote.

(** The text [{"lastSync":"2024-01-01T00:00:00Z","operationQueue":[]}]. *)
Definition snapshot_text : string :=
  "{" +:+ quoted "lastSync" +:+ ":" +:+ quoted "2024-01-01T00:00:00Z" +:+ ","
    +:+ quoted "operationQueue" +:+ ":[]}".

Definition snapshot : Value :=
  VObj [("lastSync", VStr "2024-01-01T00:00:00Z"); ("operationQueue", VArr [])].

(** 2024-01-01T00:00:00Z in milliseconds since the epoch. *)
Definition new_year_2024 : Z := 1704067200000.

Definition env (ok : bool) : Env :=
  {| uuid_v4 := fun n => "uuid-" +:+ pretty n;
     toISOString := fun t => pretty t;
     JSON_stringify := fun v => String.concat "," (obj_keys (own_props v));
     JSON_parse := fun text =>
       if String.eqb text snapshot_text then Some snapshot else None;
     Date_parse := fun s =>
       if String.eqb s "2024-01-01T00:00:00Z" then Some new_year_2024
       else None;
     ToString := fun _ => EmptyString;
     storage_fault := fun _ => false;
     loadedAt := 0;
     latency := fun _ _ => 5%N;
     api_tics_log := fun h log =>
       if ok then Some (TicLog.with_id ("server-" +:+ pretty (length h)) log)
       else None;
     api_tics_sync := fun _ logs => if ok then Some logs else None;
     api_tics_history := fun _ _ _ => if ok then Some [] else None;
     api_tics_log_patch := fun _ logId updates =>
       if ok then Some (TicLog.mk logId "patched" "u1" 1 "t1" "night" 0)
       else None;
     api_feedback := fun _ _ => ok;
     api_suggestions_generate := fun _ _ _ => if ok then Some [] else None |}.

(** Both stores in their initial state at time 1000. *)
Definition world (user : option string) : World :=
  {| tic := TicStore.initialState (env true);
     sug := SuggestionStore.initialState;
     userId := user;
     clock := 1000;
     calls := [];
     storage := ∅;
     uuids := 0;
     refs := 0 |}.

(** [create({ticTypeId:"t1", intensity:5, timeOfDay:"morning", notes:""})] *)
Definition logData : LogInput.t :=
  LogInput.mk EmptyString None 5 "t1" "morning".

Definition feedback : FeedbackInput.t :=
  FeedbackInput.mk "helps" 900 "s1" 4 true.

Definition updates : TicLogUpdates.t :=
  TicLogUpdates.mk (Some "patched") None None None None None.

(** The world after a first, successful [getTicHistory(100, 200)]. *)
Definition world_with_cache : World :=
  snd (TicStore.getTicHistory (env true) 100 200 (world (Some "u1"))).

(** The world after a first, successful generation for the tic type t1. *)
Definition world_after_generation : World :=
  snd (SuggestionStore.generatePersonalizedSuggestions (env true) "t1"
         (world (Some "u1"))).

(** The world after a first generation for t1 that the server rejected. *)
Definition world_after_rejected_generation : World :=
  snd (SuggestionStore.generatePersonalizedSuggestions (env false) "t1"
         (world (Some "u1"))).

(** The world after ten successful [logTic] calls: [recentLogs] is full. *)
Definition world_ten_recent : World :=
  Nat.iter 10 (fun w => snd (TicStore.logTic (env true) logData w))
    (world (Some "u1")).

(** The world after a [provideFeedback] that the server rejected: one
    operation is queued. *)
Definition world_one_queued : World :=
  snd (SuggestionStore.provideFeedback (env false) feedback
         (world (Some "u1"))).

(** The same world after the user has signed out. *)
Definition signed_out (w : World) : World :=
  mkWorld (tic w) (sug w) None (clock w) (calls w) (storage w) (uuids w)
          (refs w).

(** The world after a rejected [logTic] and a rejected [provideFeedback]:
    one pending log and one queued operation. *)
Definition world_with_backlog : World :=
  snd (SuggestionStore.provideFeedback (env false) feedback
         (snd (TicStore.logTic (env false) logData (world (Some "u1"))))).

(** A world whose storage holds [snapshot_text] under the keys of both
    stores. *)
Definition world_with_snapshots : World :=
  with_storage
    (<[TicStore.STORAGE_KEY := snapshot_text]>
       (<[SuggestionStore.STORAGE_KEY := snapshot_text]> ∅))
    (world (Some "u1")).
End Scenario.

(** ** Notions used in the statements *)

(** The key of the range cache for a pair of bounds. *)
Definition cacheKey (E : Env) (startDate endDate : Z) : string :=
  toISOString E startDate +:+ "-" +:+ toISOString E endDate.

(** The request [getTicHistory] sends for a pair of bounds. *)
Definition history_request (E : Env) (startDate endDate : Z) : Request :=
  GetTicHistory (toISOString E startDate) (toISOString E endDate).

(** The range cache holds no entry for the bounds that is younger than
    thirty minutes. *)
Definition cache_miss (E : Env) (startDate endDate : Z) (w : World) : Prop :=
  forall cached,
    TicStoreState.cachedHistoryRanges (tic w) !! cacheKey E startDate endDate
      = Some cached ->
    TicStore.CACHE_DURATION <= clock w - CachedRange.timestamp cached.

(** The number of generation requests for a tic type in a trace. *)
Definition is_generate (ticTypeId : string) (r : Request) : bool :=
  match r with
  | PostGenerate t _ => String.eqb t ticTypeId
  | _ => false
  end.

Definition generate_calls (ticTypeId : string) (trace : list Request) : nat :=
  length (List.filter (is_generate ticTypeId) trace).

(** No generation for the tic type is recorded in the last hour: the
    test of [generatePersonalizedSuggestions] lets the call through. *)
Definition cooldown_over (ticTypeId : string) (w : World) : Prop :=
  forall stamp,
    SuggestionStoreState.lastAIGeneration (sug w) !! ticTypeId = Some stamp ->
    match stamp with
    | Stamp.date lastGeneration => 3600000 <= clock w - lastGeneration
    | Stamp.text s => s = EmptyString
    end.

(** The record [logTic] inserts optimistically, and the feedback record
    [provideFeedback] inserts optimistically, when called in the world [w]:
    the input fields, the client-local id drawn from [uuid.v4()], the
    identity and, for a log, the current time. *)
Definition optimistic_log (E : Env) (w : World) (logData : LogInput.t)
  : TicLog.t :=
  TicLog.mk (uuid_v4 E (uuids w)) (LogInput.notes logData)
    (default (default EmptyString (userId w)) (LogInput.userId logData))
    (LogInput.intensity logData) (LogInput.ticTypeId logData)
    (LogInput.timeOfDay logData) (clock w).

Definition optimistic_feedback (E : Env) (w : World)
    (feedback : FeedbackInput.t) : UserSuggestionFeedback.t :=
  UserSuggestionFeedback.mk (uuid_v4 E (uuids w))
    (FeedbackInput.notes feedback) (default EmptyString (userId w))
    (FeedbackInput.lastUsedDate feedback)
    (FeedbackInput.suggestionId feedback)
    (FeedbackInput.effectiveness feedback)
    (FeedbackInput.isCurrentlyUsing feedback).

(** The body of the loop of [syncUserFeedback]. *)
Definition replay (E : Env) (op : QueuedOperation.t) : M unit :=
  match QueuedOperation.type op with
  | OperationType.feedback =>
      SuggestionStore.provideFeedback E
        (FeedbackInput.of_feedback (QueuedOperation.data op))
  | OperationType.sync => mret tt
  end.

(** The feedback records of the requests [reqs], sent after the trace [h],
    that the feedback endpoint rejected, in the order of the requests. *)
Fixpoint rejected (E : Env) (h : list Request) (reqs : list Request)
  : list UserSuggestionFeedback.t :=
  match reqs with
  | [] => []
  | PostFeedback body :: reqs' =>
      (if api_feedback E h body then [] else [body])
        ++ rejected E (h ++ [PostFeedback body]) reqs'
  | req :: reqs' => rejected E (h ++ [req]) reqs'
  end.

(** A snapshot that is missing, unreadable or not JSON. *)
Definition no_snapshot (E : Env) (key : string) (w : World) : Prop :=
  storage_fault E key = true
  \/ storage w !! key = None
  \/ storage w !! key = Some EmptyString
  \/ exists text, storage w !! key = Some text /\ JSON_parse E text = None.

(** ** The other actions of the stores

    [fetchTicTypes], [deleteTicLog] and [fetchSuggestionsForTicType] talk
    to three endpoints that are not among the requests recorded in
    [calls].  Their exchanges are the fields of a [Remote]: each is an
    action of its own, which returns what the endpoint answered ([false] or
    [None] for a response whose [ok] is false) or throws (a transport
    failure, a body that does not parse).  An exchange is [quiet] when it
    leaves both stores as they are. *)

Record Remote := {
  get_tics_types : M (option (list TicType.t));
  delete_tics_log : string -> M bool;
  get_suggestions : string -> M (option (list Suggestion.t))
}.

Definition quiet {A} (exchange : M A) : Prop :=
  forall w,
    tic (snd (exchange w)) = tic w /\ sug (snd (exchange w)) = sug w.

(** [Partial<TicStoreState['filterSettings']>] *)
Module FilterSettingsUpdate.
Record t := mk {
  startDate : option Z;
  endDate : option Z;
  timeOfDay : option (list string);
  intensityRange : option (Z * Z)
}.
End FilterSettingsUpdate.

Module TicStoreActions.
Import TicStoreState.

Definition set_ticTypes v s :=
  mk (error s) (ticLogs s) (lastSync s) v (isLoading s) (recentLogs s)
     (pendingLogs s) (selectedTicType s) (filterSettings s)
     (cachedHistoryRanges s).
Definition set_selectedTicType v s :=
  mk (error s) (ticLogs s) (lastSync s) (ticTypes s) (isLoading s)
     (recentLogs s) (pendingLogs s) v (filterSettings s)
     (cachedHistoryRanges s).
Definition set_filterSettings v s :=
  mk (error s) (ticLogs s) (lastSync s) (ticTypes s) (isLoading s)
     (recentLogs s) (pendingLogs s) (selectedTicType s) v
     (cachedHistoryRanges s).

(** [{ ...filterSettings, ...settings }] *)
Definition merge_settings (current : FilterSettings.t)
    (settings : FilterSettingsUpdate.t) : FilterSettings.t :=
  FilterSettings.mk
    (default (FilterSettings.startDate current)
       (FilterSettingsUpdate.startDate settings))
    (default (FilterSettings.endDate current)
       (FilterSettingsUpdate.endDate settings))
    (default (FilterSettings.timeOfDay current)
       (FilterSettingsUpdate.timeOfDay settings))
    (default (FilterSettings.intensityRange current)
       (FilterSettingsUpdate.intensityRange settings)).

Definition setSelectedTicType (ticTypeId : option string) : M unit :=
  set_tic (fun state => set_selectedTicType ticTypeId state).

Definition updateFilterSettings (settings : FilterSettingsUpdate.t)
  : M unit :=
  set_tic (fun state =>
    set_filterSettings (merge_settings (filterSettings state) settings)
      state).

Section WithRemote.
Variable R : Remote.

Definition fetchTicTypes : M unit :=
  set_tic (set_isLoading true);;
  try_finally
    (try_catch
       (response ← get_tics_types R;
        match response with
        | None => throw "Failed to fetch tic types"
        | Some types =>
            set_tic (fun state =>
              set_ticTypes
                (foldl (fun acc type => <[TicType.id type := type]> acc)
                   ∅ types) state)
        end)
       (fun _ => set_tic (set_error (Some "Failed to fetch tic types"))))
    (set_tic (set_isLoading false)).

Definition deleteTicLog (logId : string) : M unit :=
  set_tic (set_isLoading true);;
  try_finally
    (try_catch
       (ok ← delete_tics_log R logId;
        if negb ok then throw "Failed to delete tic log"
        else
          set_tic (fun state =>
            let state := set_ticLogs (delete logId (ticLogs state)) state in
            set_recentLogs
              (filter (fun log => TicLog.id log ≠ logId) (recentLogs state))
              state))
       (fun _ => set_tic (set_error (Some "Failed to delete tic log"))))
    (set_tic (set_isLoading false)).
End WithRemote.
End TicStoreActions.

Module SuggestionStoreActions.
Import SuggestionStoreState.

Section WithRemote.
Variable E : Env.
Variable R : Remote.

Definition fetchSuggestionsForTicType (ticTypeId : string) : M unit :=
  set_sug (fun state =>
    let state := set_isLoading true state in
    set_error None state);;
  try_catch
    (response ← get_suggestions R ticTypeId;
     match response with
     | None => throw "Failed to fetch suggestions"
     | Some suggestions =>
         set_sug (fun state =>
           let state :=
             foldl (fun state suggestion =>
                      set_suggestions
                        (<[Suggestion.id suggestion := suggestion]>
                           (SuggestionStoreState.suggestions state)) state)
               state suggestions in
           let state :=
             set_suggestionsByTicType
               (<[ticTypeId := map Suggestion.id suggestions]>
                  (suggestionsByTicType state)) state in
           set_isLoading false state);;
         state ← get_sug;
         SuggestionStore.persistState E state
     end)
    (fun _ =>
       set_sug (fun state =>
         let state := set_error (Some "Failed to fetch suggestions") state in
         set_isLoading false state)).
End WithRemote.
End SuggestionStoreActions.

(** ** Notions for the properties of the other actions *)

(** The dictionary [m] after [m[key(x)] = x] for each [x] of [items], in
    order: a later item overwrites an earlier one with the same key. *)
Definition index_by {A} (key : A -> string) (items : list A)
    (m : gmap string A) : gmap string A :=
  foldl (fun m x => <[key x := x]> m) m items.

(** Every log listed in [recentLogs] has its id in [ticLogs]. *)
Definition recent_resolve (s : TicStoreState.t) : Prop :=
  Forall (fun log => is_Some (TicStoreState.ticLogs s !! TicLog.id log))
    (TicStoreState.recentLogs s).

(** Every suggestion id listed for a tic type is a key of [suggestions]. *)
Definition listed_resolve (s : SuggestionStoreState.t) : Prop :=
  forall ticTypeId ids,
    SuggestionStoreState.suggestionsByTicType s !! ticTypeId = Some ids ->
    Forall (fun id => is_Some (SuggestionStoreState.suggestions s !! id)) ids.

(** The update [{}]: no key is given. *)
Definition no_settings : FilterSettingsUpdate.t :=
  FilterSettingsUpdate.mk None None None None.

(** A property that is present and holds a [Date] object. *)
Definition is_Date (v : option Value) : Prop :=
  exists t, v = Some (VDate t).

(** What the three [new Date(..)] of the TicStore's [loadPersistedState]
    yield for a parsed snapshot, [None] when the construction throws:
    [lastSync], which is [null] when the snapshot's is falsy, and a date of
    [filterSettings], for which the initial one stands in when the
    snapshot's is missing or falsy. *)
Definition revived_lastSync (E : Env) (parsed : Value) : option Value :=
  if truthy (prop "lastSync" parsed)
  then new_Date E (default VNull (prop "lastSync" parsed))
  else Some VNull.

Definition revived_setting (E : Env) (k : string) (parsed : Value)
  : option Value :=
  new_Date E
    (or_else
       match prop "filterSettings" parsed with
       | Some settings => prop k settings
       | None => None
       end
       (default VNull
          (obj_get k
             (FilterSettings_props
                (TicStoreState.filterSettings (TicStore.initialState E)))))).

(** The outcome of the test that opens
    [generatePersonalizedSuggestions],
    [lastGeneration && Date.now() - lastGeneration.getTime() < 3600000],
    at the time [now] and for what [lastAIGeneration] holds for the tic
    type: the call goes on, returns at once, or throws because a text has
    no [getTime]. *)
Module Gate.
Inductive t := proceed | skip | type_error.
End Gate.

Definition cooldown_gate (now : Z) (stamp : option Stamp.t) : Gate.t :=
  match stamp with
  | Some (Stamp.date lastGeneration) =>
      if now - lastGeneration <? 3600000 then Gate.skip else Gate.proceed
  | Some (Stamp.text EmptyString) => Gate.proceed
  | Some (Stamp.text _) => Gate.type_error
  | None => Gate.proceed
  end.

(** The seven days of history that [generatePersonalizedSuggestions]
    reads, in milliseconds. *)
Definition week : Z := 7 * 24 * 60 * 60 * 1000.

(** What the feedback actions leave alone: the TicStore, the identity and
    the catalogue of suggestions. *)
Definition feedback_frame (w w' : World) : Prop :=
  tic w' = tic w
  /\ userId w' = userId w
  /\ SuggestionStoreState.suggestions (sug w')
     = SuggestionStoreState.suggestions (sug w)
  /\ SuggestionStoreState.suggestionsByTicType (sug w')
     = SuggestionStoreState.suggestionsByTicType (sug w)
  /\ SuggestionStoreState.lastAIGeneration (sug w')
     = SuggestionStoreState.lastAIGeneration (sug w)
  /\ SuggestionStoreState.isSyncing (sug w')
     = SuggestionStoreState.isSyncing (sug w)
  /\ SuggestionStoreState.lastSync (sug w')
     = SuggestionStoreState.lastSync (sug w)
  /\ SuggestionStoreState.isLoading (sug w')
     = SuggestionStoreState.isLoading (sug w).

(** None of the three exchanges of a [Remote] writes to a store. *)
Definition quiet_remote (R : Remote) : Prop :=
  quiet (get_tics_types R)
  /\ (forall logId, quiet (delete_tics_log R logId))
  /\ (forall ticTypeId, quiet (get_suggestions R ticTypeId)).

(** ** Sessions

    A call of one of the actions that the two stores export, and the world
    after a sequence of such calls, each awaited before the next. *)
Module TicCall.
Inductive t :=
| logTic (logData : LogInput.t)
| syncTicLogs
| fetchTicTypes
| getTicHistory (startDate endDate : Z)
| setSelectedTicType (ticTypeId : option string)
| updateFilterSettings (settings : FilterSettingsUpdate.t)
| deleteTicLog (logId : string)
| updateTicLog (logId : string) (updates : TicLogUpdates.t)
| clearError
| resetStore.
End TicCall.

Module SuggestionCall.
Inductive t :=
| provideFeedback (feedback : FeedbackInput.t)
| syncUserFeedback
| fetchSuggestionsForTicType (ticTypeId : string)
| generatePersonalizedSuggestions (ticTypeId : string)
| clearError
| retry.
End SuggestionCall.

Inductive Call :=
| OfTicStore (c : TicCall.t)
| OfSuggestionStore (c : SuggestionCall.t).

Definition tic_call (E : Env) (R : Remote) (c : TicCall.t) (w : World)
  : World :=
  match c with
  | TicCall.logTic logData => snd (TicStore.logTic E logData w)
  | TicCall.syncTicLogs => snd (TicStore.syncTicLogs E w)
  | TicCall.fetchTicTypes => snd (TicStoreActions.fetchTicTypes R w)
  | TicCall.getTicHistory startDate endDate =>
      snd (TicStore.getTicHistory E startDate endDate w)
  | TicCall.setSelectedTicType ticTypeId =>
      snd (TicStoreActions.setSelectedTicType ticTypeId w)
  | TicCall.updateFilterSettings settings =>
      snd (TicStoreActions.updateFilterSettings settings w)
  | TicCall.deleteTicLog logId => snd (TicStoreActions.deleteTicLog R logId w)
  | TicCall.updateTicLog logId updates =>
      snd (TicStore.updateTicLog E logId updates w)
  | TicCall.clearError => snd (TicStore.clearError w)
  | TicCall.resetStore => snd (TicStore.resetStore E w)
  end.

Definition suggestion_call (E : Env) (R : Remote) (c : SuggestionCall.t)
    (w : World) : World :=
  match c with
  | SuggestionCall.provideFeedback feedback =>
      snd (SuggestionStore.provideFeedback E feedback w)
  | SuggestionCall.syncUserFeedback =>
      snd (SuggestionStore.syncUserFeedback E w)
  | SuggestionCall.fetchSuggestionsForTicType ticTypeId =>
      snd (SuggestionStoreActions.fetchSuggestionsForTicType E R ticTypeId w)
  | SuggestionCall.generatePersonalizedSuggestions ticTypeId =>
      snd (SuggestionStore.generatePersonalizedSuggestions E ticTypeId w)
  | SuggestionCall.clearError => snd (SuggestionStore.clearError w)
  | SuggestionCall.retry => snd (SuggestionStore.retry E w)
  end.

Definition call (E : Env) (R : Remote) (c : Call) (w : World) : World :=
  match c with
  | OfTicStore c => tic_call E R c w
  | OfSuggestionStore c => suggestion_call E R c w
  end.

Definition session (E : Env) (R : Remote) (cs : list Call) (w : World)
  : World :=
  foldl (fun w c => call E R c w) w cs.

(** ** Cases

    Concrete collaborators and sessions, beside those of [Scenario]. *)
Module Cases.
Definition types : list TicType.t :=
  [TicType.mk "t1" "Eye blink" "motor" false EmptyString;
   TicType.mk "t2" "Throat clearing" "vocal" false EmptyString].

Definition listed : list Suggestion.t :=
  [Suggestion.mk "s1" "Slow breathing" "clinic" "relaxation" 0 "t1"
     EmptyString false;
   Suggestion.mk "s2" "Competing response" "clinic" "behavioural" 0 "t1"
     EmptyString false].

(** A remote that answers at once and never writes to a store: every
    response is [ok], or none is. *)
Definition remote (ok : bool) : Remote :=
  {| get_tics_types := fun w =>
       (Returned (if ok then Some types else None), w);
     delete_tics_log := fun _ w => (Returned ok, w);
     get_suggestions := fun _ w =>
       (Returned (if ok then Some listed else None), w) |}.

(** The collaborators [E] with other storage faults and another feedback
    endpoint. *)
Definition env_with (E : Env) (fault : string -> bool)
    (feedback : list Request -> UserSuggestionFeedback.t -> bool) : Env :=
  {| uuid_v4 := uuid_v4 E;
     toISOString := toISOString E;
     JSON_stringify := JSON_stringify E;
     JSON_parse := JSON_parse E;
     Date_parse := Date_parse E;
     ToString := ToString E;
     storage_fault := fault;
     loadedAt := loadedAt E;
     latency := latency E;
     api_tics_log := api_tics_log E;
     api_tics_sync := api_tics_sync E;
     api_tics_history := api_tics_history E;
     api_tics_log_patch := api_tics_log_patch E;
     api_feedback := feedback;
     api_suggestions_generate := api_suggestions_generate E |}.

(** An accepting server and a storage that refuses every access. *)
Definition env_storage_fault : Env :=
  env_with (Scenario.env true) (fun _ => true) (fun _ _ => true).

(** A server whose feedback endpoint rejects the first request it sees
    and accepts every later one. *)
Definition env_second_try : Env :=
  env_with (Scenario.env true) (fun _ => false)
    (fun h _ => negb (Nat.eqb (length h) 0)).

(** An accepting server whose generation endpoint answers [listed]. *)
Definition env_generating : Env :=
  {| uuid_v4 := uuid_v4 (Scenario.env true);
     toISOString := toISOString (Scenario.env true);
     JSON_stringify := JSON_stringify (Scenario.env true);
     JSON_parse := JSON_parse (Scenario.env true);
     Date_parse := Date_parse (Scenario.env true);
     ToString := ToString (Scenario.env true);
     storage_fault := fun _ => false;
     loadedAt := 0;
     latency := latency (Scenario.env true);
     api_tics_log := api_tics_log (Scenario.env true);
     api_tics_sync := api_tics_sync (Scenario.env true);
     api_tics_history := api_tics_history (Scenario.env true);
     api_tics_log_patch := api_tics_log_patch (Scenario.env true);
     api_feedback := fun _ _ => true;
     api_suggestions_generate := fun _ _ _ => Some listed |}.

(** The world after [fetchSuggestionsForTicType("t1")] answered [listed]. *)
Definition world_with_listed : World :=
  snd (SuggestionStoreActions.fetchSuggestionsForTicType (Scenario.env true)
         (remote true) "t1" (Scenario.world (Some "u1"))).

(** The collaborators of [Scenario.env true] with a [JSON.parse] that
    reads every text as [parsed]. *)
Definition env_parsing (parsed : Value) : Env :=
  {| uuid_v4 := uuid_v4 (Scenario.env true);
     toISOString := toISOString (Scenario.env true);
     JSON_stringify := JSON_stringify (Scenario.env true);
     JSON_parse := fun _ => Some parsed;
     Date_parse := Date_parse (Scenario.env true);
     ToString := ToString (Scenario.env true);
     storage_fault := fun _ => false;
     loadedAt := 0;
     latency := latency (Scenario.env true);
     api_tics_log := api_tics_log (Scenario.env true);
     api_tics_sync := api_tics_sync (Scenario.env true);
     api_tics_history := api_tics_history (Scenario.env true);
     api_tics_log_patch := api_tics_log_patch (Scenario.env true);
     api_feedback := fun _ _ => true;
     api_suggestions_generate :=
       api_suggestions_generate (Scenario.env true) |}.

(** A snapshot whose [lastSync] is an object with an own [toString]:
    [{"lastSync":{"toString":1}}]. *)
Definition snapshot_no_primitive : Value :=
  VObj [("lastSync", VObj [("toString", VNum 1)])].

(** A world whose SuggestionStore is as a reload leaves it after a
    generation for t1: [lastAIGeneration] holds the text that
    [JSON.stringify] made of the [Date]. *)
Definition world_restored : World :=
  with_sug
    (SuggestionStoreState.set_lastAIGeneration
       (<["t1" := Stamp.text "2024-01-01T00:00:00.000Z"]> ∅)
       SuggestionStore.initialState)
    (Scenario.world (Some "u1")).

(** The world after a rejected [logTic]: one pending log. *)
Definition world_one_pending : World :=
  snd (TicStore.logTic (Scenario.env false) Scenario.logData
         (Scenario.world (Some "u1"))).

(** A session over both stores. *)
Definition busy_session : list Call :=
  [OfSuggestionStore (SuggestionCall.fetchSuggestionsForTicType "t1");
   OfTicStore (TicCall.logTic Scenario.logData);
   OfSuggestionStore (SuggestionCall.generatePersonalizedSuggestions "t1");
   OfTicStore TicCall.fetchTicTypes;
   OfSuggestionStore (SuggestionCall.provideFeedback Scenario.feedback);
   OfTicStore (TicCall.deleteTicLog "server-0");
   OfSuggestionStore SuggestionCall.retry;
   OfTicStore TicCall.syncTicLogs;
   OfTicStore (TicCall.logTic Scenario.logData)].
End Cases.

(** * Properties *)

(** Unfolds the combinators of [M] and the primitive actions. *)
Ltac run :=
  cbv beta iota zeta delta
    [mbind M_bind mret M_ret throw try_catch try_finally
     get_tic get_sug set_tic set_sug getUserId Date_now new_object
     uuid fetch loadString saveString];
  cbn [tic sug userId clock calls storage uuids refs fst snd
       with_tic with_sug with_clock with_calls with_storage with_uuids
       with_refs].

(** ** Create without an identity *)

(** C4, as the code has it: with no owning identity [logTic] returns
    normally after writing the store error ['User not authenticated'] and
    changes nothing else (nothing is sent), while [provideFeedback] throws
    ['User not authenticated'] and changes nothing at all. *)
Theorem create_without_identity E w logData feedback :
  no_identity (userId w) = true ->
  TicStore.logTic E logData w
    = (Returned tt,
       with_tic
         (TicStoreState.set_error (Some "User not authenticated") (tic w)) w)
  /\ SuggestionStore.provideFeedback E feedback w
     = (Thrown "User not authenticated", w).
Proof.
  intros Hno. unfold TicStore.logTic, SuggestionStore.provideFeedback.
  run. rewrite Hno. split; reflexivity.
Qed.

Lemma create_without_identity_witness :
  no_identity (userId (Scenario.world None)) = true
  /\ TicStore.logTic (Scenario.env true) Scenario.logData (Scenario.world None)
    = (Returned tt,
       with_tic
         (TicStoreState.set_error (Some "User not authenticated")
            (tic (Scenario.world None))) (Scenario.world None))
  /\ SuggestionStore.provideFeedback (Scenario.env true) Scenario.feedback
       (Scenario.world None)
     = (Thrown "User not authenticated", Scenario.world None).
Proof.
  split; [reflexivity |].
  apply (create_without_identity (Scenario.env true) (Scenario.world None)).
  reflexivity.
Defined.

(** C4, as stated, fails for [logTic]: from the initial state and with no
    identity the call returns normally and the store's error field, which
    was [null], holds a message afterwards. *)
Lemma create_without_identity_counterexample :
  no_identity (userId (Scenario.world None)) = true
  /\ fst (TicStore.logTic (Scenario.env true) Scenario.logData
            (Scenario.world None)) = Returned tt
  /\ TicStoreState.error (tic (Scenario.world None)) = None
  /\ TicStoreState.error
       (tic (snd (TicStore.logTic (Scenario.env true) Scenario.logData
                    (Scenario.world None))))
     = Some "User not authenticated".
Proof. repeat split. Qed.

(** ** Update of a tic log *)

(** C2, as the code has it: [updateTicLog] makes no local presence check.
    For every id, also one absent from [ticLogs], it returns normally after
    sending exactly one PATCH request and ends with [isLoading] false.  When
    the request is accepted the returned record is stored under the id
    (created if it was absent) and replaces its occurrences in
    [recentLogs]; when it is rejected [ticLogs] and [recentLogs] are as
    before and the store error is ['Failed to update tic log']. *)
Theorem updateTicLog_sends_request E w logId updates :
  let w' := snd (TicStore.updateTicLog E logId updates w) in
  fst (TicStore.updateTicLog E logId updates w) = Returned tt
  /\ calls w' = calls w ++ [PatchTicLog logId updates]
  /\ TicStoreState.isLoading (tic w') = false
  /\ match api_tics_log_patch E (calls w) logId updates with
     | Some updatedLog =>
         TicStoreState.ticLogs (tic w')
           = <[logId := updatedLog]> (TicStoreState.ticLogs (tic w))
         /\ TicStoreState.recentLogs (tic w')
            = map (fun log =>
                     if decide (TicLog.id log = logId) then updatedLog
                     else log)
                (TicStoreState.recentLogs (tic w))
         /\ TicStoreState.error (tic w') = TicStoreState.error (tic w)
     | None =>
         TicStoreState.ticLogs (tic w') = TicStoreState.ticLogs (tic w)
         /\ TicStoreState.recentLogs (tic w')
            = TicStoreState.recentLogs (tic w)
         /\ TicStoreState.error (tic w') = Some "Failed to update tic log"
     end.
Proof.
  unfold TicStore.updateTicLog. run.
  destruct (api_tics_log_patch E (calls w) logId updates) as [updatedLog|];
    cbn; repeat split.
Qed.

(** C2, as stated, fails: from the initial state, where no id is present,
    an update of ["ghost"] returns normally, sends a PATCH request, and
    (the server accepting it) leaves a record under ["ghost"]. *)
Lemma updateTicLog_counterexample :
  TicStoreState.ticLogs (tic (Scenario.world (Some "u1"))) !! "ghost" = None
  /\ fst (TicStore.updateTicLog (Scenario.env true) "ghost" Scenario.updates
            (Scenario.world (Some "u1"))) = Returned tt
  /\ calls (snd (TicStore.updateTicLog (Scenario.env true) "ghost"
                   Scenario.updates (Scenario.world (Some "u1"))))
     = [PatchTicLog "ghost" Scenario.updates]
  /\ TicStoreState.ticLogs
       (tic (snd (TicStore.updateTicLog (Scenario.env true) "ghost"
                    Scenario.updates (Scenario.world (Some "u1")))))
       !! "ghost"
     = Some (TicLog.mk "ghost" "patched" "u1" 1 "t1" "night" 0).
Proof. repeat split; vm_compute; reflexivity. Qed.

(** ** The range cache *)

(** A cache entry younger than thirty minutes answers the call. *)
Lemma getTicHistory_hit E w startDate endDate cached :
  TicStoreState.cachedHistoryRanges (tic w) !! cacheKey E startDate endDate
    = Some cached ->
  clock w - CachedRange.timestamp cached < TicStore.CACHE_DURATION ->
  TicStore.getTicHistory E startDate endDate w
    = (Returned (CachedRange.logs cached), w).
Proof.
  intros Hcached Hfresh. unfold cacheKey in Hcached.
  unfold TicStore.getTicHistory. run.
  rewrite Hcached.
  destruct (Z.ltb_spec (clock w - CachedRange.timestamp cached)
              TicStore.CACHE_DURATION) as [_|Hstale]; [reflexivity | lia].
Qed.

(** C10: a call of [getTicHistory] that finds a cache entry younger than
    thirty minutes returns the entry's logs and leaves the whole world as
    it was: no store field changes ([isLoading], [error] and the cache
    included) and nothing is sent. *)
Theorem getTicHistory_cache_hit E w startDate endDate cached :
  TicStoreState.cachedHistoryRanges (tic w)
    !! (toISOString E startDate +:+ "-" +:+ toISOString E endDate)
    = Some cached ->
  clock w - CachedRange.timestamp cached < TicStore.CACHE_DURATION ->
  TicStore.getTicHistory E startDate endDate w
    = (Returned (CachedRange.logs cached), w).
Proof.
  intros Hcached Hfresh. unfold TicStore.getTicHistory. run.
  (* the lookup finds the entry and the age test passes: the action
     returns before its first [set] and before its [fetch] *)
  rewrite Hcached.
  case (Z.ltb_spec (clock w - CachedRange.timestamp cached)
          TicStore.CACHE_DURATION); intros Hage.
  - reflexivity.
  - exfalso. apply (Z.lt_irrefl TicStore.CACHE_DURATION).
    eapply Z.le_lt_trans; [exact Hage | exact Hfresh].
Qed.

Lemma getTicHistory_cache_hit_witness :
  TicStoreState.cachedHistoryRanges (tic Scenario.world_with_cache)
    !! "100-200" = Some (CachedRange.mk [] 1005)
  /\ clock Scenario.world_with_cache - 1005 < TicStore.CACHE_DURATION
  /\ TicStore.getTicHistory (Scenario.env true) 100 200
       Scenario.world_with_cache
     = (Returned [], Scenario.world_with_cache).
Proof.
  split; [reflexivity |]. split; [reflexivity |].
  apply (getTicHistory_cache_hit (Scenario.env true)
           Scenario.world_with_cache 100 200 (CachedRange.mk [] 1005));
    reflexivity.
Defined.

(** What a call that misses the cache does: one request; on success the
    logs are cached under the key with the time of arrival, on failure the
    store error is set and the empty list is returned. *)
Lemma getTicHistory_miss E w startDate endDate :
  cache_miss E startDate endDate w ->
  let w1 :=
    with_clock
      (clock w
       + Z.of_N (latency E (calls w) (history_request E startDate endDate)))
      (with_calls (calls w ++ [history_request E startDate endDate]) w) in
  TicStore.getTicHistory E startDate endDate w
  = match api_tics_history E (calls w) (toISOString E startDate)
            (toISOString E endDate) with
    | Some logs =>
        (Returned logs,
         with_tic
           (TicStoreState.set_isLoading false
              (TicStoreState.set_cachedHistoryRanges
                 (<[cacheKey E startDate endDate
                    := CachedRange.mk logs (clock w1)]>
                    (TicStoreState.cachedHistoryRanges (tic w)))
                 (TicStoreState.set_isLoading true (tic w)))) w1)
    | None =>
        (Returned [],
         with_tic
           (TicStoreState.set_isLoading false
              (TicStoreState.set_error (Some "Failed to fetch tic history")
                 (TicStoreState.set_isLoading true (tic w)))) w1)
    end.
Proof.
  intros Hmiss. unfold TicStore.getTicHistory, cache_miss, cacheKey in *.
  run.
  destruct (TicStoreState.cachedHistoryRanges (tic w)
              !! (toISOString E startDate +:+ "-" +:+ toISOString E endDate))
    as [cached|] eqn:Hcached.
  - specialize (Hmiss cached eq_refl).
    destruct (Z.ltb_spec (clock w - CachedRange.timestamp cached)
                TicStore.CACHE_DURATION) as [Hfresh|_]; [lia |].
    unfold history_request.
    destruct (api_tics_history E (calls w) (toISOString E startDate)
                (toISOString E endDate)); reflexivity.
  - unfold history_request.
    destruct (api_tics_history E (calls w) (toISOString E startDate)
                (toISOString E endDate)); reflexivity.
Qed.

(** C6, as the code has it: when the first call misses the cache and its
    remote read succeeds, the call sends exactly one request and caches the
    logs; a second call started less than thirty minutes after the first
    sends nothing and returns the cached logs, so the two calls make one
    remote call; a call started thirty minutes or more after the entry was
    cached sends a second request. *)
Theorem getTicHistory_twice E w startDate endDate logs :
  cache_miss E startDate endDate w ->
  api_tics_history E (calls w) (toISOString E startDate)
    (toISOString E endDate) = Some logs ->
  let w1 := snd (TicStore.getTicHistory E startDate endDate w) in
  fst (TicStore.getTicHistory E startDate endDate w) = Returned logs
  /\ calls w1 = calls w ++ [history_request E startDate endDate]
  /\ TicStoreState.cachedHistoryRanges (tic w1)
       !! cacheKey E startDate endDate
     = Some (CachedRange.mk logs (clock w1))
  /\ forall d : N,
       let w2 := elapse d w1 in
       (clock w2 - clock w < TicStore.CACHE_DURATION ->
        TicStore.getTicHistory E startDate endDate w2 = (Returned logs, w2))
       /\ (TicStore.CACHE_DURATION <= clock w2 - clock w1 ->
           calls (snd (TicStore.getTicHistory E startDate endDate w2))
           = calls w ++ [history_request E startDate endDate;
                         history_request E startDate endDate]).
Proof.
  intros Hmiss Hok. rewrite (getTicHistory_miss E w _ _ Hmiss), Hok.
  cbn [fst snd tic calls clock with_tic with_clock with_calls
       TicStoreState.cachedHistoryRanges TicStoreState.set_isLoading
       TicStoreState.set_cachedHistoryRanges].
  split; [reflexivity |]. split; [reflexivity |].
  split; [apply lookup_insert_eq |].
  intros d. cbn zeta. split.
  - intros Hsoon.
    apply (getTicHistory_hit E _ startDate endDate
             (CachedRange.mk logs
                (clock w
                 + Z.of_N
                     (latency E (calls w)
                        (history_request E startDate endDate))))).
    + cbn. apply lookup_insert_eq.
    + cbn in *. lia.
  - intros Hlate.
    match goal with
    | |- calls (snd (TicStore.getTicHistory E startDate endDate ?w2)) = _ =>
        assert (Hmiss2 : cache_miss E startDate endDate w2)
    end.
    { intros cached Hcached. cbn in Hcached.
      rewrite lookup_insert_eq in Hcached. inversion Hcached; subst cached.
      cbn in *. lia. }
    rewrite (getTicHistory_miss E _ _ _ Hmiss2).
    cbn [calls elapse with_clock with_tic with_calls].
    match goal with
    | |- context [match ?answer with Some _ => _ | None => _ end] =>
        destruct answer
    end; cbn; rewrite <- app_assoc; reflexivity.
Qed.

Lemma getTicHistory_twice_witness :
  cache_miss (Scenario.env true) 100 200 (Scenario.world (Some "u1"))
  /\ api_tics_history (Scenario.env true)
       (calls (Scenario.world (Some "u1"))) "100" "200" = Some []
  /\ calls Scenario.world_with_cache = [GetTicHistory "100" "200"]
  /\ TicStore.getTicHistory (Scenario.env true) 100 200
       (elapse 60000 Scenario.world_with_cache)
     = (Returned [], elapse 60000 Scenario.world_with_cache)
  /\ calls (snd (TicStore.getTicHistory (Scenario.env true) 100 200
                   (elapse 1800000 Scenario.world_with_cache)))
     = [GetTicHistory "100" "200"; GetTicHistory "100" "200"].
Proof.
  assert (Hmiss : cache_miss (Scenario.env true) 100 200
                    (Scenario.world (Some "u1"))).
  { intros cached Hcached. vm_compute in Hcached. discriminate Hcached. }
  split; [exact Hmiss |]. split; [reflexivity |].
  destruct (getTicHistory_twice (Scenario.env true)
              (Scenario.world (Some "u1")) 100 200 [] Hmiss eq_refl)
    as (_ & Hcalls & _ & Hsecond).
  split; [exact Hcalls |].
  split.
  - apply (Hsecond 60000%N). reflexivity.
  - apply (Hsecond 1800000%N). vm_compute. discriminate.
Defined.

(** C6, as stated, fails when the first remote read fails: nothing is
    cached, and a second call five milliseconds after the first sends a
    second request. *)
Lemma getTicHistory_twice_counterexample :
  clock (snd (TicStore.getTicHistory (Scenario.env false) 100 200
                (Scenario.world (Some "u1"))))
    - clock (Scenario.world (Some "u1")) = 5
  /\ calls
       (snd (TicStore.getTicHistory (Scenario.env false) 100 200
               (snd (TicStore.getTicHistory (Scenario.env false) 100 200
                       (Scenario.world (Some "u1"))))))
     = [GetTicHistory "100" "200"; GetTicHistory "100" "200"].
Proof. split; vm_compute; reflexivity. Qed.

(** [getTicHistory] always returns; it leaves the suggestion store, the
    identity, the storage and the counters alone, never moves the clock
    back, and sends at most its own request. *)
Lemma getTicHistory_frame E startDate endDate w :
  exists logs w',
    TicStore.getTicHistory E startDate endDate w = (Returned logs, w')
    /\ sug w' = sug w /\ userId w' = userId w /\ storage w' = storage w
    /\ uuids w' = uuids w /\ refs w' = refs w
    /\ clock w <= clock w'
    /\ (calls w' = calls w
        \/ calls w' = calls w ++ [history_request E startDate endDate]).
Proof.
  destruct (TicStoreState.cachedHistoryRanges (tic w)
              !! cacheKey E startDate endDate) as [cached|] eqn:Hcached.
  - destruct (Z.lt_ge_cases (clock w - CachedRange.timestamp cached)
                TicStore.CACHE_DURATION) as [Hfresh|Hstale].
    + exists (CachedRange.logs cached), w.
      rewrite (getTicHistory_hit E w _ _ cached Hcached Hfresh).
      repeat split; try reflexivity; try lia. left; reflexivity.
    + assert (Hmiss : cache_miss E startDate endDate w).
      { intros c Hc. rewrite Hcached in Hc. inversion Hc; subst c.
        exact Hstale. }
      rewrite (getTicHistory_miss E w _ _ Hmiss).
      destruct (api_tics_history E (calls w) _ _); eexists _, _;
        (split; [reflexivity |]); cbn; repeat split; try lia;
        right; reflexivity.
  - assert (Hmiss : cache_miss E startDate endDate w).
    { intros c Hc. rewrite Hcached in Hc. discriminate Hc. }
    rewrite (getTicHistory_miss E w _ _ Hmiss).
    destruct (api_tics_history E (calls w) _ _); eexists _, _;
      (split; [reflexivity |]); cbn; repeat split; try lia;
      right; reflexivity.
Qed.

(** ** The generation cooldown *)

Lemma generate_within_cooldown E w ticTypeId lastGeneration :
  SuggestionStoreState.lastAIGeneration (sug w) !! ticTypeId
    = Some (Stamp.date lastGeneration) ->
  clock w - lastGeneration < 3600000 ->
  SuggestionStore.generatePersonalizedSuggestions E ticTypeId w
    = (Returned tt, w).
Proof.
  intros Hlast Hsoon. unfold SuggestionStore.generatePersonalizedSuggestions.
  run. rewrite Hlast.
  destruct (Z.ltb_spec (clock w - lastGeneration) 3600000);
    [reflexivity | lia].
Qed.

Ltac history_step E :=
  match goal with
  | |- context [TicStore.getTicHistory E ?a ?b ?w0] =>
      destruct (getTicHistory_frame E a b w0)
        as (logs & w' & Hhist & Hsug & Huser & Hsto & Huu & Href & Hclk
            & Hcalls);
      rewrite Hhist
  end.

(** Outside the cooldown, a call whose generation request is accepted
    sends that one generation request and stamps the tic type with the
    time at which the answer arrived.  The request is the one the call
    sends: after its read of the last seven days of history, with the logs
    that read returned. *)
Lemma generate_after_cooldown E w ticTypeId :
  cooldown_over ticTypeId w ->
  let history :=
    TicStore.getTicHistory E (clock w - week) (clock w)
      (with_sug
         (SuggestionStoreState.set_error None
            (SuggestionStoreState.set_isLoading true (sug w))) w) in
  let logs := match fst history with Returned logs => logs | _ => [] end in
  is_Some (api_suggestions_generate E (calls (snd history)) ticTypeId logs) ->
  let w1 :=
    snd (SuggestionStore.generatePersonalizedSuggestions E ticTypeId w) in
  fst (SuggestionStore.generatePersonalizedSuggestions E ticTypeId w)
    = Returned tt
  /\ generate_calls ticTypeId (calls w1)
     = S (generate_calls ticTypeId (calls w))
  /\ SuggestionStoreState.lastAIGeneration (sug w1) !! ticTypeId
     = Some (Stamp.date (clock w1))
  /\ clock w <= clock w1.
Proof.
  intros Hover history logs Haccepted. subst history logs.
  unfold week in Haccepted. revert Haccepted.
  unfold SuggestionStore.generatePersonalizedSuggestions. run.
  destruct (SuggestionStoreState.lastAIGeneration (sug w) !! ticTypeId)
    as [[last | stamp] |] eqn:Hlast;
    [pose proof (Hover _ Hlast) as Hgate; cbn in Hgate;
     apply Z.ltb_ge in Hgate; rewrite Hgate
    | pose proof (Hover _ Hlast) as Hgate; cbn in Hgate; subst stamp
    |];
    history_step E; cbn [fst snd]; intros [news Hnews]; rewrite Hnews;
    unfold SuggestionStore.persistState; run;
    destruct (storage_fault E SuggestionStore.STORAGE_KEY);
    cbn [fst snd sug calls clock with_sug with_storage];
    cbn [SuggestionStoreState.lastAIGeneration
         SuggestionStoreState.set_isLoading
         SuggestionStoreState.set_lastAIGeneration];
    cbn [calls clock with_sug with_clock with_calls] in *;
    (split; [reflexivity |]);
    (split; [| split; [apply lookup_insert_eq | lia]]);
    unfold generate_calls;
    destruct Hcalls as [-> | ->]; rewrite !List.filter_app, !length_app;
    cbn; rewrite String.eqb_refl; cbn; lia.
Qed.

(** C7, as the code has it by design.  Where the generation recorded for
    the tic type is a [Date], a call made less than one hour after it is a
    silent no-op: it returns, and the world (both stores, the trace of
    requests) is as before.  When a call finds the cooldown over and the
    generation request it sends is accepted, it sends that one generation
    request, and every call started less than one hour after it started is
    such a no-op: the two calls make the remote generation call exactly
    once. *)
Theorem generate_cooldown E ticTypeId :
  (forall w lastGeneration,
     SuggestionStoreState.lastAIGeneration (sug w) !! ticTypeId
       = Some (Stamp.date lastGeneration) ->
     clock w - lastGeneration < 3600000 ->
     SuggestionStore.generatePersonalizedSuggestions E ticTypeId w
       = (Returned tt, w))
  /\ (forall w,
        cooldown_over ticTypeId w ->
        let history :=
          TicStore.getTicHistory E (clock w - week) (clock w)
            (with_sug
               (SuggestionStoreState.set_error None
                  (SuggestionStoreState.set_isLoading true (sug w))) w) in
        let logs :=
          match fst history with Returned logs => logs | _ => [] end in
        is_Some
          (api_suggestions_generate E (calls (snd history)) ticTypeId logs) ->
        let w1 :=
          snd (SuggestionStore.generatePersonalizedSuggestions E ticTypeId w)
        in
        generate_calls ticTypeId (calls w1)
          = S (generate_calls ticTypeId (calls w))
        /\ forall d : N,
             let w2 := elapse d w1 in
             clock w2 - clock w < 3600000 ->
             SuggestionStore.generatePersonalizedSuggestions E ticTypeId w2
               = (Returned tt, w2)
             /\ generate_calls ticTypeId (calls w2)
                = S (generate_calls ticTypeId (calls w))).
Proof.
  split.
  - intros w lastGeneration. apply generate_within_cooldown.
  - intros w Hover history logs Haccepted.
    destruct (generate_after_cooldown E w ticTypeId Hover Haccepted)
      as (_ & Hcount & Hstamp & Hclock).
    cbn zeta. split; [exact Hcount |].
    intros d Hsoon. split; [| exact Hcount].
    eapply generate_within_cooldown; [exact Hstamp |].
    cbn [elapse clock with_clock] in *. lia.
Qed.

Lemma generate_cooldown_witness :
  let E := Scenario.env true in
  let w := Scenario.world (Some "u1") in
  let history :=
    TicStore.getTicHistory E (clock w - week) (clock w)
      (with_sug
         (SuggestionStoreState.set_error None
            (SuggestionStoreState.set_isLoading true (sug w))) w) in
  let logs := match fst history with Returned logs => logs | _ => [] end in
  cooldown_over "t1" w
  /\ is_Some (api_suggestions_generate E (calls (snd history)) "t1" logs)
  /\ generate_calls "t1" (calls Scenario.world_after_generation) = 1%nat
  /\ SuggestionStoreState.lastAIGeneration
       (sug Scenario.world_after_generation) !! "t1"
     = Some (Stamp.date 1010)
  /\ SuggestionStore.generatePersonalizedSuggestions E "t1"
       (elapse 60000 Scenario.world_after_generation)
     = (Returned tt, elapse 60000 Scenario.world_after_generation)
  /\ SuggestionStore.generatePersonalizedSuggestions E "t1"
       (elapse 3599999 Scenario.world_after_generation)
     = (Returned tt, elapse 3599999 Scenario.world_after_generation).
Proof.
  cbn zeta.
  assert (Hover : cooldown_over "t1" (Scenario.world (Some "u1"))).
  { intros last Hlast. vm_compute in Hlast. discriminate Hlast. }
  assert (Haccepted :
    is_Some
      (api_suggestions_generate (Scenario.env true)
         (calls
            (snd (TicStore.getTicHistory (Scenario.env true)
                    (clock (Scenario.world (Some "u1")) - week)
                    (clock (Scenario.world (Some "u1")))
                    (with_sug
                       (SuggestionStoreState.set_error None
                          (SuggestionStoreState.set_isLoading true
                             (sug (Scenario.world (Some "u1")))))
                       (Scenario.world (Some "u1"))))))
         "t1"
         match
           fst (TicStore.getTicHistory (Scenario.env true)
                  (clock (Scenario.world (Some "u1")) - week)
                  (clock (Scenario.world (Some "u1")))
                  (with_sug
                     (SuggestionStoreState.set_error None
                        (SuggestionStoreState.set_isLoading true
                           (sug (Scenario.world (Some "u1")))))
                     (Scenario.world (Some "u1"))))
         with
         | Returned logs => logs
         | _ => []
         end)).
  { exists []. reflexivity. }
  destruct (generate_cooldown (Scenario.env true) "t1") as [Hnoop Hopen].
  destruct (Hopen (Scenario.world (Some "u1")) Hover Haccepted)
    as [Hcount Hsecond].
  split; [exact Hover |]. split; [exact Haccepted |].
  split; [exact Hcount |]. split; [reflexivity |].
  split.
  - apply (Hsecond 60000%N). reflexivity.
  - apply (Hnoop (elapse 3599999 Scenario.world_after_generation) 1010);
      reflexivity.
Defined.

(** C7, as stated, fails when the first generation is rejected: no
    generation is recorded, and a second call ten milliseconds after the
    first sends a second generation request. *)
Lemma generate_cooldown_counterexample :
  clock Scenario.world_after_rejected_generation
    - clock (Scenario.world (Some "u1")) = 10
  /\ generate_calls "t1" (calls Scenario.world_after_rejected_generation)
     = 1%nat
  /\ generate_calls "t1"
       (calls
          (snd (SuggestionStore.generatePersonalizedSuggestions
                  (Scenario.env false) "t1"
                  Scenario.world_after_rejected_generation)))
     = 2%nat.
Proof. repeat split; vm_compute; reflexivity. Qed.

(** ** Create with a failing remote confirmation *)

Lemma filter_all {A} (P : A -> Prop) `{!forall x, Decision (P x)}
    (l : list A) :
  Forall P l -> filter P l = l.
Proof.
  induction 1 as [|x l Hx _ IH]; [reflexivity |].
  rewrite filter_cons_True by exact Hx. rewrite IH. reflexivity.
Qed.

(** C1, as the code has it.  With an identity, each create whose remote
    confirmation fails and whose client-local id is not in use returns
    normally, leaves the primary mapping as it was, sets the store error
    and appends exactly one entry to the queue ([pendingLogs] for
    [logTic], [operationQueue] for [provideFeedback]), which carries the
    whole optimistic record: the input fields together with the failed
    client-local id.  [logTic] moreover leaves [recentLogs] as it was when
    it held fewer than ten logs, none with that id.  Each of the two calls
    is taken on its own: nothing is assumed of the other. *)
Theorem create_failure_rollback E w :
  no_identity (userId w) = false ->
  (forall logData,
     api_tics_log E (calls w) (optimistic_log E w logData) = None ->
     TicStoreState.ticLogs (tic w) !! uuid_v4 E (uuids w) = None ->
     let wl := snd (TicStore.logTic E logData w) in
     fst (TicStore.logTic E logData w) = Returned tt
     /\ TicStoreState.ticLogs (tic wl) = TicStoreState.ticLogs (tic w)
     /\ TicStoreState.error (tic wl) = Some "Failed to sync tic log"
     /\ TicStoreState.pendingLogs (tic wl)
        = TicStoreState.pendingLogs (tic w) ++ [optimistic_log E w logData]
     /\ (Forall (fun log => TicLog.id log ≠ uuid_v4 E (uuids w))
           (TicStoreState.recentLogs (tic w)) ->
         (length (TicStoreState.recentLogs (tic w)) < 10)%nat ->
         TicStoreState.recentLogs (tic wl)
         = TicStoreState.recentLogs (tic w)))
  /\ (forall feedback,
        api_feedback E (calls w) (optimistic_feedback E w feedback)
          = false ->
        SuggestionStoreState.userFeedback (sug w) !! uuid_v4 E (uuids w)
          = None ->
        let wf := snd (SuggestionStore.provideFeedback E feedback w) in
        fst (SuggestionStore.provideFeedback E feedback w) = Returned tt
        /\ SuggestionStoreState.userFeedback (sug wf)
           = SuggestionStoreState.userFeedback (sug w)
        /\ SuggestionStoreState.error (sug wf)
           = Some "Failed to save feedback"
        /\ SuggestionStoreState.operationQueue (sug wf)
           = SuggestionStoreState.operationQueue (sug w)
             ++ [QueuedOperation.mk (refs w) (uuid_v4 E (S (uuids w)))
                   OperationType.feedback
                   (optimistic_feedback E w feedback) (clock wf)]).
Proof.
  intros Hid. split.
  - intros logData Hlog Hfresh.
    unfold TicStore.logTic, optimistic_log in *.
    run. rewrite Hid, Hlog. cbn.
    split; [reflexivity |].
    split; [apply delete_insert_id; exact Hfresh |].
    split; [reflexivity |]. split; [reflexivity |].
    intros Hrecent Hshort.
    destruct (decide (uuid_v4 E (uuids w) ≠ uuid_v4 E (uuids w)))
      as [Hne|_]; [destruct (Hne eq_refl) |].
    rewrite take_ge by lia. apply filter_all. exact Hrecent.
  - intros feedback Hfeedback Hfresh.
    unfold SuggestionStore.provideFeedback, optimistic_feedback in *.
    run. rewrite Hid, Hfeedback. cbn.
    split; [reflexivity |].
    split; [apply delete_insert_id; exact Hfresh |].
    split; reflexivity.
Qed.

Lemma create_failure_rollback_witness :
  let E := Scenario.env false in
  let w := Scenario.world (Some "u1") in
  let wl := snd (TicStore.logTic E Scenario.logData w) in
  let wf := snd (SuggestionStore.provideFeedback E Scenario.feedback w) in
  (no_identity (userId w) = false
   /\ api_tics_log E (calls w) (optimistic_log E w Scenario.logData) = None
   /\ api_feedback E (calls w) (optimistic_feedback E w Scenario.feedback)
      = false
   /\ TicStoreState.ticLogs (tic w) !! uuid_v4 E (uuids w) = None
   /\ Forall (fun log => TicLog.id log ≠ uuid_v4 E (uuids w))
        (TicStoreState.recentLogs (tic w))
   /\ (length (TicStoreState.recentLogs (tic w)) < 10)%nat
   /\ SuggestionStoreState.userFeedback (sug w) !! uuid_v4 E (uuids w)
      = None)
  /\ TicStoreState.ticLogs (tic wl) = ∅
  /\ TicStoreState.recentLogs (tic wl) = []
  /\ TicStoreState.error (tic wl) = Some "Failed to sync tic log"
  /\ TicStoreState.pendingLogs (tic wl)
     = [TicLog.mk "uuid-0" EmptyString "u1" 5 "t1" "morning" 1000]
  /\ SuggestionStoreState.userFeedback (sug wf) = ∅
  /\ SuggestionStoreState.error (sug wf) = Some "Failed to save feedback"
  /\ SuggestionStoreState.operationQueue (sug wf)
     = [QueuedOperation.mk 0 "uuid-1" OperationType.feedback
          (UserSuggestionFeedback.mk "uuid-0" "helps" "u1" 900 "s1" 4 true)
          1005].
Proof.
  cbn zeta.
  assert (Hrecent :
    Forall (fun log => TicLog.id log ≠ uuid_v4 (Scenario.env false)
                                         (uuids (Scenario.world (Some "u1"))))
      (TicStoreState.recentLogs (tic (Scenario.world (Some "u1"))))).
  { vm_compute. constructor. }
  assert (Hshort :
    (length (TicStoreState.recentLogs (tic (Scenario.world (Some "u1"))))
     < 10)%nat) by (vm_compute; lia).
  split; [repeat split; try reflexivity; assumption |].
  destruct (create_failure_rollback (Scenario.env false)
              (Scenario.world (Some "u1")) eq_refl) as [Hlog Hfeedback].
  destruct (Hlog Scenario.logData eq_refl eq_refl)
    as (_ & Hlogs & Herr & Hpending & Hrec).
  destruct (Hfeedback Scenario.feedback eq_refl eq_refl)
    as (_ & Hfb & Herr' & Hqueue).
  split; [exact Hlogs |]. split; [exact (Hrec Hrecent Hshort) |].
  split; [exact Herr |]. split; [exact Hpending |].
  split; [exact Hfb |]. split; [exact Herr' | exact Hqueue].
Defined.

(** C1, as stated, fails in two ways.  With ten logs in [recentLogs], a
    failed [logTic] leaves nine: the optimistic insert pushed the tenth
    out and the rollback does not bring it back.  And the entry a failed
    create leaves in the queue carries the failed client-local id
    (here ["uuid-0"]). *)
Lemma create_failure_rollback_counterexample :
  let E := Scenario.env false in
  let w10 := Scenario.world_ten_recent in
  let w10' := snd (TicStore.logTic E Scenario.logData w10) in
  let w := Scenario.world (Some "u1") in
  (length (TicStoreState.recentLogs (tic w10)) = 10%nat
   /\ TicStoreState.recentLogs (tic w10')
      = take 9 (TicStoreState.recentLogs (tic w10))
   /\ TicStoreState.recentLogs (tic w10')
      ≠ TicStoreState.recentLogs (tic w10))
  /\ uuid_v4 E (uuids w) = "uuid-0"
  /\ map (fun op => UserSuggestionFeedback.id (QueuedOperation.data op))
       (SuggestionStoreState.operationQueue
          (sug (snd (SuggestionStore.provideFeedback E Scenario.feedback w))))
     = ["uuid-0"]
  /\ map TicLog.id
       (TicStoreState.pendingLogs
          (tic (snd (TicStore.logTic E Scenario.logData w))))
     = ["uuid-0"].
Proof.
  cbn zeta. split; [split; [| split] |].
  - vm_compute. reflexivity.
  - vm_compute. reflexivity.
  - intros Hsame. apply (f_equal length) in Hsame. vm_compute in Hsame.
    discriminate Hsame.
  - repeat split; vm_compute; reflexivity.
Qed.

(** ** Draining the operation queue *)

(** One [provideFeedback] with an identity: it returns, sends one request
    and, when the request is rejected, enqueues one new operation, a new
    object, that carries the rejected record. *)
Lemma provideFeedback_step E w fb :
  no_identity (userId w) = false ->
  let body := optimistic_feedback E w fb in
  exists w',
    SuggestionStore.provideFeedback E fb w = (Returned tt, w')
    /\ userId w' = userId w
    /\ tic w' = tic w
    /\ clock w <= clock w'
    /\ calls w' = calls w ++ [PostFeedback body]
    /\ SuggestionStoreState.isSyncing (sug w')
       = SuggestionStoreState.isSyncing (sug w)
    /\ SuggestionStoreState.lastSync (sug w')
       = SuggestionStoreState.lastSync (sug w)
    /\ if api_feedback E (calls w) body
       then SuggestionStoreState.operationQueue (sug w')
            = SuggestionStoreState.operationQueue (sug w)
            /\ refs w' = refs w
       else exists op,
            SuggestionStoreState.operationQueue (sug w')
            = SuggestionStoreState.operationQueue (sug w) ++ [op]
            /\ QueuedOperation.ref op = refs w
            /\ QueuedOperation.type op = OperationType.feedback
            /\ QueuedOperation.data op = body
            /\ refs w' = S (refs w).
Proof.
  intros Hid. unfold SuggestionStore.provideFeedback, optimistic_feedback.
  run. rewrite Hid.
  destruct (api_feedback E (calls w) _) eqn:Hok; cbn [negb].
  - unfold SuggestionStore.persistState. run.
    destruct (storage_fault E SuggestionStore.STORAGE_KEY);
      eexists; (split; [reflexivity |]); cbn; repeat split; lia.
  - eexists; (split; [reflexivity |]); cbn. repeat split; try lia.
    eexists. repeat split.
Qed.

(** The loop of the drain over the operations [ops]: by induction on
    [ops], it returns, sends one request per [feedback] operation, and
    appends to the queue one new operation per rejected request. *)
Lemma drain_loop E ops : forall w,
  no_identity (userId w) = false ->
  exists w' added reqs,
    for_of ops (replay E) w = (Returned tt, w')
    /\ userId w' = userId w
    /\ tic w' = tic w
    /\ clock w <= clock w'
    /\ SuggestionStoreState.isSyncing (sug w')
       = SuggestionStoreState.isSyncing (sug w)
    /\ SuggestionStoreState.lastSync (sug w')
       = SuggestionStoreState.lastSync (sug w)
    /\ calls w' = calls w ++ reqs
    /\ length reqs
       = length (filter (fun op => QueuedOperation.type op
                                   = OperationType.feedback) ops)
    /\ SuggestionStoreState.operationQueue (sug w')
       = SuggestionStoreState.operationQueue (sug w) ++ added
    /\ map QueuedOperation.data added = rejected E (calls w) reqs
    /\ Forall (fun op => (refs w <= QueuedOperation.ref op)%nat
                         /\ QueuedOperation.type op = OperationType.feedback)
         added.
Proof.
  induction ops as [|op ops IH]; intros w Hid.
  - exists w, [], []. cbn. rewrite !app_nil_r.
    repeat split; try lia. constructor.
  - cbn [for_of]. unfold mbind, M_bind.
    destruct (QueuedOperation.type op) eqn:Htype.
    + unfold replay at 1. rewrite Htype.
      destruct (provideFeedback_step E w
                  (FeedbackInput.of_feedback (QueuedOperation.data op)) Hid)
        as (w1 & Hrun & Huser & Htic & Hclock & Hcalls & Hsyncing & Hlast
            & Hqueue).
      rewrite Hrun.
      destruct (IH w1)
        as (w' & added & reqs & Hrun' & Huser' & Htic' & Hclock' & Hsyncing'
            & Hlast' & Hcalls' & Hlen & Hqueue' & Hdata & Hrefs).
      { rewrite Huser. exact Hid. }
      rewrite Hrun'.
      set (body :=
             optimistic_feedback E w
               (FeedbackInput.of_feedback (QueuedOperation.data op))) in *.
      destruct (api_feedback E (calls w) body) eqn:Hok.
      * destruct Hqueue as [Hqueue Href].
        exists w', added, (PostFeedback body :: reqs).
        split; [reflexivity |].
        rewrite filter_cons_True by exact Htype.
        cbn [length rejected]. rewrite Hok, Hcalls', Hcalls, <- app_assoc.
        rewrite Hqueue', Hqueue, Hdata, Hcalls.
        repeat split; try congruence; try lia.
        rewrite <- Href. exact Hrefs.
      * destruct Hqueue as (new & Hqueue & Href & Hty & Hbody & Hrefs1).
        exists w', (new :: added), (PostFeedback body :: reqs).
        split; [reflexivity |].
        rewrite filter_cons_True by exact Htype.
        cbn [length rejected map].
        rewrite Hok, Hcalls', Hcalls, <- !app_assoc.
        rewrite Hqueue', Hqueue, Hdata, Hcalls, Hbody, <- app_assoc.
        repeat split; try congruence; try lia.
        constructor; [split; [lia | exact Hty] |].
        eapply Forall_impl; [exact Hrefs |]. cbn.
        intros x [Hx Hx']. split; [lia | exact Hx'].
    + unfold replay at 1. rewrite Htype. unfold mret, M_ret.
      destruct (IH w Hid) as (w' & added & reqs & Hrun' & Hrest).
      rewrite Hrun'. exists w', added, reqs. split; [reflexivity |].
      rewrite filter_cons_False by (rewrite Htype; discriminate).
      exact Hrest.
Qed.

(** A draft is found in no array of objects taken outside the recipe. *)
Lemma includes_draft operations ref :
  SuggestionStore.includes operations (Draft ref) = false.
Proof.
  unfold SuggestionStore.includes. apply bool_decide_eq_false.
  intros Hin. apply list_elem_of_fmap in Hin.
  destruct Hin as (op & Hop & _). discriminate Hop.
Qed.

(** The final filter of the drain, which tests drafts, keeps every
    operation. *)
Lemma filter_draft snapshot (queue : list QueuedOperation.t) :
  filter
    (fun op =>
       negb (SuggestionStore.includes snapshot
               (Draft (QueuedOperation.ref op)))) queue
  = queue.
Proof.
  apply filter_all, Forall_forall. intros op _.
  rewrite includes_draft. exact I.
Qed.

Lemma of_optimistic_feedback E w feedback :
  FeedbackInput.of_feedback (optimistic_feedback E w feedback) = feedback.
Proof. destruct feedback; reflexivity. Qed.

(** The requests of the loop, one per [feedback] operation and in their
    order: each posts a record with the input fields of the operation's
    record. *)
Lemma drain_loop_requests E ops : forall w,
  no_identity (userId w) = false ->
  exists reqs,
    calls (snd (for_of ops (replay E) w)) = calls w ++ reqs
    /\ Forall2
         (fun op req =>
            exists body,
              req = PostFeedback body
              /\ FeedbackInput.of_feedback body
                 = FeedbackInput.of_feedback (QueuedOperation.data op))
         (filter (fun op => QueuedOperation.type op = OperationType.feedback)
            ops) reqs.
Proof.
  induction ops as [|op ops IH]; intros w Hid.
  - exists []. cbn. rewrite app_nil_r. split; [reflexivity | constructor].
  - cbn [for_of]. unfold mbind, M_bind.
    destruct (QueuedOperation.type op) eqn:Htype.
    + unfold replay at 1. rewrite Htype.
      destruct (provideFeedback_step E w
                  (FeedbackInput.of_feedback (QueuedOperation.data op)) Hid)
        as (w1 & Hrun & Huser & _ & _ & Hcalls & _).
      rewrite Hrun.
      destruct (IH w1) as (reqs & Hcalls' & Hall);
        [rewrite Huser; exact Hid |].
      destruct (for_of ops (replay E) w1) as [[[]|message] w'];
        cbn [snd] in *;
        (eexists (_ :: reqs); rewrite Hcalls', Hcalls, <- app_assoc;
         split; [reflexivity |];
         rewrite filter_cons_True by exact Htype;
         constructor; [| exact Hall];
         eexists; split; [reflexivity | apply of_optimistic_feedback]).
    + unfold replay at 1. rewrite Htype. unfold mret, M_ret.
      destruct (IH w Hid) as (reqs & Hcalls' & Hall).
      exists reqs. rewrite filter_cons_False by (rewrite Htype; discriminate).
      split; [| exact Hall].
      destruct (for_of ops (replay E) w) as [[[]|message] w'];
        exact Hcalls'.
Qed.

(** The drain in closed form: the queue it leaves is the snapshot followed
    by the operations the loop added. *)
Lemma syncUserFeedback_run E w :
  SuggestionStoreState.isSyncing (sug w) = false ->
  no_identity (userId w) = false ->
  let snapshot := SuggestionStoreState.operationQueue (sug w) in
  exists w1 added reqs,
    calls w1 = calls w ++ reqs
    /\ length reqs
       = length (filter (fun op => QueuedOperation.type op
                                   = OperationType.feedback) snapshot)
    /\ map QueuedOperation.data added = rejected E (calls w) reqs
    /\ Forall (fun op => (refs w <= QueuedOperation.ref op)%nat
                         /\ QueuedOperation.type op = OperationType.feedback)
         added
    /\ clock w <= clock w1
    /\ fst (SuggestionStore.syncUserFeedback E w) = Returned tt
    /\ calls (snd (SuggestionStore.syncUserFeedback E w)) = calls w1
    /\ SuggestionStoreState.operationQueue
         (sug (snd (SuggestionStore.syncUserFeedback E w)))
       = snapshot ++ added
    /\ SuggestionStoreState.lastSync
         (sug (snd (SuggestionStore.syncUserFeedback E w)))
       = Some (clock w1)
    /\ SuggestionStoreState.isSyncing
         (sug (snd (SuggestionStore.syncUserFeedback E w))) = false
    /\ Forall2
         (fun op req =>
            exists body,
              req = PostFeedback body
              /\ FeedbackInput.of_feedback body
                 = FeedbackInput.of_feedback (QueuedOperation.data op))
         (filter (fun op => QueuedOperation.type op = OperationType.feedback)
            snapshot) reqs.
Proof.
  intros Hsyncing Hid snapshot.
  unfold SuggestionStore.syncUserFeedback. run. rewrite Hsyncing.
  change (fun op : QueuedOperation.t =>
            match QueuedOperation.type op with
            | OperationType.feedback =>
                SuggestionStore.provideFeedback E
                  (FeedbackInput.of_feedback (QueuedOperation.data op))
            | OperationType.sync => fun w0 : World => (Returned (), w0)
            end) with (replay E).
  destruct (drain_loop E snapshot
              (with_sug
                 (SuggestionStoreState.set_error None
                    (SuggestionStoreState.set_isSyncing true (sug w))) w) Hid)
    as (w1 & added & reqs & Hrun & _ & _ & Hclock & _ & _ & Hcalls & Hlen
        & Hqueue & Hdata & Hrefs).
  destruct (drain_loop_requests E snapshot
              (with_sug
                 (SuggestionStoreState.set_error None
                    (SuggestionStoreState.set_isSyncing true (sug w))) w) Hid)
    as (reqs' & Hcalls' & Hall).
  rewrite Hrun in Hcalls'. cbn [snd] in Hcalls'.
  rewrite Hcalls in Hcalls'. apply app_inv_head in Hcalls'. subst reqs'.
  fold snapshot. rewrite Hrun.
  exists w1, added, reqs.
  cbn [calls clock refs sug with_sug SuggestionStoreState.operationQueue
       SuggestionStoreState.set_error SuggestionStoreState.set_isSyncing]
    in Hclock, Hcalls, Hqueue, Hrefs.
  fold snapshot in Hqueue. rewrite filter_draft, Hqueue.
  unfold SuggestionStore.persistState. run.
  destruct (storage_fault E SuggestionStore.STORAGE_KEY); cbn;
    repeat split; assumption.
Qed.

(** C3, evaluated on the code.  A drain started with an identity and with
    no drain in flight returns normally and removes nothing from the queue:
    the final filter tests the drafts that the recipe reads, and no draft
    is among the snapshotted objects.  The queue it leaves is the whole
    snapshot, also the operations whose replay was accepted, followed by
    the operations enqueued during the drain: one per rejected replay, in
    the order of the replays, carrying the feedback record that was
    rejected.  One request is sent per [feedback] operation of the
    snapshot, with the input fields of its record. *)
Theorem syncUserFeedback_drain E w :
  SuggestionStoreState.isSyncing (sug w) = false ->
  no_identity (userId w) = false ->
  let snapshot := SuggestionStoreState.operationQueue (sug w) in
  let w' := snd (SuggestionStore.syncUserFeedback E w) in
  fst (SuggestionStore.syncUserFeedback E w) = Returned tt
  /\ exists added reqs,
       SuggestionStoreState.operationQueue (sug w') = snapshot ++ added
       /\ calls w' = calls w ++ reqs
       /\ Forall2
            (fun op req =>
               exists body,
                 req = PostFeedback body
                 /\ FeedbackInput.of_feedback body
                    = FeedbackInput.of_feedback (QueuedOperation.data op))
            (filter
               (fun op => QueuedOperation.type op = OperationType.feedback)
               snapshot) reqs
       /\ map QueuedOperation.data added = rejected E (calls w) reqs
       /\ Forall (fun op => (refs w <= QueuedOperation.ref op)%nat
                            /\ QueuedOperation.type op
                               = OperationType.feedback) added.
Proof.
  intros Hsyncing Hid snapshot w'.
  destruct (syncUserFeedback_run E w Hsyncing Hid)
    as (w1 & added & reqs & Hcalls & _ & Hdata & Hrefs & _ & Hret
        & Hcalls' & Hqueue & _ & _ & Hall).
  fold snapshot in Hqueue, Hall. fold w' in Hcalls', Hqueue.
  split; [exact Hret |]. exists added, reqs.
  split; [exact Hqueue |]. split; [rewrite Hcalls'; exact Hcalls |].
  split; [exact Hall |]. split; [exact Hdata | exact Hrefs].
Qed.

(** At the failing input of C3: one operation is queued and the server
    accepts its replay.  The feedback is stored, under the new id
    ["uuid-2"], and the operation (object 0) is still queued after the
    drain; a second drain replays it once more and stores the same
    feedback again, under ["uuid-3"]. *)
Lemma syncUserFeedback_drain_witness :
  let E := Scenario.env true in
  let w := Scenario.world_one_queued in
  let w' := snd (SuggestionStore.syncUserFeedback E w) in
  let w'' := snd (SuggestionStore.syncUserFeedback E w') in
  (SuggestionStoreState.isSyncing (sug w) = false
   /\ no_identity (userId w) = false)
  /\ fst (SuggestionStore.syncUserFeedback E w) = Returned tt
  /\ map QueuedOperation.ref (SuggestionStoreState.operationQueue (sug w))
     = [0%nat]
  /\ SuggestionStoreState.operationQueue (sug w')
     = SuggestionStoreState.operationQueue (sug w)
  /\ SuggestionStoreState.error (sug w') = None
  /\ is_Some (SuggestionStoreState.userFeedback (sug w') !! "uuid-2")
  /\ length (calls w') = S (length (calls w))
  /\ SuggestionStoreState.operationQueue (sug w'')
     = SuggestionStoreState.operationQueue (sug w)
  /\ is_Some (SuggestionStoreState.userFeedback (sug w'') !! "uuid-3")
  /\ length (calls w'') = S (S (length (calls w))).
Proof.
  cbn zeta. split; [split; reflexivity |].
  destruct (syncUserFeedback_drain (Scenario.env true)
              Scenario.world_one_queued eq_refl eq_refl)
    as (Hret & _).
  split; [exact Hret |].
  split; [vm_compute; reflexivity |].
  split; [vm_compute; reflexivity |].
  split; [vm_compute; reflexivity |].
  split; [eexists; vm_compute; reflexivity |].
  split; [vm_compute; reflexivity |].
  split; [vm_compute; reflexivity |].
  split; [eexists; vm_compute; reflexivity |].
  vm_compute; reflexivity.
Defined.

(** ** Draining with a remote that always succeeds *)

Lemma rejected_accepting E reqs : forall h,
  (forall h' body, api_feedback E h' body = true) -> rejected E h reqs = [].
Proof.
  induction reqs as [|req reqs IH]; intros h Hacc; [reflexivity |].
  destruct req; cbn; try (apply IH; exact Hacc).
  rewrite Hacc. cbn. apply IH. exact Hacc.
Qed.

(** Merging the synced logs into [ticLogs] touches no other field. *)
Lemma foldl_ticLogs_frame (logs : list TicLog.t) : forall state,
  let state' :=
    foldl (fun state log =>
             TicStoreState.set_ticLogs
               (<[TicLog.id log := log]> (TicStoreState.ticLogs state)) state)
      state logs in
  TicStoreState.pendingLogs state' = TicStoreState.pendingLogs state
  /\ TicStoreState.lastSync state' = TicStoreState.lastSync state
  /\ TicStoreState.isLoading state' = TicStoreState.isLoading state
  /\ TicStoreState.error state' = TicStoreState.error state.
Proof.
  induction logs as [|log logs IH]; intros state; [repeat split |].
  cbn. specialize (IH (TicStoreState.set_ticLogs
                         (<[TicLog.id log := log]>
                            (TicStoreState.ticLogs state)) state)).
  cbn in IH. exact IH.
Qed.


(** C8, as the code has it by design, for a remote collaborator that
    accepts every request.  [syncTicLogs] with a non-empty [pendingLogs]
    leaves it empty and sets [lastSync] to a time not before the start of
    the drain; with an empty [pendingLogs] it returns at its guard, sends
    nothing and leaves [lastSync] as it was.  [syncUserFeedback], started
    with an identity and with no drain in flight, returns normally with no
    error, enqueues nothing (every operation queued after the drain was
    queued before it) and sets [lastSync] to a time not before the start
    of the drain, for every starting queue. *)
Theorem drain_with_accepting_remote E w :
  (forall h logs, is_Some (api_tics_sync E h logs)) ->
  (forall h body, api_feedback E h body = true) ->
  (TicStoreState.pendingLogs (tic w) ≠ [] ->
   let w' := snd (TicStore.syncTicLogs E w) in
   TicStoreState.pendingLogs (tic w') = []
   /\ exists t, TicStoreState.lastSync (tic w') = Some t /\ clock w <= t)
  /\ (TicStoreState.pendingLogs (tic w) = [] ->
      TicStore.syncTicLogs E w
      = (Returned tt,
         with_tic
           (TicStoreState.set_isLoading false
              (TicStoreState.set_isLoading true (tic w))) w))
  /\ (SuggestionStoreState.isSyncing (sug w) = false ->
      no_identity (userId w) = false ->
      let w' := snd (SuggestionStore.syncUserFeedback E w) in
      fst (SuggestionStore.syncUserFeedback E w) = Returned tt
      /\ (forall op,
            op ∈ SuggestionStoreState.operationQueue (sug w') ->
            op ∈ SuggestionStoreState.operationQueue (sug w))
      /\ exists t,
           SuggestionStoreState.lastSync (sug w') = Some t /\ clock w <= t).
Proof.
  intros Hsync Hfeedback. split; [| split].
  - intros Hpending. unfold TicStore.syncTicLogs. run.
    cbn [TicStoreState.pendingLogs TicStoreState.set_isLoading].
    destruct (TicStoreState.pendingLogs (tic w)) as [|log logs] eqn:Hlogs;
      [destruct (Hpending eq_refl) |].
    cbn [length Nat.eqb].
    run.
    destruct (Hsync (calls w) (log :: logs)) as [synced Hsynced].
    rewrite Hsynced.
    destruct (foldl_ticLogs_frame synced
                (TicStoreState.set_lastSync
                   (Some (clock w
                          + Z.of_N (latency E (calls w)
                                      (PostTicSync (log :: logs)))))
                   (TicStoreState.set_pendingLogs []
                      (TicStoreState.set_isLoading true (tic w)))))
      as (Hp & Hl & _ & _).
    cbn zeta in Hp, Hl.
    destruct (storage_fault E TicStore.STORAGE_KEY); cbn;
      rewrite Hp, Hl; cbn; (split; [reflexivity |]);
      eexists; (split; [reflexivity |]); lia.
  - intros Hempty. unfold TicStore.syncTicLogs. run.
    cbn [TicStoreState.pendingLogs TicStoreState.set_isLoading].
    rewrite Hempty. reflexivity.
  - intros Hsyncing Hid w'.
    destruct (syncUserFeedback_run E w Hsyncing Hid)
      as (w1 & added & reqs & _ & _ & Hdata & _ & Hclock & Hret & _ & Hqueue
          & Hlast & _).
    fold w' in Hqueue, Hlast.
    rewrite (rejected_accepting E reqs (calls w) Hfeedback) in Hdata.
    destruct added; [| discriminate Hdata].
    rewrite app_nil_r in Hqueue. rewrite Hqueue, Hlast.
    split; [exact Hret |]. split; [intros op Hop; exact Hop |].
    exists (clock w1). split; [reflexivity | exact Hclock].
Qed.

Lemma drain_with_accepting_remote_witness :
  let E := Scenario.env true in
  let w := Scenario.world_with_backlog in
  ((forall h logs, is_Some (api_tics_sync E h logs))
   /\ (forall h body, api_feedback E h body = true)
   /\ TicStoreState.pendingLogs (tic w) ≠ []
   /\ SuggestionStoreState.isSyncing (sug w) = false
   /\ no_identity (userId w) = false)
  /\ (TicStoreState.pendingLogs (tic (snd (TicStore.syncTicLogs E w))) = []
      /\ exists t,
           TicStoreState.lastSync (tic (snd (TicStore.syncTicLogs E w)))
             = Some t
           /\ clock w <= t)
  /\ fst (SuggestionStore.syncUserFeedback E w) = Returned tt
  /\ (forall op,
        op ∈ SuggestionStoreState.operationQueue
               (sug (snd (SuggestionStore.syncUserFeedback E w))) ->
        op ∈ SuggestionStoreState.operationQueue (sug w))
  /\ exists t,
       SuggestionStoreState.lastSync
         (sug (snd (SuggestionStore.syncUserFeedback E w))) = Some t
       /\ clock w <= t.
Proof.
  cbn zeta.
  assert (Hsync : forall h logs,
            is_Some (api_tics_sync (Scenario.env true) h logs)).
  { intros h logs. exists logs. reflexivity. }
  assert (Hfeedback : forall h body,
            api_feedback (Scenario.env true) h body = true).
  { intros h body. reflexivity. }
  assert (Hpending :
    TicStoreState.pendingLogs (tic Scenario.world_with_backlog) ≠ []).
  { vm_compute. discriminate. }
  destruct (drain_with_accepting_remote (Scenario.env true)
              Scenario.world_with_backlog Hsync Hfeedback)
    as (Htic & _ & Hsug).
  split; [repeat split; try assumption; reflexivity |].
  split; [exact (Htic Hpending) | exact (Hsug eq_refl eq_refl)].
Defined.

(** C8, as stated, fails.  [syncTicLogs] on an empty queue returns at its
    guard and [lastSync] stays [null]; and [syncUserFeedback] run after the
    user signed out throws inside its first replay, so the queue keeps its
    operation and [lastSync] stays [null], although the remote collaborator
    accepts every request. *)
Lemma drain_with_accepting_remote_counterexample :
  let E := Scenario.env true in
  let w := Scenario.world (Some "u1") in
  let v := Scenario.signed_out Scenario.world_one_queued in
  (TicStoreState.pendingLogs (tic w) = []
   /\ TicStoreState.lastSync (tic (snd (TicStore.syncTicLogs E w))) = None)
  /\ length (SuggestionStoreState.operationQueue
               (sug (snd (SuggestionStore.syncUserFeedback E v)))) = 1%nat
  /\ SuggestionStoreState.lastSync
       (sug (snd (SuggestionStore.syncUserFeedback E v))) = None
  /\ SuggestionStoreState.error
       (sug (snd (SuggestionStore.syncUserFeedback E v))) = Some "Sync failed".
Proof. cbn zeta. repeat split; vm_compute; reflexivity. Qed.

(** ** The durable snapshot *)

(** C5, evaluated on the code.  After a fully successful [syncTicLogs] the
    text saved under the TicStore key is the serialization of the whole
    store state: all ten data fields, among them [isLoading], which is
    [true] at that point, and [error].  [persistState] of the
    SuggestionStore, by contrast, saves the six selected fields only. *)
Theorem syncTicLogs_snapshot E w synced state :
  storage_fault E TicStore.STORAGE_KEY = false ->
  storage_fault E SuggestionStore.STORAGE_KEY = false ->
  TicStoreState.pendingLogs (tic w) ≠ [] ->
  api_tics_sync E (calls w) (TicStoreState.pendingLogs (tic w)) = Some synced ->
  (exists persisted,
     fst (TicStore.syncTicLogs E w) = Returned tt
     /\ TicStoreState.error (tic (snd (TicStore.syncTicLogs E w)))
        = TicStoreState.error (tic w)
     /\ storage (snd (TicStore.syncTicLogs E w)) !! TicStore.STORAGE_KEY
        = Some (JSON_stringify E (VObj persisted))
     /\ obj_keys persisted
        = ["error"; "ticLogs"; "lastSync"; "ticTypes"; "isLoading";
           "recentLogs"; "pendingLogs"; "selectedTicType"; "filterSettings";
           "cachedHistoryRanges"]
     /\ obj_get "isLoading" persisted = Some (VBool true)
     /\ obj_get "error" persisted
        = Some (opt_value VStr (TicStoreState.error (tic w))))
  /\ storage (snd (SuggestionStore.persistState E state w))
       !! SuggestionStore.STORAGE_KEY
     = Some (JSON_stringify E (VObj (SuggestionStore.persistedData state)))
  /\ obj_keys (SuggestionStore.persistedData state)
     = ["suggestions"; "userFeedback"; "suggestionsByTicType"; "lastSync";
        "operationQueue"; "lastAIGeneration"].
Proof.
  intros Hsto Hsto' Hpending Hsynced. split; [| split].
  - unfold TicStore.syncTicLogs. run.
    cbn [TicStoreState.pendingLogs TicStoreState.set_isLoading].
    destruct (TicStoreState.pendingLogs (tic w)) as [|log logs] eqn:Hlogs;
      [destruct (Hpending eq_refl) |].
    cbn [length Nat.eqb]. run. rewrite Hsynced, Hsto.
    match goal with
    | |- context [foldl ?f ?s synced] =>
        destruct (foldl_ticLogs_frame synced s)
          as (_ & _ & Hloading & Herror);
        set (final := foldl f s synced) in *
    end.
    cbn zeta in Hloading, Herror. cbn in Hloading, Herror.
    eexists. cbn [fst snd tic storage with_tic with_storage].
    split; [reflexivity |]. split; [exact Herror |].
    split; [apply lookup_insert_eq |].
    split; [reflexivity |].
    cbn. rewrite Hloading, Herror. split; reflexivity.
  - unfold SuggestionStore.persistState. run. rewrite Hsto'. cbn.
    apply lookup_insert_eq.
  - reflexivity.
Qed.

Lemma syncTicLogs_snapshot_witness :
  let E := Scenario.env true in
  let w := Scenario.world_with_backlog in
  (storage_fault E TicStore.STORAGE_KEY = false
   /\ storage_fault E SuggestionStore.STORAGE_KEY = false
   /\ TicStoreState.pendingLogs (tic w) ≠ []
   /\ api_tics_sync E (calls w) (TicStoreState.pendingLogs (tic w))
      = Some (TicStoreState.pendingLogs (tic w)))
  /\ (exists persisted,
        fst (TicStore.syncTicLogs E w) = Returned tt
        /\ TicStoreState.error (tic (snd (TicStore.syncTicLogs E w)))
           = TicStoreState.error (tic w)
        /\ storage (snd (TicStore.syncTicLogs E w)) !! TicStore.STORAGE_KEY
           = Some (JSON_stringify E (VObj persisted))
        /\ obj_keys persisted
           = ["error"; "ticLogs"; "lastSync"; "ticTypes"; "isLoading";
              "recentLogs"; "pendingLogs"; "selectedTicType";
              "filterSettings"; "cachedHistoryRanges"]
        /\ obj_get "isLoading" persisted = Some (VBool true)
        /\ obj_get "error" persisted
           = Some (opt_value VStr (TicStoreState.error (tic w))))
  /\ storage (snd (TicStore.syncTicLogs E w)) !! TicStore.STORAGE_KEY
     = Some
         ("error,ticLogs,lastSync,ticTypes,isLoading,recentLogs,"
          +:+ "pendingLogs,selectedTicType,filterSettings,"
          +:+ "cachedHistoryRanges").
Proof.
  cbn zeta.
  assert (Hpending :
    TicStoreState.pendingLogs (tic Scenario.world_with_backlog) ≠ []).
  { vm_compute. discriminate. }
  split; [split; [reflexivity | split; [reflexivity | split;
            [exact Hpending | reflexivity]]] |].
  split; [| vm_compute; reflexivity].
  apply (syncTicLogs_snapshot (Scenario.env true)
           Scenario.world_with_backlog
           (TicStoreState.pendingLogs (tic Scenario.world_with_backlog))
           (sug Scenario.world_with_backlog) eq_refl eq_refl Hpending
           eq_refl).
Defined.

(** ** Loading the persisted snapshot *)

(** A snapshot that is missing, cannot be read or does not parse starts
    both stores in their initial state; nothing is thrown. *)
Lemma startup_without_snapshot E w :
  (no_snapshot E TicStore.STORAGE_KEY w ->
   TicStore.startup E w
   = (Returned (TicStoreState_props (TicStore.initialState E)), w))
  /\ (no_snapshot E SuggestionStore.STORAGE_KEY w ->
      SuggestionStore.startup E w
      = (Returned (SuggestionStoreState_props SuggestionStore.initialState),
         w)).
Proof.
  split; intros [Hfault | [Hnone | [Hempty | (text & Hsome & Hparse)]]];
    unfold TicStore.startup, TicStore.loadPersistedState,
      SuggestionStore.startup, SuggestionStore.loadPersistedState; run.
  all: try (rewrite Hfault; reflexivity).
  all: destruct (storage_fault E _); try reflexivity.
  all: try (rewrite Hnone; reflexivity).
  all: try (rewrite Hempty; reflexivity).
  all: rewrite Hsome; destruct text; try reflexivity; rewrite Hparse;
    reflexivity.
Qed.

(** C9, evaluated on the code at a snapshot whose [lastSync] is
    ["2024-01-01T00:00:00Z"] and whose queue is empty.  The state the
    SuggestionStore starts with has that string as its [lastSync]: no
    [Date] is rebuilt.  The TicStore, loading the same snapshot, starts
    with the [Date] that the string denotes. *)
Theorem startup_lastSync E w text :
  storage_fault E SuggestionStore.STORAGE_KEY = false ->
  storage_fault E TicStore.STORAGE_KEY = false ->
  storage w !! SuggestionStore.STORAGE_KEY = Some text ->
  storage w !! TicStore.STORAGE_KEY = Some text ->
  text ≠ EmptyString ->
  JSON_parse E text = Some Scenario.snapshot ->
  (exists state,
     SuggestionStore.startup E w = (Returned state, w)
     /\ obj_get "lastSync" state = Some (VStr "2024-01-01T00:00:00Z")
     /\ obj_get "operationQueue" state = Some (VArr []))
  /\ (exists state,
        TicStore.startup E w = (Returned state, w)
        /\ obj_get "lastSync" state
           = Some (VDate (Date_parse E "2024-01-01T00:00:00Z"))).
Proof.
  intros Hfault Hfault' Hstored Hstored' Htext Hparse.
  split.
  - unfold SuggestionStore.startup, SuggestionStore.loadPersistedState. run.
    rewrite Hfault, Hstored.
    destruct text as [|c text]; [destruct (Htext eq_refl) |].
    rewrite Hparse. eexists. split; [reflexivity |].
    split; vm_compute; reflexivity.
  - unfold TicStore.startup, TicStore.loadPersistedState. run.
    rewrite Hfault', Hstored'.
    destruct text as [|c text]; [destruct (Htext eq_refl) |].
    rewrite Hparse. eexists. split; [reflexivity |].
    vm_compute. reflexivity.
Qed.


Lemma startup_lastSync_witness :
  let E := Scenario.env true in
  let w := Scenario.world_with_snapshots in
  (storage_fault E SuggestionStore.STORAGE_KEY = false
   /\ storage_fault E TicStore.STORAGE_KEY = false
   /\ storage w !! SuggestionStore.STORAGE_KEY = Some Scenario.snapshot_text
   /\ storage w !! TicStore.STORAGE_KEY = Some Scenario.snapshot_text
   /\ Scenario.snapshot_text ≠ EmptyString
   /\ JSON_parse E Scenario.snapshot_text = Some Scenario.snapshot)
  /\ (exists state,
        SuggestionStore.startup E w = (Returned state, w)
        /\ obj_get "lastSync" state = Some (VStr "2024-01-01T00:00:00Z")
        /\ obj_get "operationQueue" state = Some (VArr []))
  /\ (exists state,
        TicStore.startup E w = (Returned state, w)
        /\ obj_get "lastSync" state
           = Some (VDate (Some Scenario.new_year_2024))).
Proof.
  cbn zeta.
  assert (Htext : Scenario.snapshot_text ≠ EmptyString).
  { vm_compute. discriminate. }
  split; [repeat split; try reflexivity; exact Htext |].
  apply (startup_lastSync (Scenario.env true) Scenario.world_with_snapshots
           Scenario.snapshot_text eq_refl eq_refl eq_refl eq_refl Htext
           eq_refl).
Defined.

(** * Properties of the other actions *)

(** The concrete cases are what they are meant to be. *)
Lemma remote_quiet ok : quiet_remote (Cases.remote ok).
Proof. repeat split. Qed.

Lemma world_one_pending_pending :
  TicStoreState.pendingLogs (tic Cases.world_one_pending) ≠ [].
Proof. intros Hnil. vm_compute in Hnil. discriminate Hnil. Qed.

Lemma initial_listed_resolve : listed_resolve SuggestionStore.initialState.
Proof.
  intros t ids Hids. cbn in Hids. rewrite lookup_empty in Hids.
  discriminate Hids.
Qed.

(** ** TicStore *)

Section TicStoreProperties.
Import TicStoreState.

Lemma logTic_cases E w logData :
  let newLog := optimistic_log E w logData in
  let tempId := uuid_v4 E (uuids w) in
  let optimistic :=
    set_recentLogs (take 10 (newLog :: recentLogs (tic w)))
      (set_pendingLogs (pendingLogs (tic w) ++ [newLog])
         (set_ticLogs (<[tempId := newLog]> (ticLogs (tic w))) (tic w))) in
  let sent :=
    with_clock
      (clock w + Z.of_N (latency E (calls w) (PostTicLog newLog)))
      (with_calls (calls w ++ [PostTicLog newLog])
         (with_uuids (S (uuids w)) w)) in
  TicStore.logTic E logData w
  = if no_identity (userId w)
    then (Returned tt,
          with_tic (set_error (Some "User not authenticated") (tic w)) w)
    else
      match api_tics_log E (calls w) newLog with
      | Some savedLog =>
          (Returned tt,
           with_tic
             (set_recentLogs
                (map (fun log =>
                        if decide (TicLog.id log = tempId) then savedLog
                        else log)
                   (take 10 (newLog :: recentLogs (tic w))))
                (set_pendingLogs
                   (filter (fun log => TicLog.id log ≠ tempId)
                      (pendingLogs (tic w) ++ [newLog]))
                   (set_ticLogs
                      (<[TicLog.id savedLog := savedLog]>
                         (delete tempId
                            (<[tempId := newLog]> (ticLogs (tic w)))))
                      optimistic))) sent)
      | None =>
          (Returned tt,
           with_tic
             (set_recentLogs
                (filter (fun log => TicLog.id log ≠ tempId)
                   (take 10 (newLog :: recentLogs (tic w))))
                (set_ticLogs
                   (delete tempId (<[tempId := newLog]> (ticLogs (tic w))))
                   (set_error (Some "Failed to sync tic log") optimistic)))
             sent)
      end.
Proof.
  unfold TicStore.logTic, optimistic_log. run.
  destruct (no_identity (userId w)); [reflexivity |].
  destruct (api_tics_log E (calls w) _); reflexivity.
Qed.

Lemma logTic_recent_length E w logData :
  no_identity (userId w) = false
  \/ (length (recentLogs (tic w)) <= 10)%nat ->
  (length (recentLogs (tic (snd (TicStore.logTic E logData w)))) <= 10)%nat.
Proof.
  intros Hpre. rewrite logTic_cases.
  destruct (no_identity (userId w)) eqn:Hid.
  - destruct Hpre as [Hno | Hlen]; [discriminate Hno | exact Hlen].
  - assert (Htake : forall new : TicLog.t,
              (length (take 10 (new :: recentLogs (tic w))) <= 10)%nat).
    { intros new. rewrite length_take. lia. }
    destruct (api_tics_log E (calls w) _); cbn [snd tic with_tic recentLogs
      set_recentLogs].
    + rewrite length_map. apply Htake.
    + etransitivity; [apply length_filter | apply Htake].
Qed.




Lemma logTic_cache E w logData :
  cachedHistoryRanges (tic (snd (TicStore.logTic E logData w)))
  = cachedHistoryRanges (tic w).
Proof.
  rewrite logTic_cases. destruct (no_identity (userId w)); [reflexivity |].
  destruct (api_tics_log E (calls w) _); reflexivity.
Qed.

(** X2: [logTic] does not invalidate the range cache.  A range cached
    before the call is served from the cache after it, as long as the entry
    is younger than thirty minutes: the logs returned are the cached ones,
    whatever was logged, and the world is unchanged. *)
Theorem getTicHistory_after_logTic E w logData startDate endDate cached :
  cachedHistoryRanges (tic w) !! cacheKey E startDate endDate = Some cached ->
  let w' := snd (TicStore.logTic E logData w) in
  clock w' - CachedRange.timestamp cached < TicStore.CACHE_DURATION ->
  TicStore.getTicHistory E startDate endDate w'
  = (Returned (CachedRange.logs cached), w').
Proof.
  intros Hcached w' Hfresh. apply getTicHistory_hit; [| exact Hfresh].
  unfold w'. rewrite logTic_cache. exact Hcached.
Qed.

Lemma getTicHistory_after_logTic_witness :
  let E := Scenario.env true in
  let w := Scenario.world_with_cache in
  let cached := CachedRange.mk [] 1005 in
  let w' := snd (TicStore.logTic E Scenario.logData w) in
  (TicStoreState.cachedHistoryRanges (tic w) !! cacheKey E 100 200
   = Some cached
   /\ clock w' - CachedRange.timestamp cached < TicStore.CACHE_DURATION)
  /\ length (TicStoreState.recentLogs (tic w')) = 1%nat
  /\ TicStore.getTicHistory E 100 200 w' = (Returned [], w').
Proof.
  cbn zeta.
  assert (Hfresh :
    clock (snd (TicStore.logTic (Scenario.env true) Scenario.logData
                  Scenario.world_with_cache)) - 1005
    < TicStore.CACHE_DURATION) by (vm_compute; reflexivity).
  split; [split; [reflexivity | exact Hfresh] |].
  split; [reflexivity |].
  exact (getTicHistory_after_logTic (Scenario.env true)
           Scenario.world_with_cache Scenario.logData 100 200
           (CachedRange.mk [] 1005) eq_refl Hfresh).
Defined.

(** X3: [logTic] keeps [recentLogs] resolvable: if the id of every recent
    log is a key of [ticLogs] before the call, it is so after the call,
    whether the call stopped for want of an identity, was confirmed or was
    rejected. *)
Theorem logTic_recent_resolve E w logData :
  recent_resolve (tic w) ->
  recent_resolve (tic (snd (TicStore.logTic E logData w))).
Proof.
  unfold recent_resolve. intros Hinv. rewrite logTic_cases.
  destruct (no_identity (userId w)); [exact Hinv |].
  set (newLog := optimistic_log E w logData).
  set (tempId := uuid_v4 E (uuids w)).
  assert (Hold : forall log,
            log ∈ take 10 (newLog :: recentLogs (tic w)) ->
            TicLog.id log ≠ tempId ->
            is_Some (ticLogs (tic w) !! TicLog.id log)).
  { intros log Hin Hne. apply (subseteq_take 10) in Hin.
    apply elem_of_cons in Hin. destruct Hin as [-> | Hin].
    - destruct Hne. reflexivity.
    - rewrite Forall_forall in Hinv. apply Hinv, Hin. }
  destruct (api_tics_log E (calls w) newLog) as [savedLog|];
    cbn [snd tic with_tic ticLogs recentLogs set_recentLogs set_pendingLogs
         set_ticLogs set_error].
  - apply Forall_forall. intros log Hin.
    apply list_elem_of_fmap in Hin. destruct Hin as (log0 & -> & Hin).
    destruct (decide (TicLog.id log0 = tempId)) as [_ | Hne].
    + rewrite lookup_insert_eq. eexists. reflexivity.
    + destruct (decide (TicLog.id savedLog = TicLog.id log0)) as [-> | Hne'].
      * rewrite lookup_insert_eq. eexists. reflexivity.
      * rewrite lookup_insert_ne by exact Hne'.
        rewrite lookup_delete_ne by congruence.
        rewrite lookup_insert_ne by congruence.
        apply Hold; assumption.
  - apply Forall_forall. intros log Hin.
    apply list_elem_of_filter in Hin. destruct Hin as [Hne Hin].
    rewrite lookup_delete_ne by congruence.
    rewrite lookup_insert_ne by congruence.
    apply Hold; assumption.
Qed.

Lemma logTic_recent_resolve_witness :
  let E := Scenario.env true in
  let w := Scenario.world_ten_recent in
  let w' := snd (TicStore.logTic E Scenario.logData w) in
  recent_resolve (tic w)
  /\ recent_resolve (tic w')
  /\ map TicLog.id (TicStoreState.recentLogs (tic w'))
     = ["server-10"; "server-9"; "server-8"; "server-7"; "server-6";
        "server-5"; "server-4"; "server-3"; "server-2"; "server-1"].
Proof.
  cbn zeta.
  assert (Hinv : recent_resolve (tic Scenario.world_ten_recent)).
  { unfold recent_resolve. apply Forall_forall. intros log Hin.
    vm_compute in Hin. 
    repeat (apply elem_of_cons in Hin; destruct Hin as [-> | Hin]);
      [eexists; vm_compute; reflexivity ..|].
    apply elem_of_nil in Hin. destruct Hin. }
  split; [exact Hinv |].
  split; [exact (logTic_recent_resolve (Scenario.env true)
                   Scenario.world_ten_recent Scenario.logData Hinv) |].
  vm_compute. reflexivity.
Defined.

(** *** syncTicLogs *)

Lemma index_by_other {A} (key : A -> string) items : forall m k,
  k ∉ map key items -> index_by key items m !! k = m !! k.
Proof.
  induction items as [|x items IH]; intros m k Hk; [reflexivity |].
  cbn in Hk. rewrite not_elem_of_cons in Hk. destruct Hk as [Hne Hk].
  unfold index_by in *. cbn. rewrite IH by exact Hk.
  apply lookup_insert_ne. congruence.
Qed.

Lemma index_by_listed {A} (key : A -> string) items : forall m x,
  x ∈ items ->
  exists x',
    index_by key items m !! key x = Some x' /\ x' ∈ items /\ key x' = key x.
Proof.
  induction items as [|x0 items IH]; intros m x Hin.
  - apply elem_of_nil in Hin. destruct Hin.
  - unfold index_by in *. cbn.
    destruct (decide (key x ∈ map key items)) as [Hlater | Hnot].
    + apply list_elem_of_fmap in Hlater.
      destruct Hlater as (x1 & Hkey & Hin1).
      destruct (IH (<[key x0 := x0]> m) x1 Hin1) as (x' & Hlook & Hin' & Hkey').
      exists x'. rewrite Hkey. split; [exact Hlook |].
      split; [right; exact Hin' | congruence].
    + apply elem_of_cons in Hin. destruct Hin as [-> | Hin].
      * exists x0. split; [| split; [left | reflexivity]].
        fold (index_by key items (<[key x0 := x0]> m)).
        rewrite index_by_other by exact Hnot. apply lookup_insert_eq.
      * destruct Hnot. apply list_elem_of_fmap. exists x.
        split; [reflexivity | exact Hin].
Qed.

Lemma index_by_unique {A} (key : A -> string) items m x :
  NoDup (map key items) -> x ∈ items ->
  index_by key items m !! key x = Some x.
Proof.
  intros Hnodup Hin.
  destruct (index_by_listed key items m x Hin) as (x' & Hlook & Hin' & Hkey).
  rewrite Hlook. f_equal.
  apply list_elem_of_lookup in Hin, Hin'.
  destruct Hin as [i Hi]. destruct Hin' as [j Hj].
  assert (i = j) as ->.
  { apply (NoDup_lookup (map key items) i j (key x)); [exact Hnodup | |].
    - rewrite list_lookup_fmap, Hi. reflexivity.
    - rewrite list_lookup_fmap, Hj. cbn. congruence. }
  congruence.
Qed.

Lemma foldl_ticLogs_merge (logs : list TicLog.t) : forall state,
  foldl (fun state log =>
           set_ticLogs (<[TicLog.id log := log]> (ticLogs state)) state)
    state logs
  = set_ticLogs (index_by TicLog.id logs (ticLogs state)) state.
Proof.
  induction logs as [|log logs IH]; intros state.
  - destruct state; reflexivity.
  - cbn. rewrite IH. reflexivity.
Qed.

Lemma syncTicLogs_cases E w :
  let pending := pendingLogs (tic w) in
  let sent :=
    with_clock (clock w + Z.of_N (latency E (calls w) (PostTicSync pending)))
      (with_calls (calls w ++ [PostTicSync pending]) w) in
  TicStore.syncTicLogs E w
  = match pending with
    | [] =>
        (Returned tt,
         with_tic (set_isLoading false (set_isLoading true (tic w))) w)
    | _ :: _ =>
        match api_tics_sync E (calls w) pending with
        | None =>
            (Returned tt,
             with_tic
               (set_isLoading false
                  (set_error (Some "Failed to sync tic logs")
                     (set_isLoading true (tic w)))) sent)
        | Some syncedLogs =>
            let synced :=
              set_ticLogs (index_by TicLog.id syncedLogs (ticLogs (tic w)))
                (set_lastSync (Some (clock sent))
                   (set_pendingLogs [] (set_isLoading true (tic w)))) in
            if storage_fault E TicStore.STORAGE_KEY
            then
              (Returned tt,
               with_tic
                 (set_isLoading false
                    (set_error (Some "Failed to sync tic logs") synced))
                 sent)
            else
              (Returned tt,
               with_tic (set_isLoading false synced)
                 (with_storage
                    (<[TicStore.STORAGE_KEY
                       := JSON_stringify E
                            (VObj (TicStoreState_props synced))]>
                       (storage w)) sent))
        end
    end.
Proof.
  unfold TicStore.syncTicLogs. run.
  cbn [pendingLogs set_isLoading].
  destruct (pendingLogs (tic w)) as [|log logs]; [reflexivity |].
  cbn [length Nat.eqb]. run.
  destruct (api_tics_sync E (calls w) (log :: logs)) as [syncedLogs|];
    [| reflexivity].
  rewrite foldl_ticLogs_merge.
  destruct (storage_fault E TicStore.STORAGE_KEY); reflexivity.
Qed.

(** X4: a rejected [syncTicLogs].  The call returns normally; the pending
    logs, [ticLogs] and [lastSync] are as before, the error is ['Failed to
    sync tic logs'], [isLoading] is back to [false], nothing is written to
    storage and the one request sent carries the pending logs. *)
Theorem syncTicLogs_rejected E w :
  pendingLogs (tic w) ≠ [] ->
  api_tics_sync E (calls w) (pendingLogs (tic w)) = None ->
  let w' := snd (TicStore.syncTicLogs E w) in
  fst (TicStore.syncTicLogs E w) = Returned tt
  /\ pendingLogs (tic w') = pendingLogs (tic w)
  /\ ticLogs (tic w') = ticLogs (tic w)
  /\ lastSync (tic w') = lastSync (tic w)
  /\ error (tic w') = Some "Failed to sync tic logs"
  /\ isLoading (tic w') = false
  /\ storage w' = storage w
  /\ calls w' = calls w ++ [PostTicSync (pendingLogs (tic w))].
Proof.
  intros Hpending Hrejected w'. subst w'. rewrite syncTicLogs_cases.
  destruct (pendingLogs (tic w)) as [|log logs] eqn:Hlogs;
    [destruct (Hpending eq_refl) |].
  rewrite Hrejected. cbn. rewrite Hlogs. repeat split.
Qed.

Lemma syncTicLogs_rejected_witness :
  let E := Scenario.env false in
  let w := Cases.world_one_pending in
  let w' := snd (TicStore.syncTicLogs E w) in
  (TicStoreState.pendingLogs (tic w) ≠ []
   /\ api_tics_sync E (calls w) (TicStoreState.pendingLogs (tic w)) = None)
  /\ TicStoreState.pendingLogs (tic w')
     = [TicLog.mk "uuid-0" EmptyString "u1" 5 "t1" "morning" 1000]
  /\ TicStoreState.error (tic w') = Some "Failed to sync tic logs"
  /\ TicStoreState.lastSync (tic w') = None
  /\ storage w' = ∅.
Proof.
  cbn zeta.
  split; [split; [exact world_one_pending_pending | reflexivity] |].
  destruct (syncTicLogs_rejected (Scenario.env false) Cases.world_one_pending
              world_one_pending_pending eq_refl)
    as (_ & Hpending & _ & Hsync & Herror & _ & Hstorage & _).
  split; [rewrite Hpending; reflexivity |].
  split; [exact Herror |].
  split; [rewrite Hsync; reflexivity |].
  rewrite Hstorage. reflexivity.
Defined.

(** X5: an accepted [syncTicLogs] merges the response into [ticLogs]: the
    id of every log of the response maps to a log of the response with
    that id, every other key keeps its entry, and [recentLogs] is not
    touched. *)
Theorem syncTicLogs_merges E w syncedLogs :
  pendingLogs (tic w) ≠ [] ->
  api_tics_sync E (calls w) (pendingLogs (tic w)) = Some syncedLogs ->
  let w' := snd (TicStore.syncTicLogs E w) in
  (forall log, log ∈ syncedLogs ->
     exists log',
       ticLogs (tic w') !! TicLog.id log = Some log'
       /\ log' ∈ syncedLogs /\ TicLog.id log' = TicLog.id log)
  /\ (forall k, k ∉ map TicLog.id syncedLogs ->
        ticLogs (tic w') !! k = ticLogs (tic w) !! k)
  /\ recentLogs (tic w') = recentLogs (tic w).
Proof.
  intros Hpending Haccepted w'.
  assert (Hlogs : ticLogs (tic w')
                  = index_by TicLog.id syncedLogs (ticLogs (tic w))
                  /\ recentLogs (tic w') = recentLogs (tic w)).
  { subst w'. rewrite syncTicLogs_cases.
    destruct (pendingLogs (tic w)) as [|log logs];
      [destruct (Hpending eq_refl) |].
    rewrite Haccepted. cbn zeta.
    destruct (storage_fault E TicStore.STORAGE_KEY); split; reflexivity. }
  destruct Hlogs as [-> Hrecent].
  split; [| split; [| exact Hrecent]].
  - intros log Hin. apply (index_by_listed TicLog.id). exact Hin.
  - intros k Hk. apply index_by_other. exact Hk.
Qed.

Lemma syncTicLogs_merges_witness :
  let E := Scenario.env true in
  let w := Cases.world_one_pending in
  let log := TicLog.mk "uuid-0" EmptyString "u1" 5 "t1" "morning" 1000 in
  let w' := snd (TicStore.syncTicLogs E w) in
  (TicStoreState.pendingLogs (tic w) ≠ []
   /\ api_tics_sync E (calls w) (TicStoreState.pendingLogs (tic w))
      = Some [log])
  /\ TicStoreState.ticLogs (tic w') !! "uuid-0" = Some log
  /\ TicStoreState.ticLogs (tic w') !! "uuid-1" = None
  /\ TicStoreState.recentLogs (tic w') = [].
Proof.
  cbn zeta.
  split; [split; [exact world_one_pending_pending | reflexivity] |].
  destruct (syncTicLogs_merges (Scenario.env true) Cases.world_one_pending
              [TicLog.mk "uuid-0" EmptyString "u1" 5 "t1" "morning" 1000]
              world_one_pending_pending eq_refl)
    as (_ & Hother & Hrecent).
  split; [vm_compute; reflexivity |].
  split; [| rewrite Hrecent; reflexivity].
  rewrite Hother; [reflexivity |].
  cbn. intros Hin. apply elem_of_cons in Hin.
  destruct Hin as [Hin | Hin]; [discriminate Hin |].
  apply elem_of_nil in Hin. exact Hin.
Defined.

(** X6: a [syncTicLogs] whose snapshot cannot be saved.  The server has
    accepted the logs, but the failure of [saveString] is caught by the same
    handler: the error is ['Failed to sync tic logs'] although the queue
    has been emptied and [lastSync] stamped.  Storage is unchanged. *)
Theorem syncTicLogs_save_fails E w syncedLogs :
  pendingLogs (tic w) ≠ [] ->
  api_tics_sync E (calls w) (pendingLogs (tic w)) = Some syncedLogs ->
  storage_fault E TicStore.STORAGE_KEY = true ->
  let w' := snd (TicStore.syncTicLogs E w) in
  fst (TicStore.syncTicLogs E w) = Returned tt
  /\ error (tic w') = Some "Failed to sync tic logs"
  /\ pendingLogs (tic w') = []
  /\ lastSync (tic w') = Some (clock w')
  /\ isLoading (tic w') = false
  /\ storage w' = storage w.
Proof.
  intros Hpending Haccepted Hfault w'. subst w'. rewrite syncTicLogs_cases.
  destruct (pendingLogs (tic w)) as [|log logs];
    [destruct (Hpending eq_refl) |].
  rewrite Haccepted. cbn zeta. rewrite Hfault. repeat split.
Qed.

Lemma syncTicLogs_save_fails_witness :
  let E := Cases.env_storage_fault in
  let w := Cases.world_one_pending in
  let w' := snd (TicStore.syncTicLogs E w) in
  (TicStoreState.pendingLogs (tic w) ≠ []
   /\ api_tics_sync E (calls w) (TicStoreState.pendingLogs (tic w))
      = Some (TicStoreState.pendingLogs (tic w))
   /\ storage_fault E TicStore.STORAGE_KEY = true)
  /\ TicStoreState.error (tic w') = Some "Failed to sync tic logs"
  /\ TicStoreState.pendingLogs (tic w') = []
  /\ TicStoreState.lastSync (tic w') = Some 1010
  /\ storage w' = ∅.
Proof.
  cbn zeta.
  split; [split; [exact world_one_pending_pending | split; reflexivity] |].
  destruct (syncTicLogs_save_fails Cases.env_storage_fault
              Cases.world_one_pending
              (TicStoreState.pendingLogs (tic Cases.world_one_pending))
              world_one_pending_pending eq_refl eq_refl)
    as (_ & Herror & Hpending & Hsync & _ & Hstorage).
  split; [exact Herror |]. split; [exact Hpending |].
  split; [rewrite Hsync; reflexivity |].
  rewrite Hstorage. reflexivity.
Defined.

(** *** deleteTicLog, fetchTicTypes, updateFilterSettings *)

(** X7: [deleteTicLog] in its three outcomes.  It never throws, ends with
    [isLoading] [false] and never touches [pendingLogs] (a deleted log that
    is still pending stays queued).  On an [ok] response the id leaves
    [ticLogs] and [recentLogs]; on a response that is not [ok], or when the
    exchange throws, both are unchanged and the error is ['Failed to delete
    tic log']. *)
Theorem deleteTicLog_outcomes R w logId :
  quiet (delete_tics_log R logId) ->
  let answer :=
    fst (delete_tics_log R logId
           (with_tic (set_isLoading true (tic w)) w)) in
  let w' := snd (TicStoreActions.deleteTicLog R logId w) in
  fst (TicStoreActions.deleteTicLog R logId w) = Returned tt
  /\ isLoading (tic w') = false
  /\ pendingLogs (tic w') = pendingLogs (tic w)
  /\ match answer with
     | Returned true =>
         ticLogs (tic w') = delete logId (ticLogs (tic w))
         /\ recentLogs (tic w')
            = filter (fun log => TicLog.id log ≠ logId) (recentLogs (tic w))
         /\ error (tic w') = error (tic w)
     | _ =>
         ticLogs (tic w') = ticLogs (tic w)
         /\ recentLogs (tic w') = recentLogs (tic w)
         /\ error (tic w') = Some "Failed to delete tic log"
     end.
Proof.
  intros Hquiet answer w'. subst answer w'.
  unfold TicStoreActions.deleteTicLog. run.
  destruct (Hquiet (with_tic (set_isLoading true (tic w)) w)) as [Htic _].
  destruct (delete_tics_log R logId (with_tic (set_isLoading true (tic w)) w))
    as [[[|]|message] w1]; cbn in Htic |- *; rewrite Htic; cbn;
    repeat split.
Qed.

Lemma deleteTicLog_outcomes_witness :
  let E := Scenario.env true in
  let w := snd (TicStore.logTic E Scenario.logData
                  (Scenario.world (Some "u1"))) in
  let accepted := snd (TicStoreActions.deleteTicLog (Cases.remote true)
                         "server-0" w) in
  let refused := snd (TicStoreActions.deleteTicLog (Cases.remote false)
                        "server-0" w) in
  (quiet (delete_tics_log (Cases.remote true) "server-0")
   /\ quiet (delete_tics_log (Cases.remote false) "server-0"))
  /\ is_Some (TicStoreState.ticLogs (tic w) !! "server-0")
  /\ TicStoreState.ticLogs (tic accepted) !! "server-0" = None
  /\ TicStoreState.recentLogs (tic accepted) = []
  /\ TicStoreState.error (tic accepted) = None
  /\ TicStoreState.ticLogs (tic refused) = TicStoreState.ticLogs (tic w)
  /\ TicStoreState.error (tic refused) = Some "Failed to delete tic log".
Proof.
  cbn zeta.
  pose proof (remote_quiet true) as (_ & Hdelete & _).
  pose proof (remote_quiet false) as (_ & Hdelete' & _).
  split; [split; [apply Hdelete | apply Hdelete'] |].
  split; [eexists; vm_compute; reflexivity |].
  destruct (deleteTicLog_outcomes (Cases.remote true)
              (snd (TicStore.logTic (Scenario.env true) Scenario.logData
                      (Scenario.world (Some "u1")))) "server-0"
              (Hdelete "server-0")) as (_ & _ & _ & Hlogs & Hrecent & Herror).
  destruct (deleteTicLog_outcomes (Cases.remote false)
              (snd (TicStore.logTic (Scenario.env true) Scenario.logData
                      (Scenario.world (Some "u1")))) "server-0"
              (Hdelete' "server-0")) as (_ & _ & _ & Hlogs' & _ & Herror').
  split; [rewrite Hlogs; apply lookup_delete_eq |].
  split; [rewrite Hrecent; reflexivity |].
  split; [rewrite Herror; reflexivity |].
  split; [exact Hlogs' | exact Herror'].
Defined.

(** X8: [fetchTicTypes] in its three outcomes.  It never throws and ends
    with [isLoading] [false].  On an [ok] response [ticTypes] is rebuilt
    from the response alone: an id that is not in the response is absent
    afterwards, and when the ids of the response are distinct every type is
    found under its id.  Otherwise [ticTypes] is unchanged and the error is
    ['Failed to fetch tic types']. *)
Theorem fetchTicTypes_outcomes R w :
  quiet (get_tics_types R) ->
  let answer :=
    fst (get_tics_types R (with_tic (set_isLoading true (tic w)) w)) in
  let w' := snd (TicStoreActions.fetchTicTypes R w) in
  fst (TicStoreActions.fetchTicTypes R w) = Returned tt
  /\ isLoading (tic w') = false
  /\ match answer with
     | Returned (Some types) =>
         ticTypes (tic w') = index_by TicType.id types ∅
         /\ (forall k, k ∉ map TicType.id types ->
                        ticTypes (tic w') !! k = None)
         /\ (NoDup (map TicType.id types) ->
             forall type, type ∈ types ->
               ticTypes (tic w') !! TicType.id type = Some type)
         /\ error (tic w') = error (tic w)
     | _ =>
         ticTypes (tic w') = ticTypes (tic w)
         /\ error (tic w') = Some "Failed to fetch tic types"
     end.
Proof.
  intros Hquiet answer w'. subst answer w'.
  unfold TicStoreActions.fetchTicTypes. run.
  destruct (Hquiet (with_tic (set_isLoading true (tic w)) w)) as [Htic _].
  destruct (get_tics_types R (with_tic (set_isLoading true (tic w)) w))
    as [[[types|]|message] w1]; cbn in Htic |- *; rewrite Htic; cbn;
    repeat split.
  - intros k Hk. change (index_by TicType.id types ∅ !! k = None).
    rewrite index_by_other by exact Hk. apply lookup_empty.
  - intros Hnodup type Hin.
    apply (index_by_unique TicType.id types ∅ type Hnodup Hin).
Qed.

Lemma fetchTicTypes_outcomes_witness :
  let w := Scenario.world (Some "u1") in
  let w' := snd (TicStoreActions.fetchTicTypes (Cases.remote true) w) in
  quiet (get_tics_types (Cases.remote true))
  /\ TicStoreState.ticTypes (tic w') !! "t2"
     = Some (TicType.mk "t2" "Throat clearing" "vocal" false EmptyString)
  /\ TicStoreState.ticTypes (tic w') !! "t3" = None
  /\ TicStoreState.isLoading (tic w') = false
  /\ TicStoreState.error (tic w') = None.
Proof.
  cbn zeta.
  pose proof (remote_quiet true) as (Htypes & _).
  split; [exact Htypes |].
  destruct (fetchTicTypes_outcomes (Cases.remote true)
              (Scenario.world (Some "u1")) Htypes)
    as (_ & Hloading & _ & Hother & _ & Herror).
  split; [vm_compute; reflexivity |].
  split; [apply Hother; vm_compute; intros Hin;
          repeat (apply elem_of_cons in Hin; destruct Hin as [Hin | Hin];
                  [discriminate Hin |]);
          apply elem_of_nil in Hin; exact Hin |].
  split; [exact Hloading | exact Herror].
Defined.

(** X9: [updateFilterSettings] (an absent key of the update is [None]).
    The keys the update gives are replaced and the others kept; nothing
    else in the world changes; the update [{}] changes nothing; the same
    update applied twice is the update applied once. *)
Theorem updateFilterSettings_merge w settings :
  let w' := snd (TicStoreActions.updateFilterSettings settings w) in
  (* a field the update gives takes its value, another keeps its own *)
  filterSettings (tic w')
    = TicStoreActions.merge_settings (filterSettings (tic w)) settings
  (* nothing else changes *)
  /\ w' = with_tic
            (TicStoreActions.set_filterSettings (filterSettings (tic w'))
               (tic w)) w
  (* the empty update changes nothing *)
  /\ TicStoreActions.updateFilterSettings no_settings w = (Returned tt, w)
  (* the same update twice is the update once *)
  /\ snd (TicStoreActions.updateFilterSettings settings w') = w'.
Proof.
  cbn zeta. unfold TicStoreActions.updateFilterSettings. run.
  split; [reflexivity |]. split; [reflexivity |]. split.
  - destruct w as [[? ? ? ? ? ? ? ? [? ? ? ?] ?] ? ? ? ? ? ? ?]. reflexivity.
  - cbn. destruct settings as [[?|] [?|] [?|] [?|]]; reflexivity.
Qed.

(** *** Frames *)

Lemma getTicHistory_keeps E startDate endDate w :
  let w' := snd (TicStore.getTicHistory E startDate endDate w) in
  recentLogs (tic w') = recentLogs (tic w)
  /\ ticLogs (tic w') = ticLogs (tic w)
  /\ pendingLogs (tic w') = pendingLogs (tic w)
  /\ lastSync (tic w') = lastSync (tic w).
Proof.
  cbn zeta.
  destruct (cachedHistoryRanges (tic w) !! cacheKey E startDate endDate)
    as [cached|] eqn:Hcached.
  - destruct (Z.lt_ge_cases (clock w - CachedRange.timestamp cached)
                TicStore.CACHE_DURATION) as [Hfresh|Hstale].
    + rewrite (getTicHistory_hit E w _ _ cached Hcached Hfresh).
      repeat split.
    + assert (Hmiss : cache_miss E startDate endDate w).
      { intros c Hc. rewrite Hcached in Hc. inversion Hc; subst c.
        exact Hstale. }
      rewrite (getTicHistory_miss E w _ _ Hmiss).
      destruct (api_tics_history E (calls w) _ _); repeat split.
  - assert (Hmiss : cache_miss E startDate endDate w).
    { intros c Hc. rewrite Hcached in Hc. discriminate Hc. }
    rewrite (getTicHistory_miss E w _ _ Hmiss).
    destruct (api_tics_history E (calls w) _ _); repeat split.
Qed.


(** *** loadPersistedState *)

Lemma obj_get_set_eq k v o : obj_get k (obj_set k v o) = Some v.
Proof.
  induction o as [|[k' v'] o IH]; cbn.
  - rewrite String.eqb_refl. reflexivity.
  - destruct (String.eqb k k') eqn:Hk; cbn.
    + rewrite String.eqb_refl. reflexivity.
    + rewrite Hk. exact IH.
Qed.

Lemma obj_get_set_ne k k' v o :
  k ≠ k' -> obj_get k (obj_set k' v o) = obj_get k o.
Proof.
  intros Hne. apply String.eqb_neq in Hne.
  induction o as [|[k0 v0] o IH]; cbn.
  - rewrite Hne. reflexivity.
  - destruct (String.eqb k' k0) eqn:Hk; cbn.
    + apply String.eqb_eq in Hk. subst k0. rewrite Hne. reflexivity.
    + rewrite IH. reflexivity.
Qed.

Lemma obj_set_keeps k k' v o :
  is_Some (obj_get k o) -> is_Some (obj_get k (obj_set k' v o)).
Proof.
  intros Hk. destruct (decide (k = k')) as [-> | Hne].
  - rewrite obj_get_set_eq. eexists. reflexivity.
  - rewrite obj_get_set_ne by exact Hne. exact Hk.
Qed.

Lemma obj_spread_keeps k b : forall a,
  is_Some (obj_get k a) -> is_Some (obj_get k (obj_spread a b)).
Proof.
  unfold obj_spread. induction b as [|[k' v'] b IH]; intros a Hk; cbn.
  - exact Hk.
  - apply IH. apply obj_set_keeps. exact Hk.
Qed.

Lemma new_Date_is_Date E v d : new_Date E v = Some d -> is_Date (Some d).
Proof.
  unfold new_Date.
  destruct v; try (intros [= <-]; eexists; reflexivity);
    (destruct (no_primitive _);
     [discriminate | intros [= <-]; eexists; reflexivity]).
Qed.

(** [loadPersistedState] of the TicStore on a text that parses. *)
Lemma loadPersistedState_cases E w text parsed :
  storage_fault E TicStore.STORAGE_KEY = false ->
  storage w !! TicStore.STORAGE_KEY = Some text ->
  text ≠ EmptyString ->
  JSON_parse E text = Some parsed ->
  TicStore.loadPersistedState E w
  = match parsed with
    | VNull => (Returned [], w)
    | _ =>
        match revived_lastSync E parsed,
              revived_setting E "startDate" parsed,
              revived_setting E "endDate" parsed with
        | Some lastSync, Some startDate, Some endDate =>
            (Returned
               (obj_set "filterSettings"
                  (VObj
                     (obj_set "endDate" endDate
                        (obj_set "startDate" startDate
                           (obj_spread
                              (FilterSettings_props
                                 (TicStoreState.filterSettings
                                    (TicStore.initialState E)))
                              (from_option own_props []
                                 (prop "filterSettings" parsed))))))
                  (obj_set "lastSync" lastSync (own_props parsed))), w)
        | _, _, _ => (Returned [], w)
        end
    end.
Proof.
  intros Hfault Hstored Htext Hparsed.
  unfold TicStore.loadPersistedState, construct_Date,
    revived_lastSync, revived_setting. run.
  rewrite Hfault, Hstored.
  destruct text as [|c text]; [destruct (Htext eq_refl) |].
  rewrite Hparsed.
  destruct parsed; try reflexivity;
    destruct (truthy (prop "lastSync" _));
    repeat match goal with
           | |- context [new_Date E ?x] => destruct (new_Date E x)
           end; reflexivity.
Qed.

(** X10: [loadPersistedState] of the TicStore never throws and changes
    nothing.  Its result is [{}] when there is no snapshot to read (a
    storage fault, no text, an empty text, a text that does not parse),
    when the snapshot is [null], and when one of its three [new Date(..)]
    throws.  In every other case the result is built from the parsed
    snapshot: [lastSync] is [null] when the snapshot's is falsy and
    otherwise the [Date] made of it; [filterSettings] is an object whose
    [startDate] and [endDate] are the [Date]s made of the snapshot's, or of
    the initial ones, and which has [timeOfDay] and [intensityRange]; every
    other property is the snapshot's own, as it was parsed. *)
Theorem loadPersistedState_revives E w :
  (no_snapshot E TicStore.STORAGE_KEY w ->
   TicStore.loadPersistedState E w = (Returned [], w))
  /\ forall text parsed,
       storage_fault E TicStore.STORAGE_KEY = false ->
       storage w !! TicStore.STORAGE_KEY = Some text ->
       text ≠ EmptyString ->
       JSON_parse E text = Some parsed ->
       (parsed = VNull
        \/ revived_lastSync E parsed = None
        \/ revived_setting E "startDate" parsed = None
        \/ revived_setting E "endDate" parsed = None ->
        TicStore.loadPersistedState E w = (Returned [], w))
       /\ forall lastSync startDate endDate,
            parsed ≠ VNull ->
            revived_lastSync E parsed = Some lastSync ->
            revived_setting E "startDate" parsed = Some startDate ->
            revived_setting E "endDate" parsed = Some endDate ->
            exists persisted settings,
              TicStore.loadPersistedState E w = (Returned persisted, w)
              /\ obj_get "lastSync" persisted = Some lastSync
              /\ (lastSync = VNull \/ is_Date (Some lastSync))
              /\ obj_get "filterSettings" persisted = Some (VObj settings)
              /\ obj_get "startDate" settings = Some startDate
              /\ is_Date (Some startDate)
              /\ obj_get "endDate" settings = Some endDate
              /\ is_Date (Some endDate)
              /\ is_Some (obj_get "timeOfDay" settings)
              /\ is_Some (obj_get "intensityRange" settings)
              /\ forall k, k ≠ "lastSync" -> k ≠ "filterSettings" ->
                   obj_get k persisted = obj_get k (own_props parsed).
Proof.
  split.
  - intros [Hfault | [Hnone | [Hempty | (text & Hsome & Hparse)]]];
      unfold TicStore.loadPersistedState; run.
    + rewrite Hfault. reflexivity.
    + destruct (storage_fault E _); [reflexivity |].
      rewrite Hnone. reflexivity.
    + destruct (storage_fault E _); [reflexivity |].
      rewrite Hempty. reflexivity.
    + destruct (storage_fault E _); [reflexivity |].
      rewrite Hsome. destruct text; [reflexivity |].
      rewrite Hparse. reflexivity.
  - intros text parsed Hfault Hstored Htext Hparsed.
    pose proof (loadPersistedState_cases E w text parsed Hfault Hstored
                  Htext Hparsed) as Hload.
    split.
    + intros [-> | [Hbad | [Hbad | Hbad]]]; rewrite Hload;
        [reflexivity |..]; rewrite Hbad;
        destruct parsed; try reflexivity;
        repeat match goal with
               | |- context [match ?x with Some _ => _ | None => _ end] =>
                   destruct x
               end; reflexivity.
    + intros lastSync startDate endDate Hnonnull Hls Hsd Hed.
      rewrite Hload, Hls, Hsd, Hed.
      assert (Hshape :
        (lastSync = VNull \/ is_Date (Some lastSync))
        /\ is_Date (Some startDate) /\ is_Date (Some endDate)).
      { split; [| split; eapply new_Date_is_Date; eassumption].
        unfold revived_lastSync in Hls.
        destruct (truthy (prop "lastSync" parsed)).
        - right. eapply new_Date_is_Date. exact Hls.
        - left. congruence. }
      destruct Hshape as (Hshape & Hstart & Hend).
      destruct parsed; [destruct (Hnonnull eq_refl) |..];
        (eexists _, _; split; [reflexivity |];
         split; [rewrite obj_get_set_ne, obj_get_set_eq by discriminate;
                 reflexivity |];
         split; [exact Hshape |];
         split; [apply obj_get_set_eq |];
         split; [rewrite obj_get_set_ne, obj_get_set_eq by discriminate;
                 reflexivity |];
         split; [exact Hstart |];
         split; [apply obj_get_set_eq |];
         split; [exact Hend |];
         split; [do 2 apply obj_set_keeps; apply obj_spread_keeps;
                 eexists; reflexivity |];
         split; [do 2 apply obj_set_keeps; apply obj_spread_keeps;
                 eexists; reflexivity |];
         intros k Hsync Hsettings;
         rewrite !obj_get_set_ne by congruence; reflexivity).
Qed.

(** At the snapshot of [Scenario], whose [lastSync] is a text, the result
    has the [Date] that the text denotes; at a snapshot whose [lastSync] is
    an object with an own [toString], [new Date] throws and the result is
    [{}]. *)
Lemma loadPersistedState_revives_witness :
  let w := Scenario.world_with_snapshots in
  let thrown := Cases.env_parsing Cases.snapshot_no_primitive in
  revived_lastSync (Scenario.env true) Scenario.snapshot
    = Some (VDate (Some Scenario.new_year_2024))
  /\ (exists persisted,
        TicStore.loadPersistedState (Scenario.env true) w
          = (Returned persisted, w)
        /\ obj_get "lastSync" persisted
           = Some (VDate (Some Scenario.new_year_2024)))
  /\ revived_lastSync thrown Cases.snapshot_no_primitive = None
  /\ TicStore.loadPersistedState thrown w = (Returned [], w).
Proof.
  cbn zeta. split; [reflexivity |].
  assert (Htext : Scenario.snapshot_text ≠ EmptyString)
    by (vm_compute; discriminate).
  assert (Hobject : Scenario.snapshot ≠ VNull) by discriminate.
  destruct (loadPersistedState_revives (Scenario.env true)
              Scenario.world_with_snapshots) as [_ Hparsed].
  destruct (Hparsed Scenario.snapshot_text Scenario.snapshot
              eq_refl eq_refl Htext eq_refl) as [_ Hrevived].
  destruct (Hrevived (VDate (Some Scenario.new_year_2024))
              (VDate (Some (-604800000))) (VDate (Some 0))
              Hobject eq_refl eq_refl eq_refl)
    as (persisted & settings & Hload & Hsync & _).
  split; [exists persisted; split; [exact Hload | exact Hsync] |].
  split; [reflexivity |].
  destruct (loadPersistedState_revives
              (Cases.env_parsing Cases.snapshot_no_primitive)
              Scenario.world_with_snapshots) as [_ Hthrown].
  destruct (Hthrown Scenario.snapshot_text Cases.snapshot_no_primitive
              eq_refl eq_refl Htext eq_refl) as [Hempty _].
  apply Hempty. right. left. reflexivity.
Defined.

(** *** What every action of the TicStore keeps *)

Lemma tic_call_recent E R c w :
  quiet_remote R ->
  (length (recentLogs (tic w)) <= 10)%nat ->
  (length (recentLogs (tic (tic_call E R c w))) <= 10)%nat.
Proof.
  intros (Htypes & Hdelete & _) Hlen. destruct c; cbn [tic_call].
  - apply logTic_recent_length. right. exact Hlen.
  - rewrite syncTicLogs_cases.
    destruct (pendingLogs (tic w)); [exact Hlen |].
    destruct (api_tics_sync E (calls w) _); [| exact Hlen].
    cbn zeta. destruct (storage_fault E TicStore.STORAGE_KEY); exact Hlen.
  - unfold TicStoreActions.fetchTicTypes. run.
    destruct (Htypes (with_tic (set_isLoading true (tic w)) w)) as [Htic _].
    destruct (get_tics_types R (with_tic (set_isLoading true (tic w)) w))
      as [[[types|]|message] w1]; cbn in Htic |- *; rewrite Htic;
      exact Hlen.
  - destruct (getTicHistory_keeps E startDate endDate w) as [-> _].
    exact Hlen.
  - exact Hlen.
  - exact Hlen.
  - unfold TicStoreActions.deleteTicLog. run.
    destruct (Hdelete logId (with_tic (set_isLoading true (tic w)) w))
      as [Htic _].
    destruct (delete_tics_log R logId
                (with_tic (set_isLoading true (tic w)) w))
      as [[[|]|message] w1]; cbn in Htic |- *; rewrite Htic; cbn;
      try exact Hlen.
    etransitivity; [apply length_filter | exact Hlen].
  - unfold TicStore.updateTicLog. run.
    destruct (api_tics_log_patch E (calls w) logId updates); cbn;
      [rewrite length_map |]; exact Hlen.
  - exact Hlen.
  - cbn. lia.
Qed.

Lemma tic_call_sug E R c w :
  quiet_remote R -> sug (tic_call E R c w) = sug w.
Proof.
  intros (Htypes & Hdelete & _). destruct c; cbn [tic_call].
  - rewrite logTic_cases. destruct (no_identity (userId w)); [reflexivity |].
    destruct (api_tics_log E (calls w) _); reflexivity.
  - rewrite syncTicLogs_cases.
    destruct (pendingLogs (tic w)); [reflexivity |].
    destruct (api_tics_sync E (calls w) _); [| reflexivity].
    cbn zeta. destruct (storage_fault E TicStore.STORAGE_KEY); reflexivity.
  - unfold TicStoreActions.fetchTicTypes. run.
    destruct (Htypes (with_tic (set_isLoading true (tic w)) w)) as [_ Hsug].
    destruct (get_tics_types R (with_tic (set_isLoading true (tic w)) w))
      as [[[types|]|message] w1]; exact Hsug.
  - destruct (getTicHistory_frame E startDate endDate w)
      as (logs & w' & -> & Hsug & _). exact Hsug.
  - reflexivity.
  - reflexivity.
  - unfold TicStoreActions.deleteTicLog. run.
    destruct (Hdelete logId (with_tic (set_isLoading true (tic w)) w))
      as [_ Hsug].
    destruct (delete_tics_log R logId
                (with_tic (set_isLoading true (tic w)) w))
      as [[[|]|message] w1]; exact Hsug.
  - unfold TicStore.updateTicLog. run.
    destruct (api_tics_log_patch E (calls w) logId updates); reflexivity.
  - reflexivity.
  - reflexivity.
Qed.
End TicStoreProperties.

(** ** SuggestionStore *)

Section SuggestionStoreProperties.
Import SuggestionStoreState.

Lemma persistState_cases E state w :
  SuggestionStore.persistState E state w
  = (Returned tt,
     if storage_fault E SuggestionStore.STORAGE_KEY then w
     else with_storage
            (<[SuggestionStore.STORAGE_KEY
               := JSON_stringify E
                    (VObj (SuggestionStore.persistedData state))]>
               (storage w)) w).
Proof.
  unfold SuggestionStore.persistState. run.
  destruct (storage_fault E SuggestionStore.STORAGE_KEY); reflexivity.
Qed.

Lemma provideFeedback_cases E w feedback :
  let body := optimistic_feedback E w feedback in
  let feedbackId := uuid_v4 E (uuids w) in
  let optimistic :=
    set_userFeedback (<[feedbackId := body]> (userFeedback (sug w)))
      (set_pendingFeedback (<[feedbackId := body]> (pendingFeedback (sug w)))
         (sug w)) in
  let sent :=
    with_clock (clock w + Z.of_N (latency E (calls w) (PostFeedback body)))
      (with_calls (calls w ++ [PostFeedback body])
         (with_uuids (S (uuids w)) w)) in
  SuggestionStore.provideFeedback E feedback w
  = if no_identity (userId w) then (Thrown "User not authenticated", w)
    else if api_feedback E (calls w) body
    then
      let confirmed :=
        set_pendingFeedback (delete feedbackId (pendingFeedback optimistic))
          optimistic in
      (Returned tt,
       if storage_fault E SuggestionStore.STORAGE_KEY
       then with_sug confirmed sent
       else with_storage
              (<[SuggestionStore.STORAGE_KEY
                 := JSON_stringify E
                      (VObj (SuggestionStore.persistedData confirmed))]>
                 (storage w)) (with_sug confirmed sent))
    else
      (Returned tt,
       with_sug
         (set_operationQueue
            (operationQueue (sug w)
               ++ [QueuedOperation.mk (refs w) (uuid_v4 E (S (uuids w)))
                     OperationType.feedback body (clock sent)])
            (set_userFeedback (delete feedbackId (userFeedback optimistic))
               (set_error (Some "Failed to save feedback") optimistic)))
         (with_refs (S (refs w)) (with_uuids (S (S (uuids w))) sent))).
Proof.
  unfold SuggestionStore.provideFeedback, optimistic_feedback. run.
  destruct (no_identity (userId w)); [reflexivity |].
  destruct (api_feedback E (calls w) _); [| reflexivity].
  cbn [negb]. rewrite persistState_cases.
  destruct (storage_fault E SuggestionStore.STORAGE_KEY); reflexivity.
Qed.

(** X11: a confirmed [provideFeedback].  The record stays in
    [userFeedback] under its client-local id, its pending mark is removed,
    the queue and the error are as before, one request was sent, and the
    resulting state is persisted; when storage fails the failure is
    swallowed and storage is as before. *)
Theorem provideFeedback_confirmed E w feedback :
  no_identity (userId w) = false ->
  api_feedback E (calls w) (optimistic_feedback E w feedback) = true ->
  let body := optimistic_feedback E w feedback in
  let w' := snd (SuggestionStore.provideFeedback E feedback w) in
  fst (SuggestionStore.provideFeedback E feedback w) = Returned tt
  /\ userFeedback (sug w')
     = <[UserSuggestionFeedback.id body := body]> (userFeedback (sug w))
  /\ pendingFeedback (sug w')
     = delete (UserSuggestionFeedback.id body) (pendingFeedback (sug w))
  /\ operationQueue (sug w') = operationQueue (sug w)
  /\ error (sug w') = error (sug w)
  /\ calls w' = calls w ++ [PostFeedback body]
  /\ storage w'
     = if storage_fault E SuggestionStore.STORAGE_KEY then storage w
       else <[SuggestionStore.STORAGE_KEY
              := JSON_stringify E
                   (VObj (SuggestionStore.persistedData (sug w')))]>
              (storage w).
Proof.
  intros Hid Hok body w'. subst body w'.
  rewrite provideFeedback_cases, Hid, Hok. cbn zeta.
  destruct (storage_fault E SuggestionStore.STORAGE_KEY); cbn;
    rewrite delete_insert_eq; repeat split.
Qed.

Lemma provideFeedback_confirmed_witness :
  let E := Scenario.env true in
  let w := Scenario.world (Some "u1") in
  let body := UserSuggestionFeedback.mk "uuid-0" "helps" "u1" 900 "s1" 4 true
  in
  let w' := snd (SuggestionStore.provideFeedback E Scenario.feedback w) in
  (no_identity (userId w) = false
   /\ api_feedback E (calls w) (optimistic_feedback E w Scenario.feedback)
      = true)
  /\ SuggestionStoreState.userFeedback (sug w') = <["uuid-0" := body]> ∅
  /\ SuggestionStoreState.pendingFeedback (sug w') = ∅
  /\ SuggestionStoreState.operationQueue (sug w') = []
  /\ calls w' = [PostFeedback body]
  /\ is_Some (storage w' !! SuggestionStore.STORAGE_KEY).
Proof.
  cbn zeta. split; [split; reflexivity |].
  destruct (provideFeedback_confirmed (Scenario.env true)
              (Scenario.world (Some "u1")) Scenario.feedback
              eq_refl eq_refl)
    as (_ & Hfeedback & Hpending & Hqueue & _ & Hcalls & Hstorage).
  split; [exact Hfeedback |].
  split; [rewrite Hpending; apply delete_empty |].
  split; [exact Hqueue |]. split; [exact Hcalls |].
  rewrite Hstorage. cbn. rewrite lookup_insert_eq. eexists. reflexivity.
Defined.

(** X12: a rejected [provideFeedback] rolls [userFeedback] back but not
    [pendingFeedback]: the record is still marked pending under its
    client-local id.  Nothing is persisted. *)
Theorem provideFeedback_rejected_pending E w feedback :
  no_identity (userId w) = false ->
  api_feedback E (calls w) (optimistic_feedback E w feedback) = false ->
  let body := optimistic_feedback E w feedback in
  let w' := snd (SuggestionStore.provideFeedback E feedback w) in
  userFeedback (sug w') !! UserSuggestionFeedback.id body = None
  /\ pendingFeedback (sug w') !! UserSuggestionFeedback.id body = Some body
  /\ storage w' = storage w.
Proof.
  intros Hid Hrejected body w'. subst body w'.
  rewrite provideFeedback_cases, Hid, Hrejected. cbn.
  split; [apply lookup_delete_eq |]. split; [apply lookup_insert_eq |].
  reflexivity.
Qed.

Lemma provideFeedback_rejected_pending_witness :
  let E := Scenario.env false in
  let w := Scenario.world (Some "u1") in
  let body := UserSuggestionFeedback.mk "uuid-0" "helps" "u1" 900 "s1" 4 true
  in
  let w' := snd (SuggestionStore.provideFeedback E Scenario.feedback w) in
  (no_identity (userId w) = false
   /\ api_feedback E (calls w) (optimistic_feedback E w Scenario.feedback)
      = false)
  /\ SuggestionStoreState.userFeedback (sug w') !! "uuid-0" = None
  /\ SuggestionStoreState.pendingFeedback (sug w') !! "uuid-0" = Some body
  /\ storage w' = ∅.
Proof.
  cbn zeta. split; [split; reflexivity |].
  exact (provideFeedback_rejected_pending (Scenario.env false)
           (Scenario.world (Some "u1")) Scenario.feedback eq_refl eq_refl).
Defined.

Lemma feedback_frame_refl w : feedback_frame w w.
Proof. repeat split. Qed.

Lemma feedback_frame_trans w1 w2 w3 :
  feedback_frame w1 w2 -> feedback_frame w2 w3 -> feedback_frame w1 w3.
Proof.
  unfold feedback_frame. intros H12 H23.
  destruct H12 as (? & ? & ? & ? & ? & ? & ? & ?).
  destruct H23 as (? & ? & ? & ? & ? & ? & ? & ?).
  repeat split; congruence.
Qed.

Lemma provideFeedback_frame E w feedback :
  feedback_frame w (snd (SuggestionStore.provideFeedback E feedback w)).
Proof.
  rewrite provideFeedback_cases.
  destruct (no_identity (userId w)); [apply feedback_frame_refl |].
  destruct (api_feedback E (calls w) _); cbn zeta;
    [destruct (storage_fault E SuggestionStore.STORAGE_KEY) |];
    repeat split.
Qed.

Lemma replay_loop_frame E ops : forall w,
  feedback_frame w (snd (for_of ops (replay E) w)).
Proof.
  induction ops as [|op ops IH]; intros w; [apply feedback_frame_refl |].
  cbn [for_of]. unfold mbind, M_bind.
  assert (Hstep : feedback_frame w (snd (replay E op w))).
  { unfold replay. destruct (QueuedOperation.type op).
    - apply provideFeedback_frame.
    - apply feedback_frame_refl. }
  destruct (replay E op w) as [[[]|message] w1]; cbn [snd] in *.
  - eapply feedback_frame_trans; [exact Hstep | apply IH].
  - exact Hstep.
Qed.

(** Without an identity the loop stops at the first [feedback] operation,
    before anything is sent. *)
Lemma replay_loop_signed_out E ops : forall w,
  no_identity (userId w) = true ->
  for_of ops (replay E) w
  = if bool_decide
         (Exists (fun op => QueuedOperation.type op = OperationType.feedback)
            ops)
    then (Thrown "User not authenticated", w)
    else (Returned tt, w).
Proof.
  induction ops as [|op ops IH]; intros w Hno.
  - rewrite bool_decide_eq_false_2; [reflexivity |].
    intros Hex. apply Exists_nil in Hex. exact Hex.
  - cbn [for_of]. unfold mbind, M_bind, replay at 1.
    destruct (QueuedOperation.type op) eqn:Htype.
    + rewrite provideFeedback_cases, Hno.
      rewrite bool_decide_eq_true_2; [reflexivity |].
      apply Exists_cons_hd. exact Htype.
    + unfold mret, M_ret. rewrite IH by exact Hno.
      destruct (bool_decide
                  (Exists (fun op => QueuedOperation.type op
                                     = OperationType.feedback) ops))
        eqn:Hrest.
      * rewrite bool_decide_eq_true_2; [reflexivity |].
        apply Exists_cons_tl. apply bool_decide_eq_true in Hrest.
        exact Hrest.
      * rewrite bool_decide_eq_false_2; [reflexivity |].
        apply bool_decide_eq_false in Hrest. intros Hex.
        apply Exists_cons in Hex. destruct Hex as [Hhd | Htl].
        -- rewrite Htype in Hhd. discriminate Hhd.
        -- exact (Hrest Htl).
Qed.

Lemma syncUserFeedback_cases E w :
  let snapshot := operationQueue (sug w) in
  let started :=
    with_sug (set_error None (set_isSyncing true (sug w))) w in
  SuggestionStore.syncUserFeedback E w
  = if isSyncing (sug w) then (Returned tt, w)
    else
      match for_of snapshot (replay E) started with
      | (Returned _, w1) =>
          let drained :=
            set_isSyncing false
              (set_lastSync (Some (clock w1))
                 (set_operationQueue (operationQueue (sug w1)) (sug w1)))
          in
          SuggestionStore.persistState E drained (with_sug drained w1)
      | (Thrown _, w1) =>
          (Returned tt,
           with_sug
             (set_isSyncing false (set_error (Some "Sync failed") (sug w1)))
             w1)
      end.
Proof.
  unfold SuggestionStore.syncUserFeedback. run.
  destruct (isSyncing (sug w)); [reflexivity |].
  change (fun op : QueuedOperation.t =>
            match QueuedOperation.type op with
            | OperationType.feedback =>
                SuggestionStore.provideFeedback E
                  (FeedbackInput.of_feedback (QueuedOperation.data op))
            | OperationType.sync => fun w0 : World => (Returned (), w0)
            end) with (replay E).
  destruct (for_of (operationQueue (sug w)) (replay E) _)
    as [[[]|message] w1]; [| reflexivity].
  rewrite filter_draft, persistState_cases.
  destruct (storage_fault E SuggestionStore.STORAGE_KEY); reflexivity.
Qed.

(** X13: [syncUserFeedback] never throws.  When a drain is in flight it
    changes nothing; otherwise it ends with [isSyncing] [false] on every
    path.  The TicStore and the catalogue of suggestions are never
    touched. *)
Theorem syncUserFeedback_releases E w :
  let w' := snd (SuggestionStore.syncUserFeedback E w) in
  fst (SuggestionStore.syncUserFeedback E w) = Returned tt
  /\ (isSyncing (sug w) = true -> w' = w)
  /\ (isSyncing (sug w) = false -> isSyncing (sug w') = false)
  /\ tic w' = tic w
  /\ suggestions (sug w') = suggestions (sug w)
  /\ suggestionsByTicType (sug w') = suggestionsByTicType (sug w).
Proof.
  cbn zeta. rewrite syncUserFeedback_cases.
  destruct (isSyncing (sug w)) eqn:Hsyncing.
  - repeat split. intros Habsurd. discriminate Habsurd.
  - cbn zeta.
    pose proof (replay_loop_frame E (operationQueue (sug w))
                  (with_sug (set_error None (set_isSyncing true (sug w))) w))
      as (Htic & _ & Hsuggestions & Hlisted & _).
    destruct (for_of (operationQueue (sug w)) (replay E) _)
      as [[[]|message] w1]; cbn [snd] in *.
    + rewrite persistState_cases.
      destruct (storage_fault E SuggestionStore.STORAGE_KEY); cbn;
        repeat split; try assumption; intros Habsurd; discriminate Habsurd.
    + cbn. repeat split; try assumption; intros Habsurd;
        discriminate Habsurd.
Qed.

(** X14: a drain without an identity.  When the queue holds a [feedback]
    operation the replay throws before anything is sent; the drain returns
    normally and the only change to the world is the error ['Sync
    failed']. *)
Theorem syncUserFeedback_signed_out E w :
  isSyncing (sug w) = false ->
  no_identity (userId w) = true ->
  Exists (fun op => QueuedOperation.type op = OperationType.feedback)
    (operationQueue (sug w)) ->
  SuggestionStore.syncUserFeedback E w
  = (Returned tt,
     with_sug (set_error (Some "Sync failed") (sug w)) w).
Proof.
  intros Hsyncing Hno Hfeedback.
  rewrite syncUserFeedback_cases, Hsyncing. cbn zeta.
  rewrite replay_loop_signed_out by exact Hno.
  rewrite bool_decide_eq_true_2 by exact Hfeedback.
  destruct w as [t s u c cs st uu r]. destruct s. cbn in *.
  subst. reflexivity.
Qed.

Lemma syncUserFeedback_signed_out_witness :
  let E := Scenario.env true in
  let w := Scenario.signed_out Scenario.world_one_queued in
  let w' := snd (SuggestionStore.syncUserFeedback E w) in
  (SuggestionStoreState.isSyncing (sug w) = false
   /\ no_identity (userId w) = true
   /\ Exists (fun op => QueuedOperation.type op = OperationType.feedback)
        (SuggestionStoreState.operationQueue (sug w)))
  /\ fst (SuggestionStore.syncUserFeedback E w) = Returned tt
  /\ SuggestionStoreState.error (sug w') = Some "Sync failed"
  /\ SuggestionStoreState.operationQueue (sug w')
     = SuggestionStoreState.operationQueue (sug w)
  /\ SuggestionStoreState.lastSync (sug w') = None
  /\ calls w' = calls w.
Proof.
  cbn zeta.
  assert (Hqueued :
    Exists (fun op => QueuedOperation.type op = OperationType.feedback)
      (SuggestionStoreState.operationQueue
         (sug (Scenario.signed_out Scenario.world_one_queued))))
    by (apply Exists_cons_hd; reflexivity).
  split; [split; [reflexivity | split; [reflexivity | exact Hqueued]] |].
  rewrite (syncUserFeedback_signed_out (Scenario.env true)
             (Scenario.signed_out Scenario.world_one_queued)
             eq_refl eq_refl Hqueued).
  repeat split.
Defined.

Lemma replay_feedback E op w :
  QueuedOperation.type op = OperationType.feedback ->
  replay E op w
  = SuggestionStore.provideFeedback E
      (FeedbackInput.of_feedback (QueuedOperation.data op)) w.
Proof. intros Htype. unfold replay. rewrite Htype. reflexivity. Qed.

Lemma replay_sync E op w :
  QueuedOperation.type op = OperationType.sync ->
  replay E op w = (Returned tt, w).
Proof. intros Htype. unfold replay. rewrite Htype. reflexivity. Qed.

Lemma replay_loop_error E ops : forall w,
  no_identity (userId w) = false ->
  let w' := snd (for_of ops (replay E) w) in
  (error (sug w') = error (sug w)
   /\ operationQueue (sug w') = operationQueue (sug w))
  \/ (error (sug w') = Some "Failed to save feedback"
      /\ (length (operationQueue (sug w))
          < length (operationQueue (sug w')))%nat).
Proof.
  induction ops as [|op ops IH]; intros w Hid; [left; split; reflexivity |].
  cbn [for_of]. unfold mbind, M_bind.
  destruct (QueuedOperation.type op) eqn:Htype.
  - rewrite (replay_feedback E op w Htype), provideFeedback_cases, Hid.
    destruct (api_feedback E (calls w) _); cbn zeta.
    + destruct (storage_fault E SuggestionStore.STORAGE_KEY);
        match goal with
        | |- context [for_of ops (replay E) ?w1] =>
            destruct (IH w1 Hid) as [[Herr Hq] | [Herr Hq]]
        end; [left | right | left | right];
        (split; [exact Herr | exact Hq]).
    + match goal with
      | |- context [for_of ops (replay E) ?w1] => set (next := w1)
      end.
      assert (Hid' : no_identity (userId next) = false) by exact Hid.
      assert (Herror : error (sug next) = Some "Failed to save feedback")
        by reflexivity.
      assert (Hlength : length (operationQueue (sug next))
                        = S (length (operationQueue (sug w)))).
      { subst next. cbn. rewrite length_app. cbn. lia. }
      clearbody next. cbn [snd].
      destruct (IH next Hid') as [[Herr Hq] | [Herr Hq]]; cbn zeta in *;
        right.
      * rewrite Herr, Hq. split; [exact Herror | lia].
      * split; [exact Herr | lia].
  - rewrite (replay_sync E op w Htype). apply IH. exact Hid.
Qed.

(** X15: a drain with an identity stamps [lastSync] whatever the server
    answered.  A rejected replay is swallowed by [provideFeedback], so the
    loop goes on and the drain ends as a success: [lastSync] is a time not
    before the start and [isSyncing] is [false].  The error is [null]
    exactly when no request of the drain was rejected, and ['Failed to
    save feedback'] otherwise. *)
Theorem syncUserFeedback_stamps E w :
  isSyncing (sug w) = false ->
  no_identity (userId w) = false ->
  let w' := snd (SuggestionStore.syncUserFeedback E w) in
  exists reqs,
    calls w' = calls w ++ reqs
    /\ (exists t, lastSync (sug w') = Some t /\ clock w <= t)
    /\ isSyncing (sug w') = false
    /\ (error (sug w') = None <-> rejected E (calls w) reqs = [])
    /\ (error (sug w') = None
        \/ error (sug w') = Some "Failed to save feedback").
Proof.
  intros Hsyncing Hid w'. subst w'.
  rewrite syncUserFeedback_cases, Hsyncing. cbn zeta.
  set (started := with_sug (set_error None (set_isSyncing true (sug w))) w).
  destruct (drain_loop E (operationQueue (sug w)) started Hid)
    as (w1 & added & reqs & Hrun & _ & _ & Hclock & _ & _ & Hcalls & _
        & Hqueue & Hdata & _).
  pose proof (replay_loop_error E (operationQueue (sug w)) started Hid)
    as Herror.
  cbn zeta in Herror. rewrite Hrun in Herror |- *. cbn [snd] in Herror.
  cbn [started sug with_sug operationQueue error set_error set_isSyncing
       calls clock] in Hqueue, Herror, Hcalls, Hclock, Hdata.
  rewrite persistState_cases. exists reqs.
  assert (Hiff : error (sug w1) = None <-> rejected E (calls w) reqs = []).
  { rewrite <- Hdata.
    destruct Herror as [[Herr Hq] | [Herr Hq]].
    - rewrite Hq in Hqueue.
      assert (added = []) as ->.
      { apply (f_equal length) in Hqueue. rewrite length_app in Hqueue.
        destruct added; [reflexivity | cbn in Hqueue; lia]. }
      rewrite Herr. split; reflexivity.
    - rewrite Herr. split; [discriminate |].
      intros Hnone. destruct added; [| discriminate Hnone].
      rewrite app_nil_r in Hqueue. rewrite Hqueue in Hq. lia. }
  assert (Hcases : error (sug w1) = None
                   \/ error (sug w1) = Some "Failed to save feedback").
  { destruct Herror as [[Herr _] | [Herr _]]; rewrite Herr; auto. }
  destruct (storage_fault E SuggestionStore.STORAGE_KEY); cbn;
    (split; [exact Hcalls |]);
    (split; [exists (clock w1); split; [reflexivity | exact Hclock] |]);
    (split; [reflexivity |]); (split; [exact Hiff | exact Hcases]).
Qed.

Lemma syncUserFeedback_stamps_witness :
  let E := Scenario.env false in
  let w := Scenario.world_one_queued in
  let w' := snd (SuggestionStore.syncUserFeedback E w) in
  (SuggestionStoreState.isSyncing (sug w) = false
   /\ no_identity (userId w) = false)
  /\ clock w = 1005
  /\ SuggestionStoreState.lastSync (sug w') = Some 1010
  /\ SuggestionStoreState.isSyncing (sug w') = false
  /\ SuggestionStoreState.error (sug w') = Some "Failed to save feedback"
  /\ length (calls w') = 2%nat.
Proof.
  cbn zeta. split; [split; reflexivity |].
  destruct (syncUserFeedback_stamps (Scenario.env false)
              Scenario.world_one_queued eq_refl eq_refl)
    as (reqs & _ & _ & Hsyncing & _ & _).
  split; [reflexivity |]. split; [vm_compute; reflexivity |].
  split; [exact Hsyncing |]. split; vm_compute; reflexivity.
Defined.

(** What a drain leaves alone, whatever its outcome. *)
Lemma syncUserFeedback_frame E w :
  let w' := snd (SuggestionStore.syncUserFeedback E w) in
  tic w' = tic w
  /\ suggestions (sug w') = suggestions (sug w)
  /\ suggestionsByTicType (sug w') = suggestionsByTicType (sug w).
Proof.
  cbn zeta. rewrite syncUserFeedback_cases.
  destruct (isSyncing (sug w)); [repeat split |]. cbn zeta.
  pose proof (replay_loop_frame E (operationQueue (sug w))
                (with_sug (set_error None (set_isSyncing true (sug w))) w))
    as (Htic & _ & Hsuggestions & Hlisted & _).
  destruct (for_of (operationQueue (sug w)) (replay E) _)
    as [[[]|message] w1]; cbn [snd] in *.
  - rewrite persistState_cases.
    destruct (storage_fault E SuggestionStore.STORAGE_KEY); cbn;
      repeat split; assumption.
  - cbn. repeat split; assumption.
Qed.

(** A drain of a single [feedback] operation whose replay is accepted. *)
Lemma syncUserFeedback_single E w op :
  isSyncing (sug w) = false ->
  no_identity (userId w) = false ->
  operationQueue (sug w) = [op] ->
  QueuedOperation.type op = OperationType.feedback ->
  let body :=
    optimistic_feedback E w
      (FeedbackInput.of_feedback (QueuedOperation.data op)) in
  api_feedback E (calls w) body = true ->
  let w' := snd (SuggestionStore.syncUserFeedback E w) in
  error (sug w') = None
  /\ userFeedback (sug w')
     = <[UserSuggestionFeedback.id body := body]> (userFeedback (sug w))
  /\ pendingFeedback (sug w')
     = delete (UserSuggestionFeedback.id body) (pendingFeedback (sug w))
  /\ calls w' = calls w ++ [PostFeedback body].
Proof.
  intros Hsyncing Hid Hqueue Htype body Haccepted w'. subst w'.
  rewrite syncUserFeedback_cases, Hsyncing, Hqueue. cbn zeta.
  cbn [for_of]. unfold mbind, M_bind.
  rewrite (replay_feedback E op _ Htype), provideFeedback_cases.
  cbn [userId calls with_sug].
  change (optimistic_feedback E
            (with_sug (set_error None (set_isSyncing true (sug w))) w)
            (FeedbackInput.of_feedback (QueuedOperation.data op)))
    with body.
  rewrite Hid, Haccepted. cbn zeta. unfold mret, M_ret.
  rewrite persistState_cases.
  destruct (storage_fault E SuggestionStore.STORAGE_KEY); cbn;
    rewrite delete_insert_eq; repeat split.
Qed.

(** X16: a rejected [provideFeedback] followed by a drain that succeeds.
    The replay runs [provideFeedback] again on the queued record: the
    feedback is stored under a new client-local id, with the fields of the
    original input; the error is cleared; two requests were sent.  The
    pending mark of the first attempt is still in [pendingFeedback] under
    the old id. *)
Theorem rejected_feedback_replayed E w feedback :
  no_identity (userId w) = false ->
  isSyncing (sug w) = false ->
  operationQueue (sug w) = [] ->
  api_feedback E (calls w) (optimistic_feedback E w feedback) = false ->
  let first := optimistic_feedback E w feedback in
  let w1 := snd (SuggestionStore.provideFeedback E feedback w) in
  let replayed := optimistic_feedback E w1 feedback in
  api_feedback E (calls w1) replayed = true ->
  UserSuggestionFeedback.id replayed ≠ UserSuggestionFeedback.id first ->
  let w2 := snd (SuggestionStore.syncUserFeedback E w1) in
  error (sug w2) = None
  /\ userFeedback (sug w2) !! UserSuggestionFeedback.id replayed
     = Some replayed
  /\ userFeedback (sug w2) !! UserSuggestionFeedback.id first = None
  /\ pendingFeedback (sug w2) !! UserSuggestionFeedback.id first
     = Some first
  /\ FeedbackInput.of_feedback replayed = feedback
  /\ calls w2 = calls w ++ [PostFeedback first; PostFeedback replayed].
Proof.
  intros Hid Hsyncing Hempty Hrejected first w1 replayed Haccepted Hfresh w2.
  assert (Hw1 : w1 = snd (SuggestionStore.provideFeedback E feedback w))
    by reflexivity.
  rewrite provideFeedback_cases, Hid, Hrejected in Hw1. cbn [snd] in Hw1.
  rewrite Hempty in Hw1. cbn [app] in Hw1.
  clearbody w1.
  set (op := QueuedOperation.mk (refs w) (uuid_v4 E (S (uuids w)))
               OperationType.feedback (optimistic_feedback E w feedback)
               (clock w1)).
  assert (Hbody :
    optimistic_feedback E w1
      (FeedbackInput.of_feedback (QueuedOperation.data op)) = replayed).
  { cbn [op QueuedOperation.data]. rewrite of_optimistic_feedback.
    reflexivity. }
  destruct (syncUserFeedback_single E w1 op)
    as (Herr & Hfb & Hpending & Hcalls).
  - rewrite Hw1. exact Hsyncing.
  - rewrite Hw1. exact Hid.
  - subst op. rewrite Hw1. reflexivity.
  - reflexivity.
  - rewrite Hbody. exact Haccepted.
  - rewrite Hbody in Hfb, Hpending, Hcalls.
    fold w2 in Herr, Hfb, Hpending, Hcalls.
    split; [exact Herr |].
    split; [rewrite Hfb; apply lookup_insert_eq |].
    split; [| split; [| split; [apply of_optimistic_feedback |]]].
    + rewrite Hfb, lookup_insert_ne by exact Hfresh.
      rewrite Hw1. cbn. apply lookup_delete_eq.
    + rewrite Hpending, lookup_delete_ne by exact Hfresh.
      rewrite Hw1. cbn. apply lookup_insert_eq.
    + rewrite Hcalls, Hw1. cbn. rewrite <- app_assoc. reflexivity.
Qed.

Lemma rejected_feedback_replayed_witness :
  let E := Cases.env_second_try in
  let w := Scenario.world (Some "u1") in
  let first := UserSuggestionFeedback.mk "uuid-0" "helps" "u1" 900 "s1" 4 true
  in
  let replayed :=
    UserSuggestionFeedback.mk "uuid-2" "helps" "u1" 900 "s1" 4 true in
  let w1 := snd (SuggestionStore.provideFeedback E Scenario.feedback w) in
  let w2 := snd (SuggestionStore.syncUserFeedback E w1) in
  (no_identity (userId w) = false
   /\ SuggestionStoreState.isSyncing (sug w) = false
   /\ SuggestionStoreState.operationQueue (sug w) = []
   /\ api_feedback E (calls w) first = false
   /\ api_feedback E (calls w1) replayed = true)
  /\ SuggestionStoreState.error (sug w2) = None
  /\ SuggestionStoreState.userFeedback (sug w2) !! "uuid-2" = Some replayed
  /\ SuggestionStoreState.userFeedback (sug w2) !! "uuid-0" = None
  /\ SuggestionStoreState.pendingFeedback (sug w2) !! "uuid-0" = Some first
  /\ calls w2 = [PostFeedback first; PostFeedback replayed].
Proof.
  cbn zeta.
  split; [repeat split |].
  assert (Hfresh : "uuid-2" ≠ "uuid-0") by discriminate.
  destruct (rejected_feedback_replayed Cases.env_second_try
              (Scenario.world (Some "u1")) Scenario.feedback
              eq_refl eq_refl eq_refl eq_refl eq_refl Hfresh)
    as (Herror & Hreplayed & Hfirst & Hpending & _ & Hcalls).
  split; [exact Herror |]. split; [exact Hreplayed |].
  split; [exact Hfirst |]. split; [exact Hpending | exact Hcalls].
Defined.

(** *** The catalogue of suggestions *)

Lemma index_by_keeps {A} (key : A -> string) items : forall m k,
  is_Some (m !! k) -> is_Some (index_by key items m !! k).
Proof.
  induction items as [|x items IH]; intros m k Hk; [exact Hk |].
  unfold index_by in *. cbn. apply IH.
  destruct (decide (key x = k)) as [-> | Hne].
  - rewrite lookup_insert_eq. eexists. reflexivity.
  - rewrite lookup_insert_ne by exact Hne. exact Hk.
Qed.

Lemma index_by_keys {A} (key : A -> string) items m :
  Forall (fun k => is_Some (index_by key items m !! k)) (map key items).
Proof.
  apply Forall_forall. intros k Hk. apply list_elem_of_fmap in Hk.
  destruct Hk as (x & -> & Hin).
  destruct (index_by_listed key items m x Hin) as (x' & Hlook & _).
  rewrite Hlook. eexists. reflexivity.
Qed.

Lemma foldl_suggestions (items : list Suggestion.t) : forall state,
  foldl (fun state suggestion =>
           set_suggestions
             (<[Suggestion.id suggestion := suggestion]> (suggestions state))
             state)
    state items
  = set_suggestions (index_by Suggestion.id items (suggestions state)) state.
Proof.
  induction items as [|x items IH]; intros state.
  - destruct state; reflexivity.
  - cbn. rewrite IH. reflexivity.
Qed.

(** Listing ids that were just stored, for one tic type, keeps the
    catalogue resolvable. *)
Lemma listed_resolve_store s items ticTypeId ids s' :
  listed_resolve s ->
  suggestions s' = index_by Suggestion.id items (suggestions s) ->
  suggestionsByTicType s' = <[ticTypeId := ids]> (suggestionsByTicType s) ->
  Forall (fun id => is_Some (suggestions s' !! id)) ids ->
  listed_resolve s'.
Proof.
  intros Hinv Hsuggestions Hlisted Hids t ids' Hlook.
  rewrite Hlisted in Hlook.
  destruct (decide (ticTypeId = t)) as [-> | Hne].
  - rewrite lookup_insert_eq in Hlook. inversion Hlook; subst ids'.
    exact Hids.
  - rewrite lookup_insert_ne in Hlook by exact Hne.
    eapply Forall_impl; [exact (Hinv t ids' Hlook) |]. cbn.
    intros id Hid. rewrite Hsuggestions. apply index_by_keeps. exact Hid.
Qed.

Lemma listed_resolve_same s s' :
  listed_resolve s ->
  suggestions s' = suggestions s ->
  suggestionsByTicType s' = suggestionsByTicType s ->
  listed_resolve s'.
Proof.
  intros Hinv Hs Hl t ids Hlook. rewrite Hl in Hlook. rewrite Hs.
  exact (Hinv t ids Hlook).
Qed.

Lemma fetchSuggestions_cases E R w ticTypeId :
  quiet (get_suggestions R ticTypeId) ->
  let started :=
    with_sug (set_error None (set_isLoading true (sug w))) w in
  exists w1,
    snd (get_suggestions R ticTypeId started) = w1
    /\ tic w1 = tic w
    /\ match fst (get_suggestions R ticTypeId started) with
       | Returned (Some listed) =>
           let stored :=
             set_isLoading false
               (set_suggestionsByTicType
                  (<[ticTypeId := map Suggestion.id listed]>
                     (suggestionsByTicType (sug w)))
                  (set_suggestions
                     (index_by Suggestion.id listed (suggestions (sug w)))
                     (set_error None (set_isLoading true (sug w))))) in
           SuggestionStoreActions.fetchSuggestionsForTicType E R ticTypeId w
           = SuggestionStore.persistState E stored (with_sug stored w1)
       | _ =>
           SuggestionStoreActions.fetchSuggestionsForTicType E R ticTypeId w
           = (Returned tt,
              with_sug
                (set_isLoading false
                   (set_error (Some "Failed to fetch suggestions")
                      (set_isLoading true (sug w)))) w1)
       end.
Proof.
  intros Hquiet started.
  destruct (Hquiet started) as [Htic Hsug].
  unfold SuggestionStoreActions.fetchSuggestionsForTicType. run.
  fold started.
  destruct (get_suggestions R ticTypeId started) as [[[listed|]|message] w1];
    cbn [fst snd] in *; exists w1; (split; [reflexivity |]);
    (split; [exact Htic |]).
  - cbn zeta. rewrite foldl_suggestions, Hsug. cbn.
    rewrite !persistState_cases.
    destruct (storage_fault E SuggestionStore.STORAGE_KEY); reflexivity.
  - rewrite Hsug. reflexivity.
  - rewrite Hsug. reflexivity.
Qed.

(** X17: [fetchSuggestionsForTicType] in its three outcomes.  It never
    throws, ends with [isLoading] [false] and leaves the feedback and the
    queue alone.  On an [ok] response the list of the tic type becomes the
    ids of the response, each stored in [suggestions]; earlier suggestions
    stay, other tic types keep their lists, and the error is [null].
    Otherwise the catalogue is unchanged and the error is ['Failed to
    fetch suggestions']. *)
Theorem fetchSuggestionsForTicType_outcomes E R w ticTypeId :
  quiet (get_suggestions R ticTypeId) ->
  let answer :=
    fst (get_suggestions R ticTypeId
           (with_sug (set_error None (set_isLoading true (sug w))) w)) in
  let w' :=
    snd (SuggestionStoreActions.fetchSuggestionsForTicType E R ticTypeId w) in
  fst (SuggestionStoreActions.fetchSuggestionsForTicType E R ticTypeId w)
    = Returned tt
  /\ isLoading (sug w') = false
  /\ userFeedback (sug w') = userFeedback (sug w)
  /\ operationQueue (sug w') = operationQueue (sug w)
  /\ match answer with
     | Returned (Some listed) =>
         suggestionsByTicType (sug w') !! ticTypeId
           = Some (map Suggestion.id listed)
         /\ Forall (fun id => is_Some (suggestions (sug w') !! id))
              (map Suggestion.id listed)
         /\ (forall id, is_Some (suggestions (sug w) !! id) ->
                        is_Some (suggestions (sug w') !! id))
         /\ (forall other, other ≠ ticTypeId ->
               suggestionsByTicType (sug w') !! other
               = suggestionsByTicType (sug w) !! other)
         /\ error (sug w') = None
     | _ =>
         suggestions (sug w') = suggestions (sug w)
         /\ suggestionsByTicType (sug w') = suggestionsByTicType (sug w)
         /\ error (sug w') = Some "Failed to fetch suggestions"
     end.
Proof.
  intros Hquiet answer w'. subst answer w'.
  destruct (fetchSuggestions_cases E R w ticTypeId Hquiet)
    as (w1 & _ & _ & Hcase).
  cbn zeta in Hcase.
  destruct (fst (get_suggestions R ticTypeId _)) as [[listed|]|message];
    rewrite Hcase; [rewrite persistState_cases |..].
  - destruct (storage_fault E SuggestionStore.STORAGE_KEY); cbn;
      (repeat split;
       [apply lookup_insert_eq
       | apply index_by_keys
       | intros id Hid; apply index_by_keeps; exact Hid
       | intros other Hother; apply lookup_insert_ne; congruence]).
  - repeat split.
  - repeat split.
Qed.

Lemma fetchSuggestionsForTicType_outcomes_witness :
  let E := Scenario.env true in
  let w := Scenario.world (Some "u1") in
  let w' :=
    snd (SuggestionStoreActions.fetchSuggestionsForTicType E
           (Cases.remote true) "t1" w) in
  let refused :=
    snd (SuggestionStoreActions.fetchSuggestionsForTicType E
           (Cases.remote false) "t1" w) in
  (quiet (get_suggestions (Cases.remote true) "t1")
   /\ quiet (get_suggestions (Cases.remote false) "t1"))
  /\ SuggestionStoreState.suggestionsByTicType (sug w') !! "t1"
     = Some ["s1"; "s2"]
  /\ Forall (fun id => is_Some (SuggestionStoreState.suggestions (sug w')
                                  !! id)) ["s1"; "s2"]
  /\ SuggestionStoreState.error (sug w') = None
  /\ SuggestionStoreState.isLoading (sug w') = false
  /\ SuggestionStoreState.suggestions (sug refused) = ∅
  /\ SuggestionStoreState.error (sug refused)
     = Some "Failed to fetch suggestions".
Proof.
  cbn zeta.
  pose proof (remote_quiet true) as (_ & _ & Hlisted).
  pose proof (remote_quiet false) as (_ & _ & Hlisted').
  split; [split; [apply Hlisted | apply Hlisted'] |].
  destruct (fetchSuggestionsForTicType_outcomes (Scenario.env true)
              (Cases.remote true) (Scenario.world (Some "u1")) "t1"
              (Hlisted "t1"))
    as (_ & Hloading & _ & _ & Hids & Hresolve & _ & _ & Herror).
  destruct (fetchSuggestionsForTicType_outcomes (Scenario.env true)
              (Cases.remote false) (Scenario.world (Some "u1")) "t1"
              (Hlisted' "t1"))
    as (_ & _ & _ & _ & Hsame & _ & Herror').
  split; [exact Hids |]. split; [exact Hresolve |].
  split; [exact Herror |]. split; [exact Hloading |].
  split; [exact Hsame | exact Herror'].
Defined.

(** *** generatePersonalizedSuggestions *)

Lemma cooldown_over_gate ticTypeId w :
  cooldown_over ticTypeId w ->
  cooldown_gate (clock w) (lastAIGeneration (sug w) !! ticTypeId)
  = Gate.proceed.
Proof.
  intros Hover. unfold cooldown_gate.
  destruct (lastAIGeneration (sug w) !! ticTypeId) as [[last | stamp] |]
    eqn:Hlast; [| | reflexivity]; specialize (Hover _ Hlast); cbn in Hover.
  - apply Z.ltb_ge in Hover. rewrite Hover. reflexivity.
  - subst stamp. reflexivity.
Qed.

Lemma generate_cases E ticTypeId w :
  let started :=
    with_sug (set_error None (set_isLoading true (sug w))) w in
  let history := TicStore.getTicHistory E (clock w - week) (clock w) started in
  let wh := snd history in
  let logs := match fst history with Returned logs => logs | _ => [] end in
  let sent :=
    with_clock
      (clock wh + Z.of_N (latency E (calls wh) (PostGenerate ticTypeId logs)))
      (with_calls (calls wh ++ [PostGenerate ticTypeId logs]) wh) in
  SuggestionStore.generatePersonalizedSuggestions E ticTypeId w
  = match cooldown_gate (clock w) (lastAIGeneration (sug w) !! ticTypeId)
    with
    | Gate.skip => (Returned tt, w)
    | Gate.type_error => (Thrown "TypeError", w)
    | Gate.proceed =>
      match api_suggestions_generate E (calls wh) ticTypeId logs with
      | Some newSuggestions =>
          let stored :=
            set_isLoading false
              (set_lastAIGeneration
                 (<[ticTypeId := Stamp.date (clock sent)]>
                    (lastAIGeneration (sug wh)))
                 (set_suggestionsByTicType
                    (<[ticTypeId :=
                         default [] (suggestionsByTicType (sug wh) !! ticTypeId)
                           ++ map Suggestion.id newSuggestions]>
                       (suggestionsByTicType (sug wh)))
                    (set_suggestions
                       (index_by Suggestion.id newSuggestions
                          (suggestions (sug wh))) (sug wh)))) in
          SuggestionStore.persistState E stored (with_sug stored sent)
      | None =>
          (Returned tt,
           with_sug
             (set_isLoading false
                (set_error
                   (Some "Failed to generate personalized suggestions")
                   (sug wh))) sent)
      end
    end.
Proof.
  cbn zeta.
  unfold SuggestionStore.generatePersonalizedSuggestions, cooldown_gate. run.
  fold week.
  destruct (getTicHistory_frame E (clock w - week) (clock w)
              (with_sug (set_error None (set_isLoading true (sug w))) w))
    as (logs & wh & Hhist & _).
  destruct (lastAIGeneration (sug w) !! ticTypeId)
    as [[lastGeneration | [|c stamp]] |];
    [destruct (clock w - lastGeneration <? 3600000); [reflexivity |]
    | | reflexivity |];
    rewrite Hhist; cbn [fst snd];
    (destruct (api_suggestions_generate E (calls wh) ticTypeId logs);
     [| reflexivity]);
    rewrite foldl_suggestions, !persistState_cases;
    destruct (storage_fault E SuggestionStore.STORAGE_KEY); reflexivity.
Qed.

Lemma generate_frame E ticTypeId w :
  let w' := snd (SuggestionStore.generatePersonalizedSuggestions E ticTypeId w)
  in
  (TicStoreState.recentLogs (tic w') = TicStoreState.recentLogs (tic w)
   /\ TicStoreState.ticLogs (tic w') = TicStoreState.ticLogs (tic w)
   /\ TicStoreState.pendingLogs (tic w') = TicStoreState.pendingLogs (tic w)
   /\ TicStoreState.lastSync (tic w') = TicStoreState.lastSync (tic w))
  /\ (listed_resolve (sug w) -> listed_resolve (sug w')).
Proof.
  cbn zeta. rewrite generate_cases. cbn zeta.
  destruct (cooldown_gate (clock w) (lastAIGeneration (sug w) !! ticTypeId));
    [| split; [repeat split | tauto] | split; [repeat split | tauto]].
  set (started := with_sug (set_error None (set_isLoading true (sug w))) w).
  destruct (getTicHistory_frame E (clock w - week) (clock w) started)
    as (logs & wh & Hhist & Hsug & _).
  pose proof (getTicHistory_keeps E (clock w - week) (clock w) started)
    as Hkeeps.
  cbn zeta in Hkeeps. rewrite Hhist in Hkeeps |- *. cbn [fst snd] in *.
  assert (Hsuggestions : suggestions (sug wh) = suggestions (sug w))
    by (rewrite Hsug; reflexivity).
  assert (Hlisted :
            suggestionsByTicType (sug wh) = suggestionsByTicType (sug w))
    by (rewrite Hsug; reflexivity).
  destruct (api_suggestions_generate E (calls wh) ticTypeId logs)
    as [newSuggestions|].
  - rewrite persistState_cases.
    split.
    + destruct (storage_fault E SuggestionStore.STORAGE_KEY); exact Hkeeps.
    + intros Hinv.
      assert (Hgoal : listed_resolve
        (set_isLoading false
           (set_lastAIGeneration
              (<[ticTypeId :=
                   Stamp.date
                     (clock wh
                      + Z.of_N (latency E (calls wh)
                                  (PostGenerate ticTypeId logs)))]>
                 (lastAIGeneration (sug wh)))
              (set_suggestionsByTicType
                 (<[ticTypeId :=
                      default [] (suggestionsByTicType (sug wh) !! ticTypeId)
                        ++ map Suggestion.id newSuggestions]>
                    (suggestionsByTicType (sug wh)))
                 (set_suggestions
                    (index_by Suggestion.id newSuggestions
                       (suggestions (sug wh))) (sug wh)))))).
      { eapply (listed_resolve_store (sug w) newSuggestions ticTypeId);
          [exact Hinv | cbn; rewrite Hsuggestions; reflexivity
          | cbn; rewrite Hlisted; reflexivity |].
        cbn. apply Forall_app_2; [| apply index_by_keys].
        rewrite Hsuggestions.
        destruct (suggestionsByTicType (sug w) !! ticTypeId) as [ids|] eqn:Hids;
          [| constructor].
        eapply Forall_impl; [exact (Hinv ticTypeId ids Hids) |]. cbn.
        intros id Hid. apply index_by_keeps. exact Hid. }
      destruct (storage_fault E SuggestionStore.STORAGE_KEY); exact Hgoal.
  - split; [exact Hkeeps |]. intros Hinv.
    eapply listed_resolve_same; [exact Hinv | |]; cbn; congruence.
Qed.

(** X18: an accepted generation appends.  The ids of the generated
    suggestions are added after the ids already listed for the tic type
    (nothing is replaced, so an id may come to be listed twice); each
    generated suggestion is stored and the earlier ones are kept; other tic
    types keep their lists; [lastAIGeneration] of the tic type is a time
    not before the start of the call; the error is [null], [isLoading] is
    [false], and the feedback and the queue are as before. *)
Theorem generate_appends E ticTypeId w newSuggestions :
  cooldown_over ticTypeId w ->
  let history :=
    TicStore.getTicHistory E (clock w - week) (clock w)
      (with_sug (set_error None (set_isLoading true (sug w))) w) in
  let logs := match fst history with Returned logs => logs | _ => [] end in
  api_suggestions_generate E (calls (snd history)) ticTypeId logs
    = Some newSuggestions ->
  let w' := snd (SuggestionStore.generatePersonalizedSuggestions E ticTypeId w)
  in
  suggestionsByTicType (sug w') !! ticTypeId
    = Some (default [] (suggestionsByTicType (sug w) !! ticTypeId)
              ++ map Suggestion.id newSuggestions)
  /\ (forall other, other ≠ ticTypeId ->
        suggestionsByTicType (sug w') !! other
        = suggestionsByTicType (sug w) !! other)
  /\ Forall (fun id => is_Some (suggestions (sug w') !! id))
       (map Suggestion.id newSuggestions)
  /\ (forall id, is_Some (suggestions (sug w) !! id) ->
                 is_Some (suggestions (sug w') !! id))
  /\ (exists t,
        lastAIGeneration (sug w') !! ticTypeId = Some (Stamp.date t)
        /\ clock w <= t)
  /\ error (sug w') = None
  /\ isLoading (sug w') = false
  /\ userFeedback (sug w') = userFeedback (sug w)
  /\ operationQueue (sug w') = operationQueue (sug w).
Proof.
  intros Hover history logs Haccepted w'. subst w'.
  rewrite generate_cases. cbn zeta.
  rewrite (cooldown_over_gate ticTypeId w Hover).
  fold history. fold logs. rewrite Haccepted.
  destruct (getTicHistory_frame E (clock w - week) (clock w)
              (with_sug (set_error None (set_isLoading true (sug w))) w))
    as (logs' & wh & Hhist & Hsug & _ & _ & _ & _ & Hclock & _).
  fold history in Hhist.
  assert (Hwh : snd history = wh) by (rewrite Hhist; reflexivity).
  clearbody history. subst logs. rewrite Hwh in *. clear Hhist Hwh.
  rewrite persistState_cases.
  assert (Hlatency : forall r,
            clock w <= clock wh + Z.of_N (latency E (calls wh) r)).
  { intros r. cbn in Hclock. lia. }
  destruct (storage_fault E SuggestionStore.STORAGE_KEY); cbn;
    rewrite Hsug; cbn;
    (split; [apply lookup_insert_eq |]);
    (split; [intros other Hother; apply lookup_insert_ne; congruence |]);
    (split; [apply index_by_keys |]);
    (split; [intros id Hid; apply index_by_keeps; exact Hid |]);
    (split; [eexists; split; [apply lookup_insert_eq | apply Hlatency] |]);
    repeat split.
Qed.

Lemma generate_appends_witness :
  let E := Cases.env_generating in
  let w := Cases.world_with_listed in
  let history :=
    TicStore.getTicHistory E (clock w - week) (clock w)
      (with_sug
         (SuggestionStoreState.set_error None
            (SuggestionStoreState.set_isLoading true (sug w))) w) in
  let logs := match fst history with Returned logs => logs | _ => [] end in
  let w' := snd (SuggestionStore.generatePersonalizedSuggestions E "t1" w) in
  (cooldown_over "t1" w
   /\ api_suggestions_generate E (calls (snd history)) "t1" logs
      = Some Cases.listed)
  /\ SuggestionStoreState.suggestionsByTicType (sug w) !! "t1"
     = Some ["s1"; "s2"]
  /\ SuggestionStoreState.suggestionsByTicType (sug w') !! "t1"
     = Some ["s1"; "s2"; "s1"; "s2"]
  /\ SuggestionStoreState.error (sug w') = None
  /\ SuggestionStoreState.isLoading (sug w') = false.
Proof.
  cbn zeta.
  assert (Hover : cooldown_over "t1" Cases.world_with_listed).
  { intros lastGeneration Hlast. vm_compute in Hlast. discriminate Hlast. }
  split; [split; [exact Hover | reflexivity] |].
  destruct (generate_appends Cases.env_generating "t1"
              Cases.world_with_listed Cases.listed Hover eq_refl)
    as (Hlist & _ & _ & _ & _ & Herror & Hloading & _).
  split; [vm_compute; reflexivity |].
  split; [rewrite Hlist; vm_compute; reflexivity |].
  split; [exact Herror | exact Hloading].
Defined.

(** X24: generation at a stamp restored from a snapshot.  When
    [lastAIGeneration] holds a text for the tic type, as it does once the
    state has been restored from a snapshot, the opening test calls
    [getTime] on it: the call throws a [TypeError] before anything else
    happens, whatever the time elapsed; nothing is changed, nothing is
    sent, and no later call for the tic type can generate. *)
Theorem generate_text_stamp E ticTypeId w s :
  lastAIGeneration (sug w) !! ticTypeId = Some (Stamp.text s) ->
  s ≠ EmptyString ->
  SuggestionStore.generatePersonalizedSuggestions E ticTypeId w
  = (Thrown "TypeError", w).
Proof.
  intros Hlast Htext.
  rewrite generate_cases. cbn zeta. rewrite Hlast.
  destruct s; [destruct (Htext eq_refl) | reflexivity].
Qed.

Lemma generate_text_stamp_witness :
  let E := Scenario.env true in
  let w := Cases.world_restored in
  (SuggestionStoreState.lastAIGeneration (sug w) !! "t1"
   = Some (Stamp.text "2024-01-01T00:00:00.000Z")
   /\ "2024-01-01T00:00:00.000Z" ≠ EmptyString)
  /\ obj_get "lastAIGeneration" (SuggestionStore.persistedData (sug w))
     = Some (VObj [("t1", VStr "2024-01-01T00:00:00.000Z")])
  /\ SuggestionStore.generatePersonalizedSuggestions E "t1" w
     = (Thrown "TypeError", w).
Proof.
  cbn zeta.
  assert (Htext : "2024-01-01T00:00:00.000Z" ≠ EmptyString) by discriminate.
  split; [split; [reflexivity | exact Htext] |].
  split; [vm_compute; reflexivity |].
  exact (generate_text_stamp (Scenario.env true) "t1" Cases.world_restored
           "2024-01-01T00:00:00.000Z" eq_refl Htext).
Defined.

(** X19: generation after a failed read of the history.  [getTicHistory]
    reports its failure in the TicStore and returns [[]], so the
    generation request is still sent, with no logs: the trace grows by the
    history request and the generation request, the TicStore error is
    ['Failed to fetch tic history'] and the range cache is as before. *)
Theorem generate_despite_failed_history E ticTypeId w :
  cooldown_over ticTypeId w ->
  cache_miss E (clock w - week) (clock w) w ->
  api_tics_history E (calls w) (toISOString E (clock w - week))
    (toISOString E (clock w)) = None ->
  let w' := snd (SuggestionStore.generatePersonalizedSuggestions E ticTypeId w)
  in
  calls w'
    = calls w ++ [history_request E (clock w - week) (clock w);
                  PostGenerate ticTypeId []]
  /\ TicStoreState.error (tic w') = Some "Failed to fetch tic history"
  /\ TicStoreState.cachedHistoryRanges (tic w')
     = TicStoreState.cachedHistoryRanges (tic w).
Proof.
  intros Hover Hmiss Hhistory w'. subst w'.
  rewrite generate_cases. cbn zeta.
  rewrite (cooldown_over_gate ticTypeId w Hover).
  set (started := with_sug (set_error None (set_isLoading true (sug w))) w).
  assert (Hmiss' : cache_miss E (clock w - week) (clock w) started)
    by exact Hmiss.
  rewrite (getTicHistory_miss E started _ _ Hmiss').
  change (calls started) with (calls w). rewrite Hhistory.
  cbn [fst snd].
  destruct (api_suggestions_generate E _ ticTypeId []);
    [rewrite persistState_cases;
     destruct (storage_fault E SuggestionStore.STORAGE_KEY) |];
    cbn; rewrite <- app_assoc; repeat split.
Qed.

Lemma generate_despite_failed_history_witness :
  let E := Scenario.env false in
  let w := Scenario.world (Some "u1") in
  let w' :=
    snd (SuggestionStore.generatePersonalizedSuggestions E "t1" w) in
  (cooldown_over "t1" w
   /\ cache_miss E (clock w - week) (clock w) w
   /\ api_tics_history E (calls w) (toISOString E (clock w - week))
        (toISOString E (clock w)) = None)
  /\ calls w'
     = [history_request E (clock w - week) (clock w); PostGenerate "t1" []]
  /\ TicStoreState.error (tic w') = Some "Failed to fetch tic history".
Proof.
  cbn zeta.
  assert (Hover : cooldown_over "t1" (Scenario.world (Some "u1"))).
  { intros lastGeneration Hlast. vm_compute in Hlast. discriminate Hlast. }
  assert (Hmiss :
    cache_miss (Scenario.env false)
      (clock (Scenario.world (Some "u1")) - week)
      (clock (Scenario.world (Some "u1"))) (Scenario.world (Some "u1"))).
  { intros cached Hcached. vm_compute in Hcached. discriminate Hcached. }
  split; [split; [exact Hover | split; [exact Hmiss | reflexivity]] |].
  destruct (generate_despite_failed_history (Scenario.env false) "t1"
              (Scenario.world (Some "u1")) Hover Hmiss eq_refl)
    as (Hcalls & Herror & _).
  split; [exact Hcalls | exact Herror].
Defined.

(** *** What every action of the SuggestionStore keeps *)

Lemma fetchSuggestions_frame E R w ticTypeId :
  quiet (get_suggestions R ticTypeId) ->
  let w' :=
    snd (SuggestionStoreActions.fetchSuggestionsForTicType E R ticTypeId w) in
  tic w' = tic w /\ (listed_resolve (sug w) -> listed_resolve (sug w')).
Proof.
  intros Hquiet w'. subst w'.
  destruct (fetchSuggestions_cases E R w ticTypeId Hquiet)
    as (w1 & _ & Htic & Hcase).
  cbn zeta in Hcase.
  destruct (fst (get_suggestions R ticTypeId _)) as [[listed|]|message];
    rewrite Hcase; [rewrite persistState_cases |..].
  - assert (Hgoal : listed_resolve (sug w) ->
      listed_resolve
        (set_isLoading false
           (set_suggestionsByTicType
              (<[ticTypeId := map Suggestion.id listed]>
                 (suggestionsByTicType (sug w)))
              (set_suggestions
                 (index_by Suggestion.id listed (suggestions (sug w)))
                 (set_error None (set_isLoading true (sug w))))))).
    { intros Hinv.
      eapply (listed_resolve_store (sug w) listed ticTypeId);
        [exact Hinv | reflexivity | reflexivity |].
      apply index_by_keys. }
    destruct (storage_fault E SuggestionStore.STORAGE_KEY);
      (split; [exact Htic | exact Hgoal]).
  - split; [exact Htic |]. intros Hinv.
    eapply listed_resolve_same; [exact Hinv | reflexivity | reflexivity].
  - split; [exact Htic |]. intros Hinv.
    eapply listed_resolve_same; [exact Hinv | reflexivity | reflexivity].
Qed.

Lemma suggestion_call_frame E R c w :
  quiet_remote R ->
  let w' := suggestion_call E R c w in
  (TicStoreState.recentLogs (tic w') = TicStoreState.recentLogs (tic w)
   /\ TicStoreState.ticLogs (tic w') = TicStoreState.ticLogs (tic w)
   /\ TicStoreState.pendingLogs (tic w') = TicStoreState.pendingLogs (tic w)
   /\ TicStoreState.lastSync (tic w') = TicStoreState.lastSync (tic w))
  /\ (listed_resolve (sug w) -> listed_resolve (sug w'))
  /\ match c with
     | SuggestionCall.generatePersonalizedSuggestions _ => True
     | _ => tic w' = tic w
     end.
Proof.
  intros (_ & _ & Hlisted) w'. subst w'.
  assert (Hsame : forall w', tic w' = tic w ->
    TicStoreState.recentLogs (tic w') = TicStoreState.recentLogs (tic w)
    /\ TicStoreState.ticLogs (tic w') = TicStoreState.ticLogs (tic w)
    /\ TicStoreState.pendingLogs (tic w') = TicStoreState.pendingLogs (tic w)
    /\ TicStoreState.lastSync (tic w') = TicStoreState.lastSync (tic w)).
  { intros w' ->. repeat split. }
  destruct c; cbn [suggestion_call].
  - destruct (provideFeedback_frame E w feedback)
      as (Htic & _ & Hs & Hl & _).
    split; [apply Hsame; exact Htic |]. split; [| exact Htic].
    intros Hinv. exact (listed_resolve_same _ _ Hinv Hs Hl).
  - destruct (syncUserFeedback_frame E w) as (Htic & Hs & Hl).
    split; [apply Hsame; exact Htic |]. split; [| exact Htic].
    intros Hinv. exact (listed_resolve_same _ _ Hinv Hs Hl).
  - destruct (fetchSuggestions_frame E R w ticTypeId (Hlisted ticTypeId))
      as (Htic & Hinv).
    split; [apply Hsame; exact Htic |]. split; [exact Hinv | exact Htic].
  - destruct (generate_frame E ticTypeId w) as (Hkeeps & Hinv).
    split; [exact Hkeeps |]. split; [exact Hinv | exact I].
  - split; [repeat split |]. split; [| reflexivity].
    intros Hinv.
    eapply listed_resolve_same; [exact Hinv | reflexivity | reflexivity].
  - unfold SuggestionStore.retry. run.
    destruct (Nat.ltb 0 (length (operationQueue (sug w)))).
    + destruct (syncUserFeedback_frame E w) as (Htic & Hs & Hl).
      split; [apply Hsame; exact Htic |]. split; [| exact Htic].
      intros Hinv. exact (listed_resolve_same _ _ Hinv Hs Hl).
    + split; [repeat split |]. split; [tauto | reflexivity].
Qed.
End SuggestionStoreProperties.

(** ** Start-up and sessions *)

(** X20: start-up of both stores never throws and changes nothing in the
    world, whatever storage holds; every data property of the initial
    state is a property of the state the store starts with. *)
Theorem startup_never_throws E w :
  (exists state,
     TicStore.startup E w = (Returned state, w)
     /\ forall k,
          is_Some (obj_get k (TicStoreState_props (TicStore.initialState E)))
          -> is_Some (obj_get k state))
  /\ (exists state,
        SuggestionStore.startup E w = (Returned state, w)
        /\ forall k,
             is_Some
               (obj_get k
                  (SuggestionStoreState_props SuggestionStore.initialState))
             -> is_Some (obj_get k state)).
Proof.
  split.
  - assert (Hnone : no_snapshot E TicStore.STORAGE_KEY w ->
      exists state,
        TicStore.startup E w = (Returned state, w)
        /\ forall k,
             is_Some
               (obj_get k (TicStoreState_props (TicStore.initialState E)))
             -> is_Some (obj_get k state)).
    { intros Hno. destruct (startup_without_snapshot E w) as [Hinitial _].
      rewrite (Hinitial Hno). eexists.
      split; [reflexivity | intros k Hk; exact Hk]. }
    destruct (storage_fault E TicStore.STORAGE_KEY) eqn:Hfault;
      [apply Hnone; left; exact Hfault |].
    destruct (storage w !! TicStore.STORAGE_KEY) as [text|] eqn:Hstored;
      [| apply Hnone; right; left; exact Hstored].
    destruct (decide (text = EmptyString)) as [-> | Htext];
      [apply Hnone; right; right; left; exact Hstored |].
    destruct (JSON_parse E text) as [parsed|] eqn:Hparsed;
      [| apply Hnone; right; right; right; exists text;
         split; [exact Hstored | exact Hparsed]].
    unfold TicStore.startup. run.
    rewrite (loadPersistedState_cases E w text parsed Hfault Hstored Htext
               Hparsed).
    destruct parsed;
      repeat match goal with
             | |- context [match ?x with Some _ => _ | None => _ end] =>
                 destruct x
             end;
      (eexists; split;
       [reflexivity | intros k Hk; apply obj_spread_keeps; exact Hk]).
  - unfold SuggestionStore.startup, SuggestionStore.loadPersistedState. run.
    destruct (storage_fault E SuggestionStore.STORAGE_KEY);
      [eexists; split; [reflexivity | intros k Hk; exact Hk] |].
    destruct (storage w !! SuggestionStore.STORAGE_KEY) as [text|];
      [| eexists; split; [reflexivity | intros k Hk; exact Hk]].
    destruct text as [|c text];
      [eexists; split; [reflexivity | intros k Hk; exact Hk] |].
    destruct (JSON_parse E (String c text)) as [parsed|];
      (eexists; split;
       [reflexivity | intros k Hk; apply obj_spread_keeps; exact Hk]).
Qed.

(** X21: [recentLogs] never grows beyond ten logs.  If it holds at most ten
    logs, it holds at most ten after any sequence of calls of the actions of
    the two stores. *)
Theorem session_recentLogs E R cs w :
  quiet_remote R ->
  (length (TicStoreState.recentLogs (tic w)) <= 10)%nat ->
  (length (TicStoreState.recentLogs (tic (session E R cs w))) <= 10)%nat.
Proof.
  intros Hquiet. revert w.
  induction cs as [|c cs IH]; intros w Hlen; [exact Hlen |].
  cbn. apply IH. destruct c as [c | c]; cbn [call].
  - apply tic_call_recent; assumption.
  - destruct (suggestion_call_frame E R c w Hquiet) as ((Hrecent & _) & _).
    rewrite Hrecent. exact Hlen.
Qed.

Lemma session_recentLogs_witness :
  let E := Scenario.env true in
  let R := Cases.remote true in
  let w := Scenario.world_ten_recent in
  let w' := session E R Cases.busy_session w in
  (quiet_remote R
   /\ (length (TicStoreState.recentLogs (tic w)) <= 10)%nat)
  /\ (length (TicStoreState.recentLogs (tic w')) <= 10)%nat
  /\ map TicLog.id (TicStoreState.recentLogs (tic w'))
     = ["server-14"; "server-10"; "server-9"; "server-8"; "server-7";
        "server-6"; "server-5"; "server-4"; "server-3"; "server-2"].
Proof.
  cbn zeta.
  assert (Hlen :
    (length (TicStoreState.recentLogs (tic Scenario.world_ten_recent))
     <= 10)%nat) by (vm_compute; lia).
  split; [split; [apply remote_quiet | exact Hlen] |].
  split; [| vm_compute; reflexivity].
  exact (session_recentLogs (Scenario.env true) (Cases.remote true)
           Cases.busy_session Scenario.world_ten_recent
           (remote_quiet true) Hlen).
Defined.

(** X22: the catalogue of suggestions stays resolvable.  If every id listed
    for a tic type is a key of [suggestions], it is so after any sequence
    of calls of the actions of the two stores. *)
Theorem session_listed_resolve E R cs w :
  quiet_remote R ->
  listed_resolve (sug w) ->
  listed_resolve (sug (session E R cs w)).
Proof.
  intros Hquiet. revert w.
  induction cs as [|c cs IH]; intros w Hinv; [exact Hinv |].
  cbn. apply IH. destruct c as [c | c]; cbn [call].
  - rewrite tic_call_sug by exact Hquiet. exact Hinv.
  - destruct (suggestion_call_frame E R c w Hquiet) as (_ & Hstep & _).
    exact (Hstep Hinv).
Qed.

Lemma session_listed_resolve_witness :
  let E := Scenario.env true in
  let R := Cases.remote true in
  let w := Scenario.world (Some "u1") in
  let w' := session E R Cases.busy_session w in
  (quiet_remote R /\ listed_resolve (sug w))
  /\ listed_resolve (sug w')
  /\ SuggestionStoreState.suggestionsByTicType (sug w') !! "t1"
     = Some ["s1"; "s2"].
Proof.
  cbn zeta.
  split; [split; [apply remote_quiet | exact initial_listed_resolve] |].
  split; [| vm_compute; reflexivity].
  exact (session_listed_resolve (Scenario.env true) (Cases.remote true)
           Cases.busy_session (Scenario.world (Some "u1"))
           (remote_quiet true) initial_listed_resolve).
Defined.

(** X23: what one store does to the other.  No action of the TicStore
    changes the state of the SuggestionStore.  No action of the
    SuggestionStore but [generatePersonalizedSuggestions] changes the state
    of the TicStore, and that one, which reads the history, leaves the logs,
    the queue and [lastSync] of the TicStore as they were. *)
Theorem stores_isolated E R w :
  quiet_remote R ->
  (forall c, sug (tic_call E R c w) = sug w)
  /\ (forall c,
        (forall ticTypeId,
           c ≠ SuggestionCall.generatePersonalizedSuggestions ticTypeId) ->
        tic (suggestion_call E R c w) = tic w)
  /\ (forall ticTypeId,
        let w' :=
          snd (SuggestionStore.generatePersonalizedSuggestions E ticTypeId w)
        in
        TicStoreState.recentLogs (tic w') = TicStoreState.recentLogs (tic w)
        /\ TicStoreState.ticLogs (tic w') = TicStoreState.ticLogs (tic w)
        /\ TicStoreState.pendingLogs (tic w')
           = TicStoreState.pendingLogs (tic w)
        /\ TicStoreState.lastSync (tic w') = TicStoreState.lastSync (tic w)).
Proof.
  intros Hquiet. split; [| split].
  - intros c. apply tic_call_sug. exact Hquiet.
  - intros c Hother.
    destruct (suggestion_call_frame E R c w Hquiet) as (_ & _ & Htic).
    destruct c; try exact Htic. destruct (Hother ticTypeId eq_refl).
  - intros ticTypeId.
    destruct (generate_frame E ticTypeId w) as (Hkeeps & _). exact Hkeeps.
Qed.

Lemma stores_isolated_witness :
  let E := Scenario.env true in
  let R := Cases.remote true in
  let w := Scenario.world_ten_recent in
  quiet_remote R
  /\ sug (tic_call E R (TicCall.logTic Scenario.logData) w) = sug w
  /\ tic (suggestion_call E R
            (SuggestionCall.provideFeedback Scenario.feedback) w) = tic w
  /\ TicStoreState.recentLogs
       (tic (snd (SuggestionStore.generatePersonalizedSuggestions E "t1" w)))
     = TicStoreState.recentLogs (tic w).
Proof.
  cbn zeta. split; [apply remote_quiet |].
  destruct (stores_isolated (Scenario.env true) (Cases.remote true)
              Scenario.world_ten_recent (remote_quiet true))
    as (Hsug & Htic & Hgenerate).
  split; [apply Hsug |].
  split; [apply Htic; intros ticTypeId; discriminate |].
  destruct (Hgenerate "t1") as (Hrecent & _). exact Hrecent.
Defined.
